(** * goal-tracker-bot: daily plan pipeline, task parser and toggle handler

    A shallow embedding of the Telegram goal-tracker bot.  Two revisions of
    the bot live in the repository:

    - [src/bot.js], the plain revision (numbered goal list, [/delete N],
      plans stored as raw text only);
    - [src/unnamed/part_000], the checklist revision (carry-over of
      yesterday's unfinished tasks, parsed task list, inline check boxes).

    They share one PostgreSQL schema.  The shared part is modelled first
    (JavaScript strings and numbers, the tables, the effect monad), then
    each revision in a module of its own: [Checklist] and [BotJs]. *)

From Stdlib Require Import String Ascii DecimalString ZArith NArith List Bool Lia.
From Stdlib Require Import Permutation Sorted DecimalPos DecimalN.
Import ListNotations.

Set Implicit Arguments.

(** ** JavaScript strings

    A JavaScript string is a sequence of UTF-16 code units.  The regular
    expressions of the bot carry no [u] flag, so every pattern character
    consumes exactly one code unit. *)

Module JS.

Definition jsstring : Type := list N.

(** ASCII literals of the source, written as Rocq strings. *)
Definition lit (s : string) : jsstring :=
  map N_of_ascii (list_ascii_of_string s).

Definition nl : N := 10.

Section CharClasses.

Local Open Scope N_scope.

(** [\d] without the [u] flag: the ten ASCII digits. *)
Definition is_digit (c : N) : bool := (48 <=? c) && (c <=? 57).

(** ECMAScript LineTerminator: LF, CR, LS, PS.  The pattern [.] matches
    every code unit but these. *)
Definition is_line_terminator (c : N) : bool :=
    (c =? 10) || (c =? 13) || (c =? 8232) || (c =? 8233).

(** ECMAScript WhiteSpace + LineTerminator: what [\s] matches and what
    [String.prototype.trim] removes. *)
Definition is_space (c : N) : bool :=
    (c =? 9) || (c =? 11) || (c =? 12) || (c =? 32) || (c =? 160)
    || (c =? 5760) || ((8192 <=? c) && (c <=? 8202))
    || (c =? 8239) || (c =? 8287) || (c =? 12288) || (c =? 65279)
    || is_line_terminator c.

Definition is_star (c : N) : bool := c =? 42.

End CharClasses.

Section ListScan.

Variable A : Type.
Variable p : A -> bool.

Fixpoint take_while (l : list A) : list A :=
    match l with
    | x :: l' => if p x then x :: take_while l' else []
    | [] => []
    end.

Fixpoint drop_while (l : list A) : list A :=
    match l with
    | x :: l' => if p x then drop_while l' else l
    | [] => []
    end.

(** [b] does not begin with an element satisfying [p]: a scan for [p]
    stops right there. *)
Definition stops_at (b : list A) : Prop :=
  match b with
  | x :: _ => p x = false
  | [] => True
  end.

End ListScan.

(** [s.split(sep)] for a one-character separator: always at least one
    piece; a trailing separator yields a trailing empty piece. *)
Fixpoint split_on (sep : N) (s : jsstring) : list jsstring :=
  match s with
  | [] => [[]]
  | c :: s' =>
      if N.eqb c sep then [] :: split_on sep s'
      else match split_on sep s' with
           | l :: ls => (c :: l) :: ls
           | [] => [[c]]
           end
  end.

(** [s.replace(/\*/g, '')] *)
Definition remove_stars (s : jsstring) : jsstring :=
  filter (fun c => negb (is_star c)) s.

(** What a greedy run of [.] consumes: everything up to the first line
    terminator. *)
Definition up_to_line_terminator (s : jsstring) : jsstring :=
  take_while (fun c => negb (is_line_terminator c)) s.

(** [s.trim()] *)
Definition trim (s : jsstring) : jsstring :=
  rev (drop_while is_space (rev (drop_while is_space s))).

(** [a.join(sep)] *)
Fixpoint join (sep : jsstring) (l : list jsstring) : jsstring :=
  match l with
  | [] => []
  | [x] => x
  | x :: l' => x ++ sep ++ join sep l'
  end.

(** [s.startsWith(p)] *)
Fixpoint startsWith (p s : jsstring) : bool :=
  match p, s with
  | [], _ => true
  | a :: p', b :: s' => N.eqb a b && startsWith p' s'
  | _ :: _, [] => false
  end.

(** [t] occurs in [s] as a contiguous run of code units. *)
Definition occurs_in (t s : jsstring) : Prop :=
  exists pre post, s = pre ++ t ++ post.

(** ** Regular expressions

    The patterns of the bot are anchored at the start of the input and are
    sequences of items, each one character of a class or a greedy run of
    characters of a class, some of the runs being capture groups.  The
    matcher below is the backtracking one of the language: a greedy run
    first takes all it can and gives characters back one at a time, down
    to its least length, until the rest of the pattern matches. *)

Inductive item : Type :=
| One (cls : N -> bool)
| Many (cls : N -> bool) (least : nat) (capture : bool).

(** Try run lengths [n], [n - 1], ... down to [least]. *)
Fixpoint backtrack {R} (n least : nat) (attempt : nat -> option R) : option R :=
  match attempt n with
  | Some r => Some r
  | None =>
      match n with
      | O => None
      | S n' => if Nat.ltb n' least then None else backtrack n' least attempt
      end
  end.

(** The captures of the leftmost-greedy match of [items] at the start of
    [s], if there is a match; what follows the match is ignored. *)
Fixpoint match_from (items : list item) (s : jsstring)
  : option (list jsstring) :=
  match items with
  | [] => Some []
  | One cls :: items' =>
      match s with
      | c :: s' => if cls c then match_from items' s' else None
      | [] => None
      end
  | Many cls least capture :: items' =>
      let longest := List.length (take_while cls s) in
      if Nat.ltb longest least then None
      else
        backtrack longest least
          (fun n =>
             match match_from items' (skipn n s) with
             | Some groups =>
                 Some (if capture then firstn n s :: groups else groups)
             | None => None
             end)
  end.

(** ** JavaScript numbers

    Only integer-valued Numbers, the two infinities and NaN arise as task
    ordinals.  A finite Number is kept as the integer it denotes. *)

Inductive number : Type :=
| Fin (z : Z)
| Inf (negative : bool)
| NaN.

(** Round a non-negative integer to the nearest IEEE-754 double, ties to
    even; from [2^1024] on the result is [Infinity]. *)
Definition to_double (n : Z) : number :=
  if (n <? 2 ^ 53)%Z then Fin n
  else
    let e := (Z.log2 n - 52)%Z in
    let q := Z.shiftr n e in
    let r := (n mod 2 ^ e)%Z in
    let half := (2 ^ (e - 1))%Z in
    let q' := if (half <? r)%Z || ((r =? half)%Z && Z.odd q)
              then (q + 1)%Z else q in
    let v := (q' * 2 ^ e)%Z in
    if (2 ^ 1024 <=? v)%Z then Inf false else Fin v.

(** Value of a code unit as a digit of the given radix (10 or 16). *)
Definition radix_digit (radix : Z) (c : N) : option Z :=
  let v := Z.of_N c in
  if is_digit c then Some (v - 48)%Z
  else if (radix =? 16)%Z && (97 <=? v)%Z && (v <=? 102)%Z then Some (v - 87)%Z
  else if (radix =? 16)%Z && (65 <=? v)%Z && (v <=? 70)%Z then Some (v - 55)%Z
  else None.

Definition is_radix_digit (radix : Z) (c : N) : bool :=
  match radix_digit radix c with Some _ => true | None => false end.

(** The mathematical integer written by a run of digits. *)
Definition digits_value (radix : Z) (ds : jsstring) : Z :=
  fold_left
    (fun acc c => (radix * acc + match radix_digit radix c with
                                 | Some v => v
                                 | None => 0
                                 end)%Z)
    ds 0%Z.

Definition negate (n : number) : number :=
  match n with
  | Fin z => Fin (- z)
  | Inf s => Inf (negb s)
  | NaN => NaN
  end.

Definition strip_sign (s : jsstring) : bool * jsstring :=
  match s with
  | c :: r =>
      if N.eqb c 45 then (true, r)
      else if N.eqb c 43 then (false, r)
      else (false, s)
  | [] => (false, s)
  end.

Definition strip_radix_prefix (s : jsstring) : Z * jsstring :=
  match s with
  | z :: x :: r =>
      if N.eqb z 48 && (N.eqb x 120 || N.eqb x 88)
      then (16%Z, r) else (10%Z, s)
  | _ => (10%Z, s)
  end.

(** [parseInt(s)] with no radix argument: leading white space is skipped,
    then an optional sign, then an optional [0x]/[0X] prefix selecting
    radix 16; the longest run of digits is read and anything after it is
    ignored; no digit at all gives [NaN].  The value is the Number nearest
    to the integer read (the engine converts the whole digit run). *)
Definition parseInt (s : jsstring) : number :=
  let '(neg, s2) := strip_sign (drop_while is_space s) in
  let '(radix, s3) := strip_radix_prefix s2 in
  match take_while (is_radix_digit radix) s3 with
  | [] => NaN
  | ds =>
      let v := to_double (digits_value radix ds) in
      if neg then negate v else v
  end.

End JS.

(** ** The relational store

    Logical schema:
    [users(id, chat_id UNIQUE, username)],
    [goals(id, user_id, description, deadline NULLABLE, priority)],
    [daily_activities(user_id, activity_date, content, tasks JSON,
    UNIQUE(user_id, activity_date))].
    A table is the list of its rows in physical order. *)

Module Store.

Import JS.

Record User : Type := mkUser {
  user_id : Z;
  chat_id : Z
}.

Record Goal : Type := mkGoal {
  goal_id : Z;
  goal_user : Z;
  description : jsstring;
  deadline : option jsstring;
  priority : Z
}.

(** One element of the task array.  [I] is the type of the ordinal: a
    Number in the object the parser builds, a JSON number or [null] once
    the array has been through [JSON.stringify] and the store. *)
Record Task (I : Type) : Type := mkTask {
  id : I;
  text : jsstring;
  done : bool
}.

Definition json_id : Type := option Z.

(** [JSON.stringify] writes a finite Number as itself and [Infinity],
    [-Infinity] and [NaN] as [null]. *)
Definition JSON_number (n : number) : json_id :=
  match n with
  | Fin z => Some z
  | _ => None
  end.

Definition JSON_stringify (ts : list (Task number)) : list (Task json_id) :=
  map (fun t => mkTask (JSON_number (id t)) (text t) (done t)) ts.

(** A calendar date is kept as its day number (days since 1970-01-01);
    the [YYYY-MM-DD] rendering the bot passes to the store is one-to-one
    with it. *)
Definition date : Type := Z.

Record Activity : Type := mkActivity {
  act_user : Z;
  activity_date : date;
  content : jsstring;
  tasks : option (list (Task json_id))
}.

Record DB : Type := mkDB {
  users : list User;
  goals : list Goal;
  daily_activities : list Activity
}.

Definition activity_key (a : Activity) : Z * date :=
  (act_user a, activity_date a).

Definition has_key (u : Z) (d : date) (a : Activity) : bool :=
  Z.eqb (act_user a) u && Z.eqb (activity_date a) d.

(** The constraint [UNIQUE(user_id, activity_date)]. *)
Definition unique_activities (db : DB) : Prop :=
  NoDup (map activity_key (daily_activities db)).

(** Number of records a (user, date) pair owns. *)
Definition count_activities (u : Z) (d : date) (db : DB) : nat :=
  length (filter (has_key u d) (daily_activities db)).

(** [SELECT id FROM users WHERE chat_id = $1] *)
Definition select_user_by_chat (chat : Z) (db : DB) : list User :=
  filter (fun u => Z.eqb (chat_id u) chat) (users db).

(** [SELECT tasks FROM daily_activities WHERE user_id = $1 AND
    activity_date = $2] *)
Definition select_tasks (u : Z) (d : date) (db : DB)
  : list (option (list (Task json_id))) :=
  map tasks (filter (has_key u d) (daily_activities db)).

(** [INSERT ... ON CONFLICT (user_id, activity_date) DO UPDATE SET ...]:
    the rows already under the key are rewritten by [on_conflict]; when
    there is none, [fresh] is appended. *)
Definition upsert_row (u : Z) (d : date) (on_conflict : Activity -> Activity)
  (fresh : Activity) (db : DB) : DB :=
  let rows := daily_activities db in
  mkDB (users db) (goals db)
    (if existsb (has_key u d) rows
     then map (fun a => if has_key u d a then on_conflict a else a) rows
     else rows ++ [fresh]).

(** [INSERT INTO daily_activities (user_id, content, tasks, activity_date)
    VALUES ($1, $2, $3, d) ON CONFLICT (user_id, activity_date) DO UPDATE
    SET content = EXCLUDED.content, tasks = EXCLUDED.tasks] *)
Definition upsert_activity (u : Z) (d : date) (c : jsstring)
  (ts : option (list (Task json_id))) : DB -> DB :=
  upsert_row u d
    (fun a => mkActivity (act_user a) (activity_date a) c ts)
    (mkActivity u d c ts).

(** [INSERT INTO daily_activities (user_id, content) VALUES ($1, $2)
    ON CONFLICT (user_id, activity_date) DO UPDATE SET content = $2]:
    the date column takes its default, the current date; a fresh row has
    no task array, an existing row keeps the one it has. *)
Definition upsert_content (u : Z) (d : date) (c : jsstring) : DB -> DB :=
  upsert_row u d
    (fun a => mkActivity (act_user a) (activity_date a) c (tasks a))
    (mkActivity u d c None).

(** [UPDATE daily_activities SET tasks = $1 WHERE user_id = $2 AND
    activity_date = d] *)
Definition update_tasks (u : Z) (d : date) (ts : list (Task json_id))
  (db : DB) : DB :=
  mkDB (users db) (goals db)
    (map (fun a => if has_key u d a
                   then mkActivity (act_user a) (activity_date a)
                          (content a) (Some ts)
                   else a) (daily_activities db)).

(** [DELETE FROM goals WHERE id = $1] *)
Definition delete_goal (g : Z) (db : DB) : DB :=
  mkDB (users db)
    (filter (fun x => negb (Z.eqb (goal_id x) g)) (goals db))
    (daily_activities db).

(** [ORDER BY]: stable insertion sort under a total preorder. *)
Section OrderBy.

Variable A : Type.
Variable le : A -> A -> bool.

Fixpoint insert_sorted (x : A) (l : list A) : list A :=
  match l with
  | [] => [x]
  | y :: l' => if le x y then x :: l else y :: insert_sorted x l'
  end.

Definition order_by (l : list A) : list A :=
  fold_right insert_sorted [] l.

End OrderBy.

(** [ORDER BY priority DESC, id ASC] *)
Definition by_priority_then_id (a b : Goal) : bool :=
  Z.ltb (priority b) (priority a)
  || (Z.eqb (priority a) (priority b) && Z.leb (goal_id a) (goal_id b)).

(** [ORDER BY id ASC] *)
Definition by_id (a b : Goal) : bool := Z.leb (goal_id a) (goal_id b).

Definition goals_of (u : Z) (db : DB) : list Goal :=
  filter (fun g => Z.eqb (goal_user g) u) (goals db).

End Store.

(** ** Effects

    Every handler of the bot is an [async] function over three
    collaborators: the store ([pool.query]), the chat transport
    ([bot.sendMessage] and friends) and the generation provider
    ([model.generateContent]).  A handler is modelled as a function from
    the store's state to the events it emitted in order, the store's final
    state, and either a value or the exception that escaped. *)

Module Effects.

Import JS Store.

Inductive Sql : Type :=
| SelectUserByChat (chat : Z)
| SelectAllUsers
| SelectTasks (u : Z) (d : date)
| SelectGoalsByPriority (u : Z)
| SelectGoalsById (u : Z)
| SelectGoalsOfChat (chat : Z)
| UpsertActivity (u : Z) (d : date) (c : jsstring) (ts : list (Task json_id))
| UpsertContent (u : Z) (d : date) (c : jsstring)
| UpdateTasks (u : Z) (d : date) (ts : list (Task json_id))
| DeleteGoal (g : jsstring)
| DeleteGoalById (g : Z).

Definition is_write (q : Sql) : bool :=
  match q with
  | UpsertActivity _ _ _ _ | UpsertContent _ _ _ | UpdateTasks _ _ _
  | DeleteGoal _ | DeleteGoalById _ => true
  | _ => false
  end.

(** The inline keyboards the bot attaches.  A check-box button shows
    [`${id} ${icon}`] and carries [`check_task_${id}`]: both are fixed by
    the ordinal and the icon, which is what is recorded. *)
Inductive Keyboard : Type :=
| NoKeyboard
| PlanButtons (rows : list (list number))
| ChecklistButtons (rows : list (list (json_id * bool))).

Inductive Event : Type :=
| Query (q : Sql)
| SendMessage (chat : Z) (body : jsstring) (kb : Keyboard)
| EditMessageText (chat msg : Z) (lines : list (Task json_id))
    (quote : option jsstring) (kb : Keyboard)
| DeleteMessage (chat msg : Z)
| AnswerCallbackQuery (query : Z)
| GenerateContent (prompt : jsstring)
| ConsoleLog
| ConsoleError
| Sleep (ms : Z).

Inductive Error : Type :=
| StoreError
| TransportError
| ProviderError
| TypeError.

Definition error_of (ev : Event) : Error :=
  match ev with
  | Query _ => StoreError
  | GenerateContent _ => ProviderError
  | _ => TransportError
  end.

(** What one invocation cannot control: the clock, the time zones of the
    host process and of the store session (seconds east of UTC), which
    awaited calls fail, what the provider answers, and how the store reads
    an integer out of a text parameter. *)
Record Env : Type := mkEnv {
  now : Z;
  host_tz : Z;
  store_tz : Z;
  fails : Event -> bool;
  response : jsstring -> jsstring;
  pg_integer : jsstring -> option Z
}.

Inductive result (A : Type) : Type :=
| Ok (a : A)
| Throw (err : Error).

Arguments Throw {A} err.

Record Run (A : Type) : Type := mkRun {
  emitted : list Event;
  final : DB;
  outcome : result A
}.

Definition M (A : Type) : Type := DB -> Run A.

Definition ret {A} (a : A) : M A := fun db => mkRun [] db (Ok a).

Definition bind {A B} (m : M A) (k : A -> M B) : M B :=
  fun db =>
    match m db with
    | mkRun evs db1 (Ok a) =>
        match k a db1 with
        | mkRun evs' db2 o => mkRun (evs ++ evs') db2 o
        end
    | mkRun evs db1 (Throw err) => mkRun evs db1 (Throw err)
    end.

Definition throw {A} (err : Error) : M A := fun db => mkRun [] db (Throw err).

(** [try { body } catch (err) { handler }] *)
Definition try_catch {A} (body : M A) (handler : Error -> M A) : M A :=
  fun db =>
    match body db with
    | mkRun evs db1 (Ok a) => mkRun evs db1 (Ok a)
    | mkRun evs db1 (Throw err) =>
        match handler err db1 with
        | mkRun evs' db2 o => mkRun (evs ++ evs') db2 o
        end
    end.

Declare Scope js_scope.
Delimit Scope js_scope with js.
Notation "x <- m ;; k" := (bind m (fun x => k))
  (at level 100, m at next level, right associativity) : js_scope.
Notation "m ;; k" := (bind m (fun _ => k))
  (at level 100, right associativity) : js_scope.
Local Open Scope js_scope.

(** A call whose promise is not awaited: it is issued, and its failure,
    if any, is a rejection nobody in this control flow observes. *)
Definition fire (ev : Event) : M unit :=
  fun db => mkRun [ev] db (Ok tt).

(** An awaited call that does not touch the store. *)
Definition await (e : Env) (ev : Event) : M unit :=
  fun db => mkRun [ev] db (if fails e ev then Throw (error_of ev) else Ok tt).

(** [await pool.query(...)] for a [SELECT]. *)
Definition pool_select {A} (e : Env) (q : Sql) (rows : DB -> A) : M A :=
  fun db =>
    mkRun [Query q] db
      (if fails e (Query q) then Throw StoreError else Ok (rows db)).

(** [await pool.query(...)] for a statement that writes: a failed
    statement leaves the tables as they were. *)
Definition pool_exec (e : Env) (q : Sql) (f : DB -> DB) : M unit :=
  fun db =>
    if fails e (Query q) then mkRun [Query q] db (Throw StoreError)
    else mkRun [Query q] (f db) (Ok tt).

(** [for (const x of xs) { await f(x) }] *)
Fixpoint for_each {X} (xs : list X) (f : X -> M unit) : M unit :=
  match xs with
  | [] => ret tt
  | x :: xs' => f x ;; for_each xs' f
  end.

(** The [bot.sendMessage] calls among some events: chat and text. *)
Definition sent (evs : list Event) : list (Z * jsstring) :=
  flat_map (fun ev => match ev with
                      | SendMessage chat body _ => [(chat, body)]
                      | _ => []
                      end) evs.


(** What the user gets to see: messages sent, edited or deleted. *)
Definition shown (evs : list Event) : list Event :=
  filter (fun ev => match ev with
                    | SendMessage _ _ _ | EditMessageText _ _ _ _ _
                    | DeleteMessage _ _ => true
                    | _ => false
                    end) evs.

(** The statements among some events that write to the store. *)
Definition writes (evs : list Event) : list Sql :=
  flat_map (fun ev => match ev with
                      | Query q => if is_write q then [q] else []
                      | _ => []
                      end) evs.

(** The prompts handed to the generation provider. *)
Definition prompts (evs : list Event) : list jsstring :=
  flat_map (fun ev => match ev with
                      | GenerateContent p => [p]
                      | _ => []
                      end) evs.

(** *** Calendar dates *)

Definition seconds_per_day : Z := 86400.

(** Africa/Lagos is West Africa Time, UTC+1, with no daylight saving. *)
Definition lagos_tz : Z := 3600.

(** The calendar date shown by a clock [tz] seconds east of UTC. *)
Definition date_in (tz : Z) (t : Z) : date := ((t + tz) / seconds_per_day)%Z.

(** [CURRENT_DATE]: the date of the statement's start in the time zone of
    the store session. *)
Definition CURRENT_DATE (e : Env) : date := date_in (store_tz e) (now e).

End Effects.

(** ** The checklist revision ([src/unnamed/part_000]) *)

Module Checklist.

Import JS Store Effects.
Local Open Scope js_scope.

(** *** Step 1: the key of yesterday's record

    [new Date().toLocaleString("en-US", {timeZone: "Africa/Lagos"})] is
    the Lagos wall-clock reading, to the second.  [new Date(lagosTime)]
    reads that text back as a wall-clock reading of the host's own zone.
    [setDate(getDate() - 1)] moves it one calendar day back, and
    [toISOString().split('T')[0]] is the UTC date of the resulting instant.
    Instants are seconds since the epoch; the host zone has a fixed
    offset. *)

Definition lagosTime (e : Env) : Z := (now e + lagos_tz)%Z.

Definition todayDate (e : Env) : Z := (lagosTime e - host_tz e)%Z.

Definition yesterdayDate (e : Env) : Z := (todayDate e - seconds_per_day)%Z.

Definition yesterdayStr (e : Env) : date := date_in 0 (yesterdayDate e).

(** *** Step 5: the task parser *)

(** The character class [[\.\)\:\s]]. *)
Definition is_separator (c : N) : bool :=
  N.eqb c 46 || N.eqb c 41 || N.eqb c 58 || is_space c.

(** The pattern of a task line: start of input, group 1 [\d+], one
    character of the class above, [\s*], and group 2, a greedy run of
    [.], with no end anchor. *)
Definition task_pattern : list item :=
  [ Many is_digit 1 true;
    One is_separator;
    Many is_space 0 false;
    Many (fun c => negb (is_line_terminator c)) 0 true ].

(** [cleanLine.match(...)]: the two captures, when the line matches. *)
Definition match_task (cleanLine : jsstring) : option (jsstring * jsstring) :=
  match match_from task_pattern cleanLine with
  | Some [m1; m2] => Some (m1, m2)
  | _ => None
  end.

(** The shape the specification gives a task line, read off the cleaned
    line: a non-empty run of digits, one separator, a run of white space
    as long as it can be, and the rest. *)
Definition task_shape (cleanLine ds : jsstring) (sep : N) (ws rest : jsstring)
  : Prop :=
  cleanLine = ds ++ sep :: ws ++ rest
  /\ ds <> []
  /\ forallb is_digit ds = true
  /\ is_separator sep = true
  /\ forallb is_space ws = true
  /\ stops_at is_space rest.

(** The body of [lines.forEach]: the task pushed for one line, if any. *)
Definition parse_line (line : jsstring) : option (Task number) :=
  let cleanLine := trim (remove_stars line) in
  match match_task cleanLine with
  | Some (m1, m2) => Some (mkTask (parseInt m1) (trim m2) false)
  | None => None
  end.

(** What one line adds to the task array. *)
Definition pushed (line : jsstring) : list (Task number) :=
  match parse_line line with
  | Some t => [t]
  | None => []
  end.

Definition parseTasks (text : jsstring) : list (Task number) :=
  fold_left
    (fun tasksArray line =>
       match parse_line line with
       | Some t => tasksArray ++ [t]
       | None => tasksArray
       end)
    (split_on nl text) [].

(** The input of the specification's parser example. *)
Definition sample_plan : jsstring :=
  lit "1. Finish report" ++ [nl] ++ lit "2) Call client" ++ [nl]
  ++ lit "**3:** Review notes" ++ [nl] ++ lit "Keep going!".

(** *** Step 3: the prompt *)

(** JavaScript truthiness of a nullable text column: [null] and the empty
    string are falsy. *)
Definition truthy (s : option jsstring) : option jsstring :=
  match s with
  | Some (_ :: _) => s
  | _ => None
  end.

Definition goal_line (g : Goal) : jsstring :=
  match truthy (deadline g) with
  | Some d => lit "- " ++ description g ++ lit " (Deadline: " ++ d ++ lit ")"
  | None => lit "- " ++ description g
  end.

Definition goalsText (goals : list Goal) : jsstring :=
  join [nl] (map goal_line goals).

Definition prompt_template (goalsText : jsstring) : jsstring :=
  [nl]
  ++ lit "            Context: The user has the following long-term goals:"
  ++ [nl] ++ goalsText ++ [nl]
  ++ lit "            " ++ [nl]
  ++ lit "            Instructions: Generate a strictly numbered daily to-do list for TODAY."
  ++ [nl]
  ++ lit "            - Create exactly ONE actionable task for EACH long-term goal."
  ++ [nl]
  ++ lit "            - Format output exactly like:" ++ [nl]
  ++ lit "              1. Task text here" ++ [nl]
  ++ lit "              2. Task text here" ++ [nl]
  ++ lit "            - Do not use markdown bolding on the numbers." ++ [nl]
  ++ lit "            - Add a short motivational quote at the very end." ++ [nl]
  ++ lit "        ".

Definition carry_over_instruction (unfinishedTasks : list jsstring) : jsstring :=
  [nl]
  ++ lit "IMPORTANT: Include these unfinished tasks from yesterday first:"
  ++ [nl] ++ join [nl] unfinishedTasks.

Definition build_prompt (goals : list Goal) (unfinishedTasks : list jsstring)
  : jsstring :=
  prompt_template (goalsText goals)
  ++ match unfinishedTasks with
     | [] => []
     | _ :: _ => carry_over_instruction unfinishedTasks
     end.

(** [yesterdayRes.rows[0].tasks.filter(t => !t.done).map(t => t.text)],
    guarded by [rows.length > 0 && rows[0].tasks]. *)
Definition unfinished_of (rows : list (option (list (Task json_id))))
  : list jsstring :=
  match rows with
  | Some ts :: _ => map (@text _) (filter (fun t => negb (done t)) ts)
  | _ => []
  end.

(** *** Step 7: rows of five buttons *)

Fixpoint rows_of_five_from {B} (row : list B) (l : list B) : list (list B) :=
  match l with
  | [] => match row with [] => [] | _ :: _ => [row] end
  | b :: l' =>
      let row' := row ++ [b] in
      if Nat.eqb (List.length row') 5
      then row' :: rows_of_five_from [] l'
      else rows_of_five_from row' l'
  end.

Definition rows_of_five {B} (l : list B) : list (list B) :=
  rows_of_five_from [] l.

(** *** Messages *)

Definition msg_checking : jsstring :=
  [55358; 56598]%N
  ++ lit " Checking yesterday's progress and generating today's plan...".

Definition msg_no_goals : jsstring :=
  [55356; 57093]%N
  ++ lit " Good morning! You have no active goals. Use /addgoal to start.".

Definition msg_snag : jsstring :=
  [9888; 65039]%N
  ++ lit " I tried to generate your plan but hit a snag. Please try /generate again.".

Definition msg_plan_header : jsstring :=
  [55356; 57118]%N ++ lit " **Here is your plan for today:**".

Definition msg_carried_header : jsstring :=
  [9888; 65039]%N ++ lit " **Carried over unfinished tasks!** " ++ [nl; nl]
  ++ msg_plan_header.

Definition msg_goal_deleted : jsstring :=
  [9989]%N ++ lit " Goal deleted.".

(** *** The plan orchestrator *)

Definition generateAndSendDailyPlan (e : Env) (chatId userId : Z) : M unit :=
  try_catch
    (fire (SendMessage chatId msg_checking NoKeyboard) ;;
     (* 1. yesterday's unfinished tasks *)
     yesterdayRes <- pool_select e (SelectTasks userId (yesterdayStr e))
                       (select_tasks userId (yesterdayStr e)) ;;
     let unfinishedTasks := unfinished_of yesterdayRes in
     (* 2. active goals *)
     goals <- pool_select e (SelectGoalsByPriority userId)
                (fun db => order_by by_priority_then_id (goals_of userId db)) ;;
     match goals, unfinishedTasks with
     | [], [] => fire (SendMessage chatId msg_no_goals NoKeyboard)
     | _, _ =>
         (* 3. prompt, 4. generation *)
         let prompt := build_prompt goals unfinishedTasks in
         await e (GenerateContent prompt) ;;
         let text := response e prompt in
         fire ConsoleLog ;;
         (* 5. parsing *)
         let tasksArray := parseTasks text in
         fire ConsoleLog ;;
         (* 6. save *)
         pool_exec e
           (UpsertActivity userId (CURRENT_DATE e) text
              (JSON_stringify tasksArray))
           (upsert_activity userId (CURRENT_DATE e) text
              (Some (JSON_stringify tasksArray))) ;;
         (* 7. buttons, 8. message *)
         let buttons := rows_of_five (map (@id _) tasksArray) in
         let msgHeader :=
           match unfinishedTasks with
           | [] => msg_plan_header
           | _ :: _ => msg_carried_header
           end in
         await e (SendMessage chatId (msgHeader ++ [nl; nl] ++ text)
                    (PlanButtons buttons))
     end)
    (fun error =>
       fire ConsoleError ;;
       fire (SendMessage chatId msg_snag NoKeyboard)).

(** *** The callback-query handler *)

Record CallbackQuery : Type := mkQuery {
  query_id : Z;
  message_chat : Z;
  message_id : Z;
  message_text : jsstring;
  data : jsstring
}.

(** [t.id === taskNum] for an ordinal read back from the store. *)
Definition id_is (taskNum : number) (t : Task json_id) : bool :=
  match id t, taskNum with
  | Some z, Fin k => Z.eqb z k
  | _, _ => false
  end.

(** [t.done = !t.done] *)
Definition flipped (t : Task json_id) : Task json_id :=
  mkTask (id t) (text t) (negb (done t)).

(** What the [tasks.map] callback returns for one element. *)
Definition toggled (taskNum : number) (t : Task json_id) : Task json_id :=
  if id_is taskNum t then flipped t else t.

(** Today's stored task list of the user behind a chat, as the handler
    reads it: empty when the chat belongs to no user, when the user has no
    record today, and when the record has no task array. *)
Definition todays_tasks (e : Env) (chat : Z) (db : DB) : list (Task json_id) :=
  match select_user_by_chat chat db with
  | [] => []
  | user :: _ =>
      match select_tasks (user_id user) (CURRENT_DATE e) db with
      | Some ts :: _ => ts
      | _ => []
      end
  end.

(** How one toggle for [taskNum] relates a task before to the task after:
    same ordinal, same text, flag inverted exactly when the ordinal is
    [taskNum]. *)
Definition toggles (taskNum : number) (before after : Task json_id) : Prop :=
  id after = id before
  /\ text after = text before
  /\ done after = if id_is taskNum before
                  then negb (done before) else done before.

(** The [tasks.map] callback together with the flag it raises: every
    element whose ordinal is [taskNum] has [done] negated. *)
Definition toggle_tasks (taskNum : number) (tasks : list (Task json_id))
  : list (Task json_id) * bool :=
  fold_left
    (fun '(out, taskFound) t =>
       if id_is taskNum t
       then (out ++ [flipped t], true)
       else (out ++ [t], taskFound))
    tasks ([], false).

(** [quote.match(...)] for the pattern: start of input, [\d+], a full
    stop. *)
Definition looks_numbered (quote : jsstring) : bool :=
  match match_from [Many is_digit 1 false; One (N.eqb 46)] quote with
  | Some _ => true
  | None => false
  end.

(** The last line of the message being edited, kept as closing remark
    unless it looks like a numbered task. *)
Definition closing_quote (message_text : jsstring) : option jsstring :=
  let quote := last (split_on nl message_text) [] in
  if looks_numbered quote then None else Some quote.

(** [parseInt(data.split('_')[2])]; a missing third piece is [undefined],
    which [parseInt] reads as the text [undefined]: no digit, [NaN]. *)
Definition taskNum_of (data : jsstring) : number :=
  match nth_error (split_on 95 data) 2 with
  | Some piece => parseInt piece
  | None => NaN
  end.

(** [data.split('_')[2]]; under the [startsWith] guard the third piece
    always exists. *)
Definition goalId_of (data : jsstring) : jsstring :=
  nth 2 (split_on 95 data) [].

(** [await pool.query('DELETE FROM goals WHERE id = $1', [goalId])] with a
    text parameter: the store reads the integer out of it and rejects the
    statement when it cannot. *)
Definition delete_goal_query (e : Env) (goalId : jsstring) : M unit :=
  fun db =>
    match fails e (Query (DeleteGoal goalId)), pg_integer e goalId with
    | false, Some g => mkRun [Query (DeleteGoal goalId)] (delete_goal g db) (Ok tt)
    | _, _ => mkRun [Query (DeleteGoal goalId)] db (Throw StoreError)
    end.

Definition on_callback_query (e : Env) (query : CallbackQuery) : M unit :=
  let chatId := message_chat query in
  let msgId := message_id query in
  userRes <- pool_select e (SelectUserByChat chatId)
               (select_user_by_chat chatId) ;;
  match userRes with
  | [] => ret tt
  | user :: _ =>
      let userId := user_id user in
      (* 1. checklist clicks *)
      (if startsWith (lit "check_task_") (data query) then
         let taskNum := taskNum_of (data query) in
         try_catch
           (dbRes <- pool_select e (SelectTasks userId (CURRENT_DATE e))
                       (select_tasks userId (CURRENT_DATE e)) ;;
            match dbRes with
            | [] => ret tt
            | row :: _ =>
                let tasks := match row with Some ts => ts | None => [] end in
                let '(tasks, taskFound) := toggle_tasks taskNum tasks in
                if taskFound then
                  pool_exec e (UpdateTasks userId (CURRENT_DATE e) tasks)
                    (update_tasks userId (CURRENT_DATE e) tasks) ;;
                  let buttons :=
                    rows_of_five (map (fun t => (id t, done t)) tasks) in
                  await e (EditMessageText chatId msgId tasks
                             (closing_quote (message_text query))
                             (ChecklistButtons buttons))
                else ret tt
            end)
           (fun err => fire ConsoleError)
       else ret tt) ;;
      (* 2. goal deletion *)
      (if startsWith (lit "delete_goal_") (data query) then
         let goalId := goalId_of (data query) in
         try_catch
           (delete_goal_query e goalId ;;
            await e (DeleteMessage chatId msgId) ;;
            await e (SendMessage chatId msg_goal_deleted NoKeyboard))
           (fun err => fire ConsoleError)
       else ret tt) ;;
      fire (AnswerCallbackQuery (query_id query))
  end.

(** *** The 6 AM scheduler

    Each user's invocation meets an environment of its own. *)

Definition daily_plans (e : Env) (env_for : User -> Env) : M unit :=
  fire ConsoleLog ;;
  users <- pool_select e SelectAllUsers (@users) ;;
  for_each users
    (fun user =>
       generateAndSendDailyPlan (env_for user) (chat_id user) (user_id user)).

End Checklist.

(** ** The plain revision ([src/bot.js]) *)

Module BotJs.

Import JS Store Effects.
Local Open Scope js_scope.

(** [String(n)] for an array index or length. *)
Definition show_nat (n : nat) : jsstring :=
  lit (NilZero.string_of_uint (Nat.to_uint n)).

Definition quot : N := 34.

Definition truthy (s : option jsstring) : option jsstring :=
  match s with
  | Some (_ :: _) => s
  | _ => None
  end.

Definition goal_line (g : Goal) : jsstring :=
  match truthy (deadline g) with
  | Some d => lit "- " ++ description g ++ lit " (Deadline: " ++ d ++ lit ")"
  | None => lit "- " ++ description g
  end.

Definition goalsText (goals : list Goal) : jsstring :=
  join [nl] (map goal_line goals).

Definition build_prompt (goals : list Goal) : jsstring :=
  [nl]
  ++ lit "        I have the following goals for this year:" ++ [nl]
  ++ lit "        " ++ goalsText goals ++ [nl]
  ++ [nl]
  ++ lit "        Please generate a daily activity list for TODAY to help me move towards these goals."
  ++ [nl]
  ++ lit "        - Create exactly ONE actionable task for EACH goal." ++ [nl]
  ++ lit "        - Prioritize goals with closer deadlines (if mentioned)."
  ++ [nl]
  ++ lit "        - Each task should be achievable in 30-60 minutes." ++ [nl]
  ++ lit "        - Be specific and actionable (not vague like " ++ [quot]
  ++ lit "work on X" ++ [quot] ++ lit " but " ++ [quot]
  ++ lit "complete Y for X" ++ [quot] ++ lit ")." ++ [nl]
  ++ lit "        - Format the output as a numbered list (1., 2., 3.)." ++ [nl]
  ++ lit "        - Add a short motivational quote at the end." ++ [nl]
  ++ lit "        - Do not use markdown bolding (**) just plain text is fine."
  ++ [nl]
  ++ lit "        ".

Definition msg_no_goals : jsstring :=
  [55356; 57093]%N
  ++ lit " Good morning! You have no active goals. Use /addgoal to start.".

Definition msg_generating : jsstring :=
  [55358; 56598]%N ++ lit " Generating your daily activity plan...".

Definition msg_plan (text : jsstring) : jsstring :=
  [55356; 57118]%N ++ lit " *Here is your plan for today:* " ++ [nl; nl] ++ text.

Definition msg_snag : jsstring :=
  [9888; 65039]%N
  ++ lit " I tried to generate your plan but hit a snag. Please try again later.".

(** The [INSERT] names no [activity_date]: the column takes its default,
    which the conflict target [(user_id, activity_date)] presupposes to be
    the current date. *)
Definition generateAndSendDailyPlan (e : Env) (chatId userId : Z) : M unit :=
  try_catch
    (goals <- pool_select e (SelectGoalsByPriority userId)
                (fun db => order_by by_priority_then_id (goals_of userId db)) ;;
     match goals with
     | [] => fire (SendMessage chatId msg_no_goals NoKeyboard)
     | _ :: _ =>
         fire (SendMessage chatId msg_generating NoKeyboard) ;;
         let prompt := build_prompt goals in
         await e (GenerateContent prompt) ;;
         let text := response e prompt in
         pool_exec e (UpsertContent userId (CURRENT_DATE e) text)
           (upsert_content userId (CURRENT_DATE e) text) ;;
         fire (SendMessage chatId (msg_plan text) NoKeyboard)
     end)
    (fun error =>
       fire ConsoleError ;;
       fire (SendMessage chatId msg_snag NoKeyboard)).

(** *** [/mygoals]: the numbered listing *)

(** [FROM goals g JOIN users u ON g.user_id = u.id WHERE u.chat_id = $1] *)
Definition goals_of_chat (chat : Z) (db : DB) : list Goal :=
  flat_map
    (fun g =>
       map (fun _ => g)
         (filter (fun u => Z.eqb (goal_user g) (user_id u)
                           && Z.eqb (chat_id u) chat) (users db)))
    (goals db).

(** The rows [/mygoals] numbers from 1: [ORDER BY g.priority DESC, g.id
    ASC]. *)
Definition listing (chat : Z) (db : DB) : list Goal :=
  order_by by_priority_then_id (goals_of_chat chat db).

Fixpoint list_items (i : nat) (rows : list Goal) : list jsstring :=
  match rows with
  | [] => []
  | r :: rows' =>
      (match truthy (deadline r) with
       | Some d => show_nat (i + 1) ++ lit ". " ++ description r ++ [nl]
                   ++ lit "   " ++ [55357; 56517]%N ++ lit " " ++ d
       | None => show_nat (i + 1) ++ lit ". " ++ description r
       end) :: list_items (S i) rows'
  end.

Definition msg_goals (rows : list Goal) : jsstring :=
  [55356; 57263]%N ++ lit " *Your Goals:*" ++ [nl; nl]
  ++ join [nl; nl] (list_items 0 rows) ++ [nl; nl]
  ++ [55357; 56481]%N ++ lit " To delete: /delete [number]" ++ [nl]
  ++ [55357; 56541]%N ++ lit " Generate plan: /generate".

Definition msg_no_goals_set : jsstring :=
  [55357; 56557]%N ++ lit " You have no goals set." ++ [nl; nl]
  ++ lit "Use /addgoal [your goal] to add one!".

Definition msg_error_fetching : jsstring :=
  [10060]%N ++ lit " Error fetching goals.".

Definition on_mygoals (e : Env) (chatId : Z) : M unit :=
  try_catch
    (rows <- pool_select e (SelectGoalsOfChat chatId) (listing chatId) ;;
     match rows with
     | _ :: _ => fire (SendMessage chatId (msg_goals rows) NoKeyboard)
     | [] => fire (SendMessage chatId msg_no_goals_set NoKeyboard)
     end)
    (fun err =>
       fire ConsoleError ;;
       fire (SendMessage chatId msg_error_fetching NoKeyboard)).

(** *** [/delete N] *)

Definition msg_start_first : jsstring :=
  [10060]%N ++ lit " Please start the bot first with /start".

Definition msg_invalid_number (n : nat) : jsstring :=
  [10060]%N ++ lit " Invalid number. You have " ++ show_nat n
  ++ lit " goal(s)." ++ [nl; nl] ++ lit "Use /mygoals to see your goals.".

Definition msg_deleted (g : Goal) : jsstring :=
  [55357; 56785; 65039]%N ++ lit " Deleted goal: " ++ [quot] ++ description g
  ++ [quot] ++ [nl; nl] ++ lit "Use /mygoals to see remaining goals.".

Definition msg_error_deleting : jsstring :=
  [10060]%N ++ lit " Error deleting goal.".

(** [numberToDelete < 1 || numberToDelete > goals.length] *)
Definition out_of_range (numberToDelete : number) (len : nat) : bool :=
  match numberToDelete with
  | Fin n => Z.ltb n 1 || Z.ltb (Z.of_nat len) n
  | Inf negative => true
  | NaN => false
  end.

(** [goals[numberToDelete - 1]] *)
Definition goal_at (goals : list Goal) (numberToDelete : number) : option Goal :=
  match numberToDelete with
  | Fin n => if Z.leb 1 n then nth_error goals (Z.to_nat (n - 1)) else None
  | _ => None
  end.

(** The handler of [/\/delete (\d+)/]; [match1] is the captured digit run.
    [return bot.sendMessage(...)] inside [try] hands the promise back
    without awaiting it there: the function's own promise follows it, out
    of reach of the [catch]. *)
Definition on_delete (e : Env) (chatId : Z) (match1 : jsstring) : M unit :=
  let numberToDelete := parseInt match1 in
  returned <-
    try_catch
      (userRes <- pool_select e (SelectUserByChat chatId)
                    (select_user_by_chat chatId) ;;
       match userRes with
       | [] => ret (Some (SendMessage chatId msg_start_first NoKeyboard))
       | user :: _ =>
           let userId := user_id user in
           goals <- pool_select e (SelectGoalsById userId)
                      (fun db => order_by by_id (goals_of userId db)) ;;
           if out_of_range numberToDelete (List.length goals)
           then ret (Some (SendMessage chatId
                             (msg_invalid_number (List.length goals))
                             NoKeyboard))
           else
             match goal_at goals numberToDelete with
             | Some goalToDelete =>
                 pool_exec e (DeleteGoalById (goal_id goalToDelete))
                   (delete_goal (goal_id goalToDelete)) ;;
                 fire (SendMessage chatId (msg_deleted goalToDelete)
                         NoKeyboard) ;;
                 ret None
             | None =>
                 (* [goalToDelete.id] on [undefined] *)
                 throw TypeError
             end
       end)
      (fun err =>
         fire ConsoleError ;;
         fire (SendMessage chatId msg_error_deleting NoKeyboard) ;;
         ret None) ;;
  match returned with
  | Some ev => await e ev
  | None => ret tt
  end.

(** *** The 6 AM scheduler *)

Definition daily_plans (e : Env) (env_for : User -> Env) : M unit :=
  fire ConsoleLog ;;
  try_catch
    (users <- pool_select e SelectAllUsers (@users) ;;
     for_each users
       (fun user =>
          generateAndSendDailyPlan (env_for user) (chat_id user)
            (user_id user) ;;
          fire (Sleep 2000)) ;;
     fire ConsoleLog)
    (fun err => fire ConsoleError).

End BotJs.

(** ** Concrete scenarios *)

Module Scenario.

Import JS Store Effects.

(** Every collaborator answers; the provider returns [answer]. *)
Definition calm (t host store : Z) (answer : jsstring) : Env :=
  mkEnv t host store (fun _ => false) (fun _ => answer)
    (fun s => Some (digits_value 10 s)).

(** A registered user with nothing stored. *)
Definition newcomer : DB := mkDB [mkUser 1 100] [] [].

(** A registered user with one goal and no plan yet. *)
Definition runner : DB :=
  mkDB [mkUser 1 100] [mkGoal 1 1 (lit "Run a marathon") None 0] [].

Definition morning_answer : jsstring := lit "1. Jog 5 km".

Definition evening_answer : jsstring :=
  lit "1. Stretch" ++ [nl] ++ lit "2. Plan the route".

(** The runner the morning after a plan of two tasks, the second one
    ticked off. *)
Definition day_after : DB :=
  mkDB [mkUser 1 100] [mkGoal 1 1 (lit "Run a marathon") None 0]
    [mkActivity 1 (-1)%Z (lit "1. Jog 5 km" ++ [nl] ++ lit "2. Stretch")
       (Some [mkTask (Some 1%Z) (lit "Jog 5 km") false;
              mkTask (Some 2%Z) (lit "Stretch") true])].

(** The runner at noon, plan stored: task 2 was emitted twice by the
    provider. *)
Definition at_noon : DB :=
  mkDB [mkUser 1 100] [mkGoal 1 1 (lit "Run a marathon") None 0]
    [mkActivity 1 0%Z (lit "1. Jog" ++ [nl] ++ lit "2. Eat" ++ [nl] ++ lit "2. Nap")
       (Some [mkTask (Some 1%Z) (lit "Jog") false;
              mkTask (Some 2%Z) (lit "Eat") true;
              mkTask (Some 2%Z) (lit "Nap") false])].

Definition click (data : jsstring) : Checklist.CallbackQuery :=
  Checklist.mkQuery 7 100 55 (lit "1. Jog" ++ [nl] ++ lit "2. Eat" ++ [nl] ++ lit "2. Nap") data.

(** 06:00 and 18:00 UTC on day 0, host on UTC, store session on Lagos
    time. *)
Definition morning : Env := calm 21600 0 3600 morning_answer.
Definition evening : Env := calm 64800 0 3600 evening_answer.

(** Half past midnight in Lagos on day 1 (23:30 UTC on day 0), with host
    and store session both on UTC, and with both on Lagos time. *)
Definition after_midnight_utc : Env := calm 84600 0 0 [].
Definition after_midnight_lagos : Env := calm 84600 3600 3600 [].

(** Three goals of one user, the newest one with a raised priority. *)
Definition goal_run : Goal := mkGoal 1 1 (lit "Run") None 0.
Definition goal_read : Goal := mkGoal 2 1 (lit "Read") None 0.
Definition goal_write : Goal := mkGoal 3 1 (lit "Write") None 5.

Definition prioritised : DB :=
  mkDB [mkUser 1 100] [goal_run; goal_read; goal_write] [].

(** The same evening with the store unreachable. *)
Definition store_down : Env :=
  mkEnv 64800 0 3600
    (fun ev => match ev with Query _ => true | _ => false end)
    (fun _ => []) (fun _ => None).

(** The same morning with the generation provider down. *)
Definition provider_down : Env :=
  mkEnv 21600 0 3600
    (fun ev => match ev with GenerateContent _ => true | _ => false end)
    (fun _ => []) (fun s => Some (digits_value 10 s)).

End Scenario.

(** ** Button labels and callback data

    A button of the plan keyboard is built as
    [{ text: `${task.id} ...`, callback_data: `check_task_${task.id}` }].
    The template literal prints the ordinal with [String]. *)

Module Labels.

Import JS Store Effects.

(** The decimal digits of a non-negative integer. *)
Definition digits_of (n : N) : jsstring :=
  lit (NilZero.string_of_uint (N.to_uint n)).

(** [String(n)].  An integer below [2^53] in magnitude prints as its
    decimal digits, with a minus sign when negative; the infinities and
    NaN print as their names.  From [2^53] on the text holds the shortest
    digits that read back as the same Number, padded with zeros, and from
    [10^21] on it is in exponent notation; neither is given here. *)
Definition Number_toString (n : number) : option jsstring :=
  match n with
  | Fin z =>
      if (Z.abs z <? 2 ^ 53)%Z
      then Some (if (z <? 0)%Z then 45%N :: digits_of (Z.abs_N z)
                 else digits_of (Z.abs_N z))
      else None
  | Inf false => Some (lit "Infinity")
  | Inf true => Some (lit "-Infinity")
  | NaN => Some (lit "NaN")
  end.

(** [`check_task_${task.id}`] for the ordinal of a parsed task. *)
Definition check_task_data (n : number) : option jsstring :=
  match Number_toString n with
  | Some s => Some (lit "check_task_" ++ s)
  | None => None
  end.

(** The ordinals on the buttons of a keyboard, row by row. *)
Definition plan_button_ids (kb : Keyboard) : list number :=
  match kb with
  | PlanButtons rows => concat rows
  | _ => []
  end.

Definition checklist_buttons (kb : Keyboard) : list (json_id * bool) :=
  match kb with
  | ChecklistButtons rows => concat rows
  | _ => []
  end.

End Labels.

(** ** Conversations

    The command handlers share one piece of process memory, the
    [userStates] map from chat to pending conversation, and issue
    statements beyond those of the plan and the checklist.  They are
    modelled over a world made of the store and that map.  A message is
    taken with its sender present ([msg.from]), as in every private chat
    and group. *)

Module Dialogue.

Import JS Store Effects.

(** *** [userStates] *)

Inductive Pending : Type :=
| awaiting_deadline (tempGoal : jsstring)
| awaiting_multiple_goals.

(** A [Map] from chat to pending conversation, as the list of its entries
    in insertion order. *)
Definition States : Type := list (Z * Pending).

Fixpoint Map_get (chat : Z) (m : States) : option Pending :=
  match m with
  | [] => None
  | (k, v) :: m' => if Z.eqb k chat then Some v else Map_get chat m'
  end.

Definition Map_has (chat : Z) (m : States) : bool :=
  existsb (fun kv => Z.eqb (fst kv) chat) m.

(** [userStates.set(chat, v)]: an entry already there keeps its place. *)
Definition Map_set (chat : Z) (v : Pending) (m : States) : States :=
  if Map_has chat m
  then map (fun kv => if Z.eqb (fst kv) chat then (chat, v) else kv) m
  else m ++ [(chat, v)].

Definition Map_delete (chat : Z) (m : States) : States :=
  filter (fun kv => negb (Z.eqb (fst kv) chat)) m.

(** *** Statements and calls *)

Inductive Statement : Type :=
| InsertUser (chat : Z)
| InsertGoal (u : Z) (description : jsstring) (deadline : option jsstring)
| InsertGoalDescription (u : Z) (description : jsstring)
| DeleteGoalsOfChat (chat : Z)
| SelectGoalsOfChatById (chat : Z)
| SelectChatsWithGoals.

(** A call is an event of the plan and checklist code, a statement of the
    list above, or a goal card: a message with one button that carries
    [`delete_goal_${goal.id}`]. *)
Inductive Call : Type :=
| Core (ev : Event)
| Stmt (s : Statement)
| SendGoal (chat : Z) (body : jsstring) (goal : Z).

Definition error_of_call (c : Call) : Error :=
  match c with
  | Core ev => error_of ev
  | Stmt _ => StoreError
  | SendGoal _ _ _ => TransportError
  end.

(** What a handler cannot control, beyond [Env]: which of the new calls
    fail, the keys the store's sequences hand out, the defaults of the
    columns an [INSERT] leaves out, and the order in which the store
    returns the rows of a [SELECT] without [ORDER BY]: by ascending
    [row_rank], which is the store's to choose. *)
Record Setting : Type := mkSetting {
  env : Env;
  refuses : Call -> bool;
  serial_user : DB -> Z;
  serial_goal : DB -> Z;
  default_priority : Z;
  default_deadline : option jsstring;
  row_rank : Z -> Z
}.

Definition troubled (s : Setting) (c : Call) : bool :=
  match c with
  | Core ev => fails (env s) ev
  | _ => refuses s c
  end.

Record World : Type := mkWorld {
  store : DB;
  userStates : States
}.

(** What is thrown: the failure of a call or a [TypeError], or the
    [Error] of [src/bot.js] for a user that is still missing. *)
Inductive Failure : Type :=
| Failed (err : Error)
| RegistrationFailed.

Inductive Outcome (A : Type) : Type :=
| Done (a : A)
| Raised (f : Failure).

Arguments Raised {A} f.

Record Trace (A : Type) : Type := mkTrace {
  calls : list Call;
  after : World;
  verdict : Outcome A
}.

Definition H (A : Type) : Type := World -> Trace A.

Definition finish {A} (a : A) : H A := fun w => mkTrace [] w (Done a).

Definition raise {A} (f : Failure) : H A := fun w => mkTrace [] w (Raised f).

Definition and_then {A B} (m : H A) (k : A -> H B) : H B :=
  fun w =>
    match m w with
    | mkTrace cs w1 (Done a) =>
        match k a w1 with
        | mkTrace cs' w2 o => mkTrace (cs ++ cs') w2 o
        end
    | mkTrace cs w1 (Raised f) => mkTrace cs w1 (Raised f)
    end.

(** [try { body } catch (err) { handler }] *)
Definition attempt {A} (body : H A) (handler : Failure -> H A) : H A :=
  fun w =>
    match body w with
    | mkTrace cs w1 (Done a) => mkTrace cs w1 (Done a)
    | mkTrace cs w1 (Raised f) =>
        match handler f w1 with
        | mkTrace cs' w2 o => mkTrace (cs ++ cs') w2 o
        end
    end.

Declare Scope dialogue_scope.
Delimit Scope dialogue_scope with dialogue.
Notation "x <- m ;; k" := (and_then m (fun x => k))
  (at level 100, m at next level, right associativity) : dialogue_scope.
Notation "m ;; k" := (and_then m (fun _ => k))
  (at level 100, right associativity) : dialogue_scope.
Local Open Scope dialogue_scope.

(** A computation of the plan and checklist code, run on the store of the
    world. *)
Definition lift {A} (m : M A) : H A :=
  fun w =>
    match m (store w) with
    | mkRun evs db o =>
        mkTrace (map Core evs) (mkWorld db (userStates w))
          (match o with
           | Ok a => Done a
           | Throw err => Raised (Failed err)
           end)
    end.

(** A call that is not awaited. *)
Definition emit (c : Call) : H unit := fun w => mkTrace [c] w (Done tt).

(** An awaited call that does not touch the store. *)
Definition awaited (s : Setting) (c : Call) : H unit :=
  fun w =>
    mkTrace [c] w
      (if troubled s c then Raised (Failed (error_of_call c)) else Done tt).

(** [await pool.query(...)] for a [SELECT] of the list above. *)
Definition select {A} (s : Setting) (q : Statement) (rows : DB -> A) : H A :=
  fun w =>
    mkTrace [Stmt q] w
      (if troubled s (Stmt q) then Raised (Failed StoreError)
       else Done (rows (store w))).

(** [await pool.query(...)] for a statement that writes, with the
    [rowCount] of its result; a failed statement leaves the tables as they
    were. *)
Definition execute_count (s : Setting) (q : Statement) (f : DB -> DB)
  (rowCount : DB -> nat) : H nat :=
  fun w =>
    if troubled s (Stmt q) then mkTrace [Stmt q] w (Raised (Failed StoreError))
    else mkTrace [Stmt q] (mkWorld (f (store w)) (userStates w))
           (Done (rowCount (store w))).

Definition execute (s : Setting) (q : Statement) (f : DB -> DB) : H unit :=
  fun w =>
    if troubled s (Stmt q) then mkTrace [Stmt q] w (Raised (Failed StoreError))
    else mkTrace [Stmt q] (mkWorld (f (store w)) (userStates w)) (Done tt).

Fixpoint for_each {X} (xs : list X) (f : X -> H unit) : H unit :=
  match xs with
  | [] => finish tt
  | x :: xs' => f x ;; for_each xs' f
  end.

Definition userStates_get (chat : Z) : H (option Pending) :=
  fun w => mkTrace [] w (Done (Map_get chat (userStates w))).

Definition userStates_set (chat : Z) (v : Pending) : H unit :=
  fun w =>
    mkTrace [] (mkWorld (store w) (Map_set chat v (userStates w))) (Done tt).

Definition userStates_delete (chat : Z) : H unit :=
  fun w =>
    mkTrace [] (mkWorld (store w) (Map_delete chat (userStates w))) (Done tt).

(** The [bot.sendMessage] calls without keyboard among some calls. *)
Definition told (cs : list Call) : list (Z * jsstring) :=
  flat_map (fun c => match c with
                     | Core (SendMessage chat body NoKeyboard) => [(chat, body)]
                     | _ => []
                     end) cs.

(** *** The statements *)

Definition registered (chat : Z) (db : DB) : bool :=
  existsb (fun u => Z.eqb (chat_id u) chat) (users db).

(** [INSERT INTO users (chat_id, username) VALUES ($1, $2) ON CONFLICT
    (chat_id) DO NOTHING]; [src/bot.js] also fills [telegram_id] with the
    chat.  Neither revision ever reads [username] or [telegram_id]. *)
Definition insert_user (s : Setting) (chat : Z) (db : DB) : DB :=
  if registered chat db then db
  else mkDB (users db ++ [mkUser (serial_user s db) chat]) (goals db)
         (daily_activities db).

(** [INSERT INTO goals (user_id, description, deadline) VALUES ($1, $2,
    $3)] *)
Definition insert_goal (s : Setting) (u : Z) (description : jsstring)
  (deadline : option jsstring) (db : DB) : DB :=
  mkDB (users db)
    (goals db
     ++ [mkGoal (serial_goal s db) u description deadline
           (default_priority s)])
    (daily_activities db).

(** [g.user_id IN (SELECT id FROM users WHERE chat_id = $1)] *)
Definition of_chat (chat : Z) (db : DB) (g : Goal) : bool :=
  existsb (fun u => Z.eqb (user_id u) (goal_user g) && Z.eqb (chat_id u) chat)
    (users db).

(** [DELETE FROM goals WHERE user_id IN (SELECT id FROM users WHERE
    chat_id = $1)] *)
Definition delete_goals_of_chat (chat : Z) (db : DB) : DB :=
  mkDB (users db) (filter (fun g => negb (of_chat chat db g)) (goals db))
    (daily_activities db).

Definition deleted_goals_of_chat (chat : Z) (db : DB) : nat :=
  List.length (filter (of_chat chat db) (goals db)).

(** [SELECT DISTINCT u.chat_id FROM users u INNER JOIN goals g ON u.id =
    g.user_id]: the chats of the users that own a goal, each once.  The
    statement has no [ORDER BY]; the rows come in the order the store
    chooses. *)
Definition distinct_chats_with_goals (db : DB) : list Z :=
  nodup Z.eq_dec
    (map chat_id
       (filter (fun u => existsb (fun g => Z.eqb (user_id u) (goal_user g))
                           (goals db))
          (users db))).

Definition chats_with_goals (s : Setting) (db : DB) : list Z :=
  order_by (fun a b => Z.leb (row_rank s a) (row_rank s b))
    (distinct_chats_with_goals db).

(** *** [registerUser] *)

Definition registerUser (s : Setting) (chatId : Z) : H unit :=
  attempt
    (execute s (InsertUser chatId) (insert_user s chatId))
    (fun err => emit (Core ConsoleError)).

(** What the store holds once [registerUser] has run, and the calls it
    made. *)
Definition once_registered (s : Setting) (chatId : Z) (db : DB) : DB :=
  if troubled s (Stmt (InsertUser chatId)) then db
  else insert_user s chatId db.

Definition register_calls (s : Setting) (chatId : Z) : list Call :=
  if troubled s (Stmt (InsertUser chatId))
  then [Stmt (InsertUser chatId); Core ConsoleError]
  else [Stmt (InsertUser chatId)].

(** The store after the statements of some lines, one after the other. *)
Definition inserted (apply_of : jsstring -> DB -> DB) (lines : list jsstring)
  (db : DB) : DB :=
  fold_left (fun db line => apply_of line db) lines db.

(** The store [db'] holds what [db] holds and, at most, one more user and
    more goals: the daily records are the same; the users are those of [db]
    followed by at most one new row, which is a row of [chat] and is there
    only if [db] had no user of [chat]; the goals are those of [db] followed
    by new ones, every new goal being owned by a user of [chat]. *)
Definition only_adds_for (chat : Z) (db db' : DB) : Prop :=
  daily_activities db' = daily_activities db
  /\ (exists extra,
        users db' = users db ++ extra
        /\ (List.length extra <= 1)%nat
        /\ Forall (fun u => chat_id u = chat) extra
        /\ (registered chat db = true -> extra = []))
  /\ (exists new,
        goals db' = goals db ++ new
        /\ Forall (fun g => exists u, In u (users db') /\ chat_id u = chat
                                      /\ goal_user g = user_id u) new).

(** *** Pieces of the message handlers *)

(** [msg.text?.startsWith('/')]: a message without text does not start
    with anything. *)
Definition is_command (text : option jsstring) : bool :=
  match text with
  | Some t => startsWith (lit "/") t
  | None => false
  end.

(** [s.toLowerCase() === 'skip']: the code units that lower-case to [s],
    [k], [i] and [p] are these letters, their capitals and, for [k], the
    Kelvin sign U+212A. *)
Definition lowercases_to_skip (t : jsstring) : bool :=
  match t with
  | [c1; c2; c3; c4] =>
      (N.eqb c1 115 || N.eqb c1 83)
      && (N.eqb c2 107 || N.eqb c2 75 || N.eqb c2 8490)
      && (N.eqb c3 105 || N.eqb c3 73)
      && (N.eqb c4 112 || N.eqb c4 80)
  | _ => false
  end.

(** [msg.text.trim().toLowerCase() === 'skip' ? null : msg.text.trim()] *)
Definition deadline_of (text : jsstring) : option jsstring :=
  if lowercases_to_skip (trim text) then None else Some (trim text).

(** [msg.text.split('\n').map(l => l.trim()).filter(l => l.length > 0)] *)
Definition goal_lines (text : jsstring) : list jsstring :=
  filter (fun l => match l with [] => false | _ :: _ => true end)
    (map trim (split_on nl text)).

Definition bar : N := 124.

(** How a message handler leaves the world, whatever happens: its promise
    resolves; no other chat's conversation is touched; without a pending
    conversation, and on a command, nothing is done at all; otherwise the
    chat's conversation is over; and the store only gains rows for the
    chat. *)
Definition settles (chat : Z) (text : option jsstring) (w : World)
  (t : Trace unit) : Prop :=
  verdict t = Done tt
  /\ (forall other, other <> chat ->
        Map_get other (userStates (after t)) = Map_get other (userStates w))
  /\ (Map_get chat (userStates w) = None \/ is_command text = true ->
      calls t = [] /\ after t = w)
  /\ (Map_get chat (userStates w) <> None -> is_command text = false ->
      Map_get chat (userStates (after t)) = None)
  /\ only_adds_for chat (store w) (store (after t)).

(** *** The reminder texts, the same in both revisions *)

(** The hour shown by a clock [tz] seconds east of UTC. *)
Definition hour_in (tz : Z) (t : Z) : Z :=
  (((t + tz) mod seconds_per_day) / 3600)%Z.

Definition reminder_default : jsstring :=
  [55357; 56596]%N ++ lit " Reminder: Check your daily goals!".

Definition reminder_9 : jsstring :=
  [55357; 56664]%N
  ++ lit " 9 AM Check-in: Have you started your first task yet?".

Definition reminder_12 : jsstring :=
  [55357; 56667]%N ++ lit " 12 PM Reminder: How's your progress going?".

Definition reminder_15 : jsstring :=
  [55357; 56658]%N ++ lit " 3 PM Boost: Keep pushing! You're doing great!".

Definition reminder_18 : jsstring :=
  [55357; 56661]%N
  ++ lit " 6 PM Review: Time to wrap up. How much did you finish?".

Definition reminder_21 : jsstring :=
  [55356; 57113]%N
  ++ lit " 9 PM End of Day: Great work today! Get some rest. "
  ++ [55357; 56884]%N.

Definition reminder_text (currentHour : Z) : jsstring :=
  let msgText := reminder_default in
  let msgText := if Z.eqb currentHour 9 then reminder_9 else msgText in
  let msgText := if Z.eqb currentHour 12 then reminder_12 else msgText in
  let msgText := if Z.eqb currentHour 15 then reminder_15 else msgText in
  let msgText := if Z.eqb currentHour 18 then reminder_18 else msgText in
  let msgText := if Z.eqb currentHour 21 then reminder_21 else msgText in
  msgText.

End Dialogue.

(** ** The commands of the checklist revision ([src/unnamed/part_000]) *)

Module ChecklistCommands.

Import JS Store Effects Dialogue.
Local Open Scope dialogue_scope.

Record Message : Type := mkMessage {
  msg_chat : Z;
  msg_text : option jsstring
}.

Definition msg_welcome : jsstring :=
  [55357; 56395]%N ++ lit " Welcome to your AI Goal Tracker!" ++ [nl; nl]%N
  ++ lit "Tell me your goals, and I'll generate a daily plan for you every morning at 6 AM."
  ++ [nl; nl; 55357; 56391]%N ++ lit " **Commands:**" ++ [nl]%N
  ++ lit "/addgoal [goal] - Add a single goal" ++ [nl]%N
  ++ lit "/addmany - Add multiple goals" ++ [nl]%N
  ++ lit "/mygoals - View & Delete goals" ++ [nl]%N
  ++ lit "/generate - Generate today's plan now" ++ [nl]%N
  ++ lit "/clear - Delete ALL goals".

Definition msg_when : jsstring :=
  [55357; 56517]%N ++ lit " When do you want to achieve this?" ++ [nl]%N
  ++ lit "(Type a date, " ++ [BotJs.quot]%N ++ lit "End of year"
  ++ [BotJs.quot]%N ++ lit ", or " ++ [BotJs.quot]%N ++ lit "skip"
  ++ [BotJs.quot]%N ++ lit ")".

Definition msg_send_goals : jsstring :=
  [55357; 56541]%N ++ lit " Send your goals, one per line." ++ [nl]%N
  ++ lit "Format: `Goal | Deadline` (optional)".

Definition msg_goal_added : jsstring :=
  [9989]%N ++ lit " Goal added! Use /generate to start.".

Definition msg_added (n : nat) : jsstring :=
  [9989]%N ++ lit " Added " ++ BotJs.show_nat n ++ lit " goals!".

Definition msg_error_saving : jsstring :=
  [10060]%N ++ lit " Error saving data.".

Definition msg_no_goals_yet : jsstring :=
  [55357; 56557]%N ++ lit " No goals set yet.".

Definition msg_current : jsstring :=
  [55356; 57263]%N ++ lit " **Your Current Goals:**".

Definition msg_error_fetching : jsstring :=
  [10060]%N ++ lit " Error fetching goals.".

Definition msg_tip : jsstring :=
  [55357; 56481]%N
  ++ lit " Tip: Use /mygoals to see buttons for deleting goals easier!".

Definition msg_all_deleted : jsstring :=
  [55357; 56785; 65039]%N ++ lit " All goals deleted.".

Definition msg_start_first : jsstring :=
  [10060]%N ++ lit " Please /start first.".

Definition say (chatId : Z) (body : jsstring) : H unit :=
  emit (Core (SendMessage chatId body NoKeyboard)).

(** [/start] *)
Definition on_start (s : Setting) (chatId : Z) : H unit :=
  registerUser s chatId ;;
  say chatId msg_welcome.

(** [/addgoal (.+)]; [goalText] is the capture. *)
Definition on_addgoal (s : Setting) (chatId : Z) (goalText : jsstring)
  : H unit :=
  attempt
    (registerUser s chatId ;;
     userStates_set chatId (awaiting_deadline goalText) ;;
     say chatId msg_when)
    (fun err => emit (Core ConsoleError)).

(** [/addmany] *)
Definition on_addmany (chatId : Z) : H unit :=
  say chatId msg_send_goals ;;
  userStates_set chatId awaiting_multiple_goals.

(** The goal one line of an [/addmany] answer stands for: [parts[0]] and
    [parts[1]] of [line.split('|')], trimmed. *)
Definition goal_of_line (line : jsstring) : jsstring * option jsstring :=
  let parts := split_on bar line in
  let goal := trim (hd [] parts) in
  let deadline :=
    if Nat.ltb 1 (List.length parts) then Some (trim (nth 1 parts []))
    else None in
  (goal, deadline).

(** The handler of every message.  [userIdRes.rows[0].id] on no row and
    [msg.text.trim()] or [msg.text.split] on a message without text are
    [TypeError]s. *)
Definition on_message (s : Setting) (msg : Message) : H unit :=
  let chatId := msg_chat msg in
  state <- userStates_get chatId ;;
  match state with
  | None => finish tt
  | Some state =>
      if is_command (msg_text msg) then finish tt
      else
        attempt
          (registerUser s chatId ;;
           userIdRes <- lift (pool_select (env s) (SelectUserByChat chatId)
                                (select_user_by_chat chatId)) ;;
           match userIdRes with
           | [] => raise (Failed TypeError)
           | user :: _ =>
               let userId := user_id user in
               match state, msg_text msg with
               | _, None => raise (Failed TypeError)
               | awaiting_deadline tempGoal, Some text =>
                   let deadline := deadline_of text in
                   execute s (InsertGoal userId tempGoal deadline)
                     (insert_goal s userId tempGoal deadline) ;;
                   say chatId msg_goal_added ;;
                   userStates_delete chatId
               | awaiting_multiple_goals, Some text =>
                   let lines := goal_lines text in
                   for_each lines
                     (fun line =>
                        let '(goal, deadline) := goal_of_line line in
                        execute s (InsertGoal userId goal deadline)
                          (insert_goal s userId goal deadline)) ;;
                   say chatId (msg_added (List.length lines)) ;;
                   userStates_delete chatId
               end
           end)
          (fun err =>
             emit (Core ConsoleError) ;;
             say chatId msg_error_saving ;;
             userStates_delete chatId)
  end.

(** [/mygoals]: one card per goal, [ORDER BY g.id ASC]. *)
Definition card_text (goal : Goal) : jsstring :=
  match BotJs.truthy (deadline goal) with
  | Some d => [55357; 56524]%N ++ lit " " ++ description goal ++ [nl; 55357; 56517]%N ++ lit " " ++ d
  | None => [55357; 56524]%N ++ lit " " ++ description goal
  end.

(** [`delete_goal_${goal.id}`], the callback data of the button on the
    card of a goal. *)
Definition delete_goal_data (goal : Z) : option jsstring :=
  match Labels.Number_toString (Fin goal) with
  | Some digits => Some (lit "delete_goal_" ++ digits)
  | None => None
  end.

Definition card (chatId : Z) (goal : Goal) : Call :=
  SendGoal chatId (card_text goal) (goal_id goal).

(** [return bot.sendMessage(...)] inside [try] hands the promise back
    without awaiting it there: the handler's own promise follows it, out of
    reach of the [catch]. *)
Definition on_mygoals (s : Setting) (chatId : Z) : H unit :=
  returned <-
    attempt
      (res <- select s (SelectGoalsOfChatById chatId)
                (fun db => order_by by_id (BotJs.goals_of_chat chatId db)) ;;
       match res with
       | [] => finish (Some (Core (SendMessage chatId msg_no_goals_yet
                                     NoKeyboard)))
       | _ :: _ =>
           say chatId msg_current ;;
           for_each res (fun goal => awaited s (card chatId goal)) ;;
           finish None
       end)
      (fun err =>
         emit (Core ConsoleError) ;;
         say chatId msg_error_fetching ;;
         finish None) ;;
  match returned with
  | Some c => awaited s c
  | None => finish tt
  end.

(** [/delete (\d+)], kept for old habits: a tip and nothing else. *)
Definition on_delete (chatId : Z) : H unit :=
  say chatId msg_tip.

(** [/clear] *)
Definition on_clear (s : Setting) (chatId : Z) : H unit :=
  attempt
    (execute s (DeleteGoalsOfChat chatId) (delete_goals_of_chat chatId) ;;
     say chatId msg_all_deleted)
    (fun err => emit (Core ConsoleError)).

(** [/generate] *)
Definition on_generate (e : Env) (chatId : Z) : M unit :=
  try_catch
    (bind (pool_select e (SelectUserByChat chatId)
             (select_user_by_chat chatId))
       (fun userRes =>
          match userRes with
          | user :: _ =>
              Checklist.generateAndSendDailyPlan e chatId (user_id user)
          | [] => fire (SendMessage chatId msg_start_first NoKeyboard)
          end))
    (fun err => fire ConsoleError).

(** The reminders at 9, 12, 15, 18 and 21 o'clock.  The hour is read off
    the Lagos wall clock through the host's own zone, as the key of
    yesterday's record is.  Each send meets a setting of its own. *)
Definition currentHour (e : Env) : Z :=
  hour_in (host_tz e) (Checklist.todayDate e).

Definition reminders (s : Setting) (setting_for : Z -> Setting) : H unit :=
  let msgText := reminder_text (currentHour (env s)) in
  emit (Core ConsoleLog) ;;
  attempt
    (users <- select s SelectChatsWithGoals (chats_with_goals s) ;;
     match users with
     | [] => emit (Core ConsoleLog)
     | _ :: _ =>
         emit (Core ConsoleLog) ;;
         for_each users
           (fun chat =>
              emit (Core (Sleep 200)) ;;
              awaited (setting_for chat)
                (Core (SendMessage chat msgText NoKeyboard)))
     end)
    (fun err => emit (Core ConsoleError)).

End ChecklistCommands.

(** ** The commands of the plain revision ([src/bot.js]) *)

Module BotJsCommands.

Import JS Store Effects Dialogue.
Local Open Scope dialogue_scope.

Record Message : Type := mkMessage {
  msg_chat : Z;
  msg_text : option jsstring
}.

Definition msg_welcome : jsstring :=
  [55357; 56395]%N ++ lit " Welcome to your AI Goal Tracker!" ++ [nl; nl]%N
  ++ lit "Tell me your goals, and I'll generate a daily plan for you every morning at 6 AM."
  ++ [nl; nl; 55357; 56391]%N ++ lit " **Commands:**" ++ [nl]%N
  ++ lit "/addgoal [goal] - Add a single goal" ++ [nl]%N
  ++ lit "/addmany - Add multiple goals at once" ++ [nl]%N
  ++ lit "/mygoals - View your goals list" ++ [nl]%N
  ++ lit "/delete [number] - Delete a specific goal (e.g., /delete 1)"
  ++ [nl]%N ++ lit "/clear - Delete ALL goals" ++ [nl]%N
  ++ lit "/generate - Generate today's plan now" ++ [nl]%N
  ++ lit "/help - Show help".

Definition msg_when : jsstring :=
  [55357; 56517]%N ++ lit " Great! When do you want to achieve this goal?"
  ++ [nl; nl; 55357; 56481]%N ++ lit " Examples:" ++ [nl; 8226]%N
  ++ lit " Before March 2026" ++ [nl; 8226]%N ++ lit " End of semester"
  ++ [nl; 8226]%N ++ lit " April 2026" ++ [nl; 8226]%N ++ lit " This month"
  ++ [nl; 8226]%N ++ lit " No deadline" ++ [nl; nl]%N ++ lit "Or type "
  ++ [BotJs.quot]%N ++ lit "skip" ++ [BotJs.quot]%N
  ++ lit " for no deadline.".

Definition msg_error_try_again : jsstring :=
  [10060]%N ++ lit " Error. Please try again.".

Definition msg_send_goals : jsstring :=
  [55357; 56541]%N ++ lit " *Add Multiple Goals with Deadlines*"
  ++ [nl; nl]%N ++ lit "Send your goals, one per line." ++ [nl; nl]%N
  ++ lit "*Format Options:*" ++ [nl; 8226]%N
  ++ lit " `Goal text` (no deadline)" ++ [nl; 8226]%N
  ++ lit " `Goal text | Deadline`" ++ [nl; nl]%N ++ lit "*Examples:*"
  ++ [nl]%N ++ lit "Win 4 hackathons | End of year" ++ [nl]%N
  ++ lit "Achieve 4.75 GPA | First semester" ++ [nl]%N
  ++ lit "Read Bible daily" ++ [nl; nl]%N
  ++ lit "I'll add all of them at once! " ++ [55357; 56960]%N.

Definition msg_added_with_deadline (tempGoal deadline : jsstring) : jsstring :=
  [9989]%N ++ lit " Goal added!" ++ [nl; nl; 55356; 57263]%N
  ++ lit " Goal: " ++ [BotJs.quot]%N ++ tempGoal
  ++ [BotJs.quot; nl; 55357; 56517]%N ++ lit " Deadline: " ++ deadline
  ++ [nl; nl]%N ++ lit "Use /generate to create today's plan!".

Definition msg_added (tempGoal : jsstring) : jsstring :=
  [9989]%N ++ lit " Goal added: " ++ [BotJs.quot]%N ++ tempGoal
  ++ [BotJs.quot; nl; nl]%N ++ lit "Use /generate to create today's plan!".

Definition msg_error_saving_goal : jsstring :=
  [10060]%N ++ lit " Error saving goal.".

Definition msg_no_valid : jsstring :=
  [10060]%N ++ lit " No valid goals found. Please try again.".

(** [`... ${addedCount} goal${addedCount > 1 ? 's' : ''}! ...`] *)
Definition msg_added_many (addedCount : nat) : jsstring :=
  [9989]%N ++ lit " Successfully added " ++ BotJs.show_nat addedCount
  ++ lit " goal" ++ (if Nat.ltb 1 addedCount then lit "s" else [])
  ++ lit "!" ++ [nl; nl]%N ++ lit "Use /mygoals to view them all." ++ [nl]%N
  ++ lit "Use /generate to create your daily plan! " ++ [55357; 56960]%N.

Definition msg_error_saving_goals : jsstring :=
  [10060]%N ++ lit " Error saving goals. Please try again.".

(** [`... (${deletedCount} goal${deletedCount !== 1 ? 's' : ''}) ...`] *)
Definition msg_cleared (deletedCount : nat) : jsstring :=
  [55357; 56785; 65039]%N ++ lit " All goals deleted! ("
  ++ BotJs.show_nat deletedCount ++ lit " goal"
  ++ (if Nat.eqb deletedCount 1 then [] else lit "s") ++ lit ")"
  ++ [nl; nl]%N ++ lit "Ready for a fresh start! Use /addgoal to begin.".

Definition msg_error_deleting_goals : jsstring :=
  [10060]%N ++ lit " Error deleting goals.".

Definition msg_error_generating : jsstring :=
  [10060]%N ++ lit " Error generating plan.".

Definition say (chatId : Z) (body : jsstring) : H unit :=
  emit (Core (SendMessage chatId body NoKeyboard)).

(** [/start] *)
Definition on_start (s : Setting) (chatId : Z) : H unit :=
  registerUser s chatId ;;
  say chatId msg_welcome.

(** [/addgoal (.+)]; [goalText] is the capture. *)
Definition on_addgoal (s : Setting) (chatId : Z) (goalText : jsstring)
  : H unit :=
  attempt
    (registerUser s chatId ;;
     userStates_set chatId (awaiting_deadline goalText) ;;
     say chatId msg_when)
    (fun err =>
       emit (Core ConsoleError) ;;
       say chatId msg_error_try_again).

(** [/addmany] *)
Definition on_addmany (chatId : Z) : H unit :=
  say chatId msg_send_goals ;;
  userStates_set chatId awaiting_multiple_goals.

(** [line.includes('|')] *)
Definition has_bar (line : jsstring) : bool := existsb (N.eqb bar) line.

(** The statement one line of an [/addmany] answer becomes: with a bar,
    [parts[0]] and everything after the first bar, both trimmed; without,
    the line as description and no deadline column. *)
Definition insert_line (s : Setting) (userId : Z) (line : jsstring) : H unit :=
  if has_bar line then
    let parts := split_on bar line in
    let goal := trim (hd [] parts) in
    let deadline := trim (join [bar] (tl parts)) in
    execute s (InsertGoal userId goal (Some deadline))
      (insert_goal s userId goal (Some deadline))
  else
    execute s (InsertGoalDescription userId line)
      (insert_goal s userId line (default_deadline s)).

(** The handler of every message. *)
Definition on_message (s : Setting) (msg : Message) : H unit :=
  let chatId := msg_chat msg in
  state <- userStates_get chatId ;;
  if is_command (msg_text msg) then finish tt
  else
    match state with
    | Some (awaiting_deadline tempGoal) =>
        attempt
          (registerUser s chatId ;;
           userIdRes <- lift (pool_select (env s) (SelectUserByChat chatId)
                                (select_user_by_chat chatId)) ;;
           match userIdRes with
           | [] => raise RegistrationFailed
           | user :: _ =>
               let userId := user_id user in
               match msg_text msg with
               | None => raise (Failed TypeError)
               | Some text =>
                   let deadline := deadline_of text in
                   execute s (InsertGoal userId tempGoal deadline)
                     (insert_goal s userId tempGoal deadline) ;;
                   userStates_delete chatId ;;
                   match BotJs.truthy deadline with
                   | Some d => say chatId (msg_added_with_deadline tempGoal d)
                   | None => say chatId (msg_added tempGoal)
                   end
               end
           end)
          (fun err =>
             emit (Core ConsoleError) ;;
             say chatId msg_error_saving_goal ;;
             userStates_delete chatId)
    | Some awaiting_multiple_goals =>
        attempt
          (registerUser s chatId ;;
           userIdRes <- lift (pool_select (env s) (SelectUserByChat chatId)
                                (select_user_by_chat chatId)) ;;
           match userIdRes with
           | [] => raise RegistrationFailed
           | user :: _ =>
               let userId := user_id user in
               match msg_text msg with
               | None => raise (Failed TypeError)
               | Some text =>
                   let lines := goal_lines text in
                   match lines with
                   | [] =>
                       say chatId msg_no_valid ;;
                       userStates_delete chatId
                   | _ :: _ =>
                       for_each lines (insert_line s userId) ;;
                       userStates_delete chatId ;;
                       say chatId (msg_added_many (List.length lines))
                   end
               end
           end)
          (fun err =>
             emit (Core ConsoleError) ;;
             say chatId msg_error_saving_goals ;;
             userStates_delete chatId)
    | None => finish tt
    end.

(** [/clear] *)
Definition on_clear (s : Setting) (chatId : Z) : H unit :=
  attempt
    (deletedCount <- execute_count s (DeleteGoalsOfChat chatId)
                       (delete_goals_of_chat chatId)
                       (deleted_goals_of_chat chatId) ;;
     say chatId (msg_cleared deletedCount))
    (fun err =>
       emit (Core ConsoleError) ;;
       say chatId msg_error_deleting_goals).

(** [/generate] *)
Definition on_generate (e : Env) (chatId : Z) : M unit :=
  try_catch
    (bind (pool_select e (SelectUserByChat chatId)
             (select_user_by_chat chatId))
       (fun userRes =>
          match userRes with
          | user :: _ =>
              BotJs.generateAndSendDailyPlan e chatId (user_id user)
          | [] => fire (SendMessage chatId BotJs.msg_start_first NoKeyboard)
          end))
    (fun err =>
       bind (fire ConsoleError)
         (fun _ => fire (SendMessage chatId msg_error_generating NoKeyboard))).

(** The reminders at 9, 12, 15, 18 and 21 o'clock: [new Date().getHours()]
    is the hour of the host's own clock; [SELECT chat_id FROM users] gives
    one row per user.  Each send meets an environment of its own. *)
Definition currentHour (e : Env) : Z := hour_in (host_tz e) (now e).

Definition reminders (e : Env) (env_for : User -> Env) : M unit :=
  let msgText := reminder_text (currentHour e) in
  bind (fire ConsoleLog)
    (fun _ =>
       try_catch
         (bind (pool_select e SelectAllUsers (@users))
            (fun users =>
               bind
                 (Effects.for_each users
                    (fun user =>
                       try_catch
                         (await (env_for user)
                            (SendMessage (chat_id user) msgText NoKeyboard))
                         (fun err => fire ConsoleError)))
                 (fun _ => fire ConsoleLog)))
         (fun err => fire ConsoleError)).

End BotJsCommands.

(** ** More scenarios *)

Module Cases.

Import JS Store Effects Dialogue.

(** Everything answers; the sequences hand out the next free key;
    unordered rows come by ascending chat. *)
Definition next_key (keys : list Z) : Z := (fold_right Z.max 0 keys + 1)%Z.

Definition smooth (e : Env) : Setting :=
  mkSetting e (fun _ => false)
    (fun db => next_key (map user_id (users db)))
    (fun db => next_key (map goal_id (goals db)))
    0 None (fun chat => chat).

(** The same with unordered rows coming by descending chat, as they may
    out of a hash aggregate. *)
Definition hashed (e : Env) : Setting :=
  mkSetting e (fun _ => false)
    (fun db => next_key (map user_id (users db)))
    (fun db => next_key (map goal_id (goals db)))
    0 None Z.opp.

Definition quiet : Env := Scenario.calm 21600 0 3600 [].

(** The chat transport is down, everything else answers. *)
Definition transport_down : Env :=
  mkEnv 21600 0 3600
    (fun ev => match ev with SendMessage _ _ _ => true | _ => false end)
    (fun _ => []) (fun s => Some (digits_value 10 s)).

(** Sends to [chat] fail, everything else answers. *)
Definition unreachable (chat : Z) (x : Z) : Setting :=
  if Z.eqb x chat then smooth transport_down else smooth quiet.

(** The runner with an unfinished task on each of two days. *)
Definition two_days : DB :=
  mkDB [mkUser 1 100] [mkGoal 1 1 (lit "Run a marathon") None 0]
    [mkActivity 1 (-1)%Z (lit "1. Jog")
       (Some [mkTask (Some 1%Z) (lit "Jog") false]);
     mkActivity 1 0%Z (lit "1. Stretch")
       (Some [mkTask (Some 1%Z) (lit "Stretch") false])].

(** Two users; the second owns goal 9. *)
Definition neighbours : DB :=
  mkDB [mkUser 1 100; mkUser 2 200]
    [mkGoal 4 1 (lit "Run") None 0; mkGoal 9 2 (lit "Sing") None 0] [].

Definition press (chat : Z) (data : jsstring) : Checklist.CallbackQuery :=
  Checklist.mkQuery 8 chat 56 (lit "Sing") data.

End Cases.

(** * Verification *)

Import JS Store Effects.

Unset Implicit Arguments.

(** ** Scanning lists *)

Section ScanFacts.

Context {A : Type} (p : A -> bool).

Lemma take_drop_while (l : list A) :
  take_while p l ++ drop_while p l = l.
Proof.
  induction l as [|x l IH]; simpl; [reflexivity|].
  destruct (p x); simpl; [now rewrite IH | reflexivity].
Qed.

Lemma take_while_all (l : list A) : forallb p (take_while p l) = true.
Proof.
  induction l as [|x l IH]; simpl; [reflexivity|].
  destruct (p x) eqn:E; simpl; [now rewrite E | reflexivity].
Qed.

Lemma drop_while_head (l : list A) x l' :
  drop_while p l = x :: l' -> p x = false.
Proof.
  induction l as [|y l IH]; simpl; [discriminate|].
  destruct (p y) eqn:E; [exact IH|].
  intros H; injection H as -> _; exact E.
Qed.

Lemma scan_app (a b : list A) :
  forallb p a = true -> stops_at p b ->
  take_while p (a ++ b) = a /\ drop_while p (a ++ b) = b.
Proof.
  intros Ha Hb. induction a as [|y a IH]; simpl in *.
  - destruct b as [|x b]; simpl in *; [now split|]. now rewrite Hb.
  - apply andb_prop in Ha as [Hy Ha]. rewrite Hy.
    destruct (IH Ha) as [-> ->]. now split.
Qed.

Lemma take_while_id (l : list A) :
  forallb p l = true -> take_while p l = l.
Proof.
  intros H. destruct (scan_app l [] H I) as [E _].
  now rewrite app_nil_r in E.
Qed.

End ScanFacts.

(** ** The pattern matcher *)

Section RunFacts.

Context {A : Type} (p : A -> bool).

Lemma firstn_run (l : list A) :
  firstn (List.length (take_while p l)) l = take_while p l.
Proof.
  induction l as [|x l IH]; [reflexivity|]. cbn [take_while].
  destruct (p x); [|reflexivity]. cbn [List.length firstn]. now rewrite IH.
Qed.

Lemma skipn_run (l : list A) :
  skipn (List.length (take_while p l)) l = drop_while p l.
Proof.
  induction l as [|x l IH]; [reflexivity|]. cbn [take_while drop_while].
  destruct (p x); [|reflexivity]. cbn [List.length skipn]. exact IH.
Qed.

(** Short of the end of a run, the next element still belongs to it. *)
Lemma skipn_inside_run (l : list A) (n : nat) :
  (n < List.length (take_while p l))%nat ->
  exists x l', skipn n l = x :: l' /\ p x = true.
Proof.
  revert n. induction l as [|x l IH]; intros n; cbn [take_while].
  - cbn. lia.
  - destruct (p x) eqn:E; [|cbn; lia]. cbn [List.length].
    destruct n as [|n]; intros Hn.
    + exists x, l. now split.
    + cbn [skipn]. apply IH. lia.
Qed.

End RunFacts.

Lemma backtrack_first {R : Type} (n least : nat) (attempt : nat -> option R)
  (r : R) :
  attempt n = Some r -> backtrack n least attempt = Some r.
Proof. intros H. destruct n; cbn [backtrack]; now rewrite H. Qed.

Lemma backtrack_none {R : Type} (n least : nat) (attempt : nat -> option R) :
  (forall m, (m <= n)%nat -> attempt m = None) ->
  backtrack n least attempt = None.
Proof.
  induction n as [|n IH]; intros Hall; cbn [backtrack];
    rewrite (Hall _ (le_n _)); [reflexivity|].
  destruct (Nat.ltb n least); [reflexivity|].
  apply IH. intros m Hm. apply Hall. lia.
Qed.

Lemma match_from_many (cls : N -> bool) (least : nat) (capture : bool)
  (items : list item) (s : jsstring) :
  match_from (Many cls least capture :: items) s
  = if Nat.ltb (List.length (take_while cls s)) least then None
    else
      backtrack (List.length (take_while cls s)) least
        (fun n =>
           match match_from items (skipn n s) with
           | Some groups =>
               Some (if capture then firstn n s :: groups else groups)
           | None => None
           end).
Proof. reflexivity. Qed.

Lemma match_from_one (cls : N -> bool) (items : list item) (s : jsstring) :
  match_from (One cls :: items) s
  = match s with
    | c :: s' => if cls c then match_from items s' else None
    | [] => None
    end.
Proof. reflexivity. Qed.

(** A greedy run that ends the pattern keeps all it can take. *)
Lemma match_final_run (cls : N -> bool) (s : jsstring) :
  match_from [Many cls 0 true] s = Some [take_while cls s].
Proof.
  rewrite match_from_many. cbn [Nat.ltb Nat.leb].
  apply backtrack_first. cbn [match_from]. now rewrite firstn_run.
Qed.

(** ** The task parser *)

Section ParserFacts.

Import Checklist.

Lemma separator_not_digit (c : N) :
  is_separator c = true -> is_digit c = false.
Proof.
  unfold is_separator, is_space, is_line_terminator, is_digit.
  intros H. apply andb_false_iff.
  repeat rewrite orb_true_iff in H. rewrite andb_true_iff in H.
  repeat rewrite N.eqb_eq in H. repeat rewrite N.leb_le in H.
  rewrite !N.leb_gt. lia.
Qed.

(** White space and the rest of the line: the run of white space is taken
    whole, since the run after it matches whatever is left. *)
Lemma match_space_then_rest (s : jsstring) :
  match_from
    [Many is_space 0 false; Many (fun c => negb (is_line_terminator c)) 0 true]
    s
  = Some [up_to_line_terminator (drop_while is_space s)].
Proof.
  rewrite match_from_many. cbn [Nat.ltb Nat.leb].
  apply backtrack_first. now rewrite match_final_run, skipn_run.
Qed.

(** The backtracking match of the task pattern, as a single scan: the
    digits are taken whole, because giving one back leaves a digit where
    the separator has to be. *)
Lemma match_task_scan (cleanLine : jsstring) :
  match_task cleanLine
  = match take_while is_digit cleanLine, drop_while is_digit cleanLine with
    | (_ :: _) as m1, sep :: tl =>
        if is_separator sep
        then Some (m1, up_to_line_terminator (drop_while is_space tl))
        else None
    | _, _ => None
    end.
Proof.
  unfold match_task, task_pattern. rewrite match_from_many.
  set (tail := [One is_separator; Many is_space 0 false;
                Many (fun c => negb (is_line_terminator c)) 0 true]).
  set (attempt := fun n : nat =>
         match match_from tail (skipn n cleanLine) with
         | Some groups => Some (firstn n cleanLine :: groups)
         | None => None
         end).
  assert (Hshort : forall m,
             (m < List.length (take_while is_digit cleanLine))%nat ->
             attempt m = None).
  { intros m Hm. unfold attempt.
    destruct (skipn_inside_run is_digit cleanLine m Hm) as (c & l' & -> & Hc).
    unfold tail. rewrite match_from_one.
    destruct (is_separator c) eqn:Hsep; [|reflexivity].
    apply separator_not_digit in Hsep. congruence. }
  assert (Hfull : attempt (List.length (take_while is_digit cleanLine))
                  = match drop_while is_digit cleanLine with
                    | sep :: tl =>
                        if is_separator sep
                        then Some [take_while is_digit cleanLine;
                                   up_to_line_terminator (drop_while is_space tl)]
                        else None
                    | [] => None
                    end).
  { unfold attempt. rewrite skipn_run, firstn_run.
    destruct (drop_while is_digit cleanLine) as [|sep tl]; [reflexivity|].
    unfold tail. rewrite match_from_one.
    destruct (is_separator sep); [|reflexivity].
    now rewrite match_space_then_rest. }
  assert (Hnone : attempt (List.length (take_while is_digit cleanLine)) = None ->
                  backtrack (List.length (take_while is_digit cleanLine)) 1
                    attempt = None).
  { intros Hlast. apply backtrack_none. intros m Hm.
    destruct (Nat.eq_dec m (List.length (take_while is_digit cleanLine)))
      as [-> | Hne]; [exact Hlast | apply Hshort; lia]. }
  destruct (take_while is_digit cleanLine) as [|d ds] eqn:Hrun.
  - reflexivity.
  - cbn [List.length Nat.ltb Nat.leb] in *.
    destruct (drop_while is_digit cleanLine) as [|sep tl].
    + now rewrite (Hnone Hfull).
    + destruct (is_separator sep).
      * now rewrite (backtrack_first _ _ _ _ Hfull).
      * now rewrite (Hnone Hfull).
Qed.

Lemma match_task_shape (cleanLine m1 m2 : jsstring) :
  match_task cleanLine = Some (m1, m2) <->
  exists sep ws rest,
    task_shape cleanLine m1 sep ws rest /\ m2 = up_to_line_terminator rest.
Proof.
  rewrite match_task_scan. unfold task_shape. split.
  - pose proof (take_drop_while is_digit cleanLine) as Hsplit.
    pose proof (take_while_all is_digit cleanLine) as Hdig.
    destruct (take_while is_digit cleanLine) as [|d ds] eqn:Etake;
      [discriminate|].
    destruct (drop_while is_digit cleanLine) as [|sep tl] eqn:Edrop;
      [discriminate|].
    destruct (is_separator sep) eqn:Esep; [|discriminate].
    intros H; injection H as <- <-.
    exists sep, (take_while is_space tl), (drop_while is_space tl).
    split; [|reflexivity].
    rewrite take_drop_while. repeat split; auto.
    + discriminate.
    + apply take_while_all.
    + unfold stops_at. destruct (drop_while is_space tl) eqn:E; [exact I|].
      eapply drop_while_head; eassumption.
  - intros (sep & ws & rest & (-> & Hne & Hdig & Hsep & Hws & Hstop) & ->).
    destruct (scan_app is_digit m1 (sep :: ws ++ rest) Hdig) as [-> ->].
    { simpl. now apply separator_not_digit. }
    destruct m1 as [|d ds]; [contradiction|].
    rewrite Hsep.
    destruct (scan_app is_space ws rest Hws Hstop) as [_ ->].
    reflexivity.
Qed.

Lemma parse_line_shape (line : jsstring) (t : Task number) :
  parse_line line = Some t <->
  exists ds sep ws rest,
    task_shape (trim (remove_stars line)) ds sep ws rest
    /\ t = mkTask (parseInt ds) (trim (up_to_line_terminator rest)) false.
Proof.
  unfold parse_line. split.
  - destruct (match_task (trim (remove_stars line))) as [[m1 m2]|] eqn:E;
      [|discriminate].
    apply match_task_shape in E as (sep & ws & rest & Hshape & ->).
    intros H; injection H as <-. now exists m1, sep, ws, rest.
  - intros (ds & sep & ws & rest & Hshape & ->).
    assert (match_task (trim (remove_stars line))
            = Some (ds, up_to_line_terminator rest)) as ->.
    { apply match_task_shape. now exists sep, ws, rest. }
    reflexivity.
Qed.

Lemma forEach_push (lines : list jsstring) (acc : list (Task number)) :
  fold_left
    (fun tasksArray line =>
       match parse_line line with
       | Some t => tasksArray ++ [t]
       | None => tasksArray
       end) lines acc
  = acc ++ flat_map pushed lines.
Proof.
  revert acc. induction lines as [|line lines IH]; intros acc; simpl.
  - now rewrite app_nil_r.
  - rewrite IH. unfold pushed at 2. destruct (parse_line line); simpl.
    + now rewrite <- app_assoc.
    + reflexivity.
Qed.

(** [forEach] with [push] collects, in order, the tasks of the lines that
    match. *)
Lemma parseTasks_lines (text : jsstring) :
  parseTasks text = flat_map pushed (split_on nl text).
Proof. unfold parseTasks. now rewrite forEach_push. Qed.

Lemma up_to_line_terminator_id (s : jsstring) :
  forallb (fun c => negb (is_line_terminator c)) s = true ->
  up_to_line_terminator s = s.
Proof. apply take_while_id. Qed.

End ParserFacts.

Section ParseIntFacts.

Lemma digit_not_space (c : N) : is_digit c = true -> is_space c = false.
Proof.
  unfold is_digit, is_space, is_line_terminator. intros H.
  apply andb_prop in H as [H1 H2]. apply N.leb_le in H1, H2.
  repeat (apply orb_false_iff; split);
    try (apply N.eqb_neq; lia).
  apply andb_false_iff. left. apply N.leb_gt. lia.
Qed.

Lemma digit_is_radix_digit (c : N) :
  is_digit c = true -> is_radix_digit 10 c = true.
Proof. unfold is_radix_digit, radix_digit. now intros ->. Qed.

(** On a run of decimal digits [parseInt] takes neither a sign nor a
    radix prefix and reads the whole run: the result is the Number
    nearest to the integer the digits write. *)
Lemma parseInt_digit_run (ds : jsstring) :
  ds <> [] -> forallb is_digit ds = true ->
  parseInt ds = to_double (digits_value 10 ds).
Proof.
  intros Hne Hdig. destruct ds as [|d ds]; [contradiction|].
  pose proof Hdig as Hall. simpl in Hdig.
  apply andb_prop in Hdig as [Hd Hds].
  unfold parseInt. simpl drop_while. rewrite (digit_not_space _ Hd).
  assert (Hrange : (48 <= d <= 57)%N).
  { unfold is_digit in Hd. apply andb_prop in Hd as [H1 H2].
    apply N.leb_le in H1, H2. lia. }
  unfold strip_sign.
  replace (N.eqb d 45) with false by (symmetry; apply N.eqb_neq; lia).
  replace (N.eqb d 43) with false by (symmetry; apply N.eqb_neq; lia).
  assert (strip_radix_prefix (d :: ds) = (10%Z, d :: ds)) as ->.
  { unfold strip_radix_prefix. destruct ds as [|x r]; [reflexivity|].
    simpl in Hds. apply andb_prop in Hds as [Hx _].
    unfold is_digit in Hx. apply andb_prop in Hx as [H1 H2].
    apply N.leb_le in H1, H2.
    replace (N.eqb x 120) with false by (symmetry; apply N.eqb_neq; lia).
    replace (N.eqb x 88) with false by (symmetry; apply N.eqb_neq; lia).
    now rewrite andb_false_r. }
  rewrite take_while_id.
  - reflexivity.
  - rewrite forallb_forall in Hall |- *. intros c Hc.
    apply digit_is_radix_digit. now apply Hall.
Qed.

End ParseIntFacts.

Section ParserProperties.

Import Checklist.

(** C3, as amended.  On the specification's sample input the parser
    returns exactly the three tasks 1, 2, 3 with texts "Finish report",
    "Call client", "Review notes", all not done, and nothing for the
    trailing line.  In general the task array is, in line order, what each
    line contributes; a line contributes a task exactly when, once its
    asterisks are removed and it is trimmed, it reads
    digits-separator-whitespace-rest, with separator a full stop, a
    closing parenthesis, a colon or a white-space character; the task then
    has [id] the integer parsed from the digits ([parseInt], the Number
    nearest to the decimal value), [done] false, and as [text] the rest up
    to its first line terminator (CR, U+2028, U+2029) if it has one,
    trimmed -- the whole rest, trimmed, when it has none.  Other lines
    contribute nothing, and an input none of whose lines match parses to
    the empty array. *)
Theorem parser_robustness :
  parseTasks sample_plan
  = [ mkTask (Fin 1) (lit "Finish report") false;
      mkTask (Fin 2) (lit "Call client") false;
      mkTask (Fin 3) (lit "Review notes") false ]
  /\ (forall text, parseTasks text = flat_map pushed (split_on nl text))
  /\ (forall line t,
        parse_line line = Some t <->
        exists ds sep ws rest,
          task_shape (trim (remove_stars line)) ds sep ws rest
          /\ parseInt ds = to_double (digits_value 10 ds)
          /\ t = mkTask (parseInt ds) (trim (up_to_line_terminator rest)) false)
  /\ (forall rest,
        forallb (fun c => negb (is_line_terminator c)) rest = true ->
        up_to_line_terminator rest = rest)
  /\ (forall text,
        Forall (fun line => parse_line line = None) (split_on nl text) ->
        parseTasks text = [])
  /\ parseTasks (lit "Keep going!") = [].
Proof.
  split; [vm_compute; reflexivity|].
  split; [exact parseTasks_lines|].
  split.
  { intros line t. rewrite parse_line_shape. split.
    - intros (ds & sep & ws & rest & Hshape & ->).
      exists ds, sep, ws, rest.
      split; [exact Hshape|]. split; [|reflexivity].
      destruct Hshape as (_ & Hne & Hdig & _).
      now apply parseInt_digit_run.
    - intros (ds & sep & ws & rest & Hshape & _ & ->).
      now exists ds, sep, ws, rest. }
  split; [exact up_to_line_terminator_id|].
  split; [|vm_compute; reflexivity].
  intros text Hall. rewrite parseTasks_lines.
  induction Hall as [|line lines Hline _ IH]; simpl; [reflexivity|].
  unfold pushed at 1. now rewrite Hline.
Qed.

Lemma parser_robustness_witness :
  parse_line (lit "2) Call client")
  = Some (mkTask (Fin 2) (lit "Call client") false).
Proof.
  destruct parser_robustness as (_ & _ & Hline & Hrest & _).
  apply Hline. exists (lit "2"), 41%N, (lit " "), (lit "Call client").
  split; [|split].
  - repeat split; try reflexivity; discriminate.
  - reflexivity.
  - rewrite (Hrest (lit "Call client") eq_refl). reflexivity.
Defined.

(** The line [1. a<CR>b] has the shape of a task line with rest [a<CR>b],
    which trimming leaves alone; the parser stores the text [a]. *)
Lemma parser_rest_cut_at_line_terminator :
  let line := lit "1. a" ++ [13%N] ++ lit "b" in
  let rest := lit "a" ++ [13%N] ++ lit "b" in
  task_shape (trim (remove_stars line)) (lit "1") 46 (lit " ") rest
  /\ parse_line line = Some (mkTask (Fin 1) (lit "a") false)
  /\ parse_line line <> Some (mkTask (parseInt (lit "1")) (trim rest) false).
Proof.
  repeat split; try (vm_compute; reflexivity); vm_compute; discriminate.
Qed.

End ParserProperties.

(** ** The zero-goal short circuit *)

Section ShortCircuit.

Variable e : Env.
Variables chatId userId : Z.
Variable db : DB.

Hypothesis goals_read :
  fails e (Query (SelectGoalsByPriority userId)) = false.
Hypothesis no_goals : goals_of userId db = [].

Lemma short_circuit_checklist :
  fails e (Query (SelectTasks userId (Checklist.yesterdayStr e))) = false ->
  Checklist.unfinished_of
    (select_tasks userId (Checklist.yesterdayStr e) db) = [] ->
  let r := Checklist.generateAndSendDailyPlan e chatId userId db in
  emitted r
  = [ SendMessage chatId Checklist.msg_checking NoKeyboard;
      Query (SelectTasks userId (Checklist.yesterdayStr e));
      Query (SelectGoalsByPriority userId);
      SendMessage chatId Checklist.msg_no_goals NoKeyboard ]
  /\ final r = db
  /\ outcome r = Ok tt.
Proof.
  intros Hread Hnone.
  unfold Checklist.generateAndSendDailyPlan, try_catch, bind, pool_select,
    fire.
  cbn [emitted final outcome]. rewrite Hread. cbn [emitted final outcome].
  rewrite goals_read. cbn [emitted final outcome].
  rewrite no_goals, Hnone. cbn. auto.
Qed.

Lemma short_circuit_botjs :
  let r := BotJs.generateAndSendDailyPlan e chatId userId db in
  emitted r
  = [ Query (SelectGoalsByPriority userId);
      SendMessage chatId BotJs.msg_no_goals NoKeyboard ]
  /\ final r = db
  /\ outcome r = Ok tt.
Proof.
  unfold BotJs.generateAndSendDailyPlan, try_catch, bind, pool_select, fire.
  cbn [emitted final outcome]. rewrite goals_read.
  cbn [emitted final outcome]. rewrite no_goals. cbn. auto.
Qed.

End ShortCircuit.


(** ** The daily-activity table *)

Lemma has_key_spec (u : Z) (d : date) (a : Activity) :
  has_key u d a = true <-> activity_key a = (u, d).
Proof.
  unfold has_key, activity_key. rewrite andb_true_iff, !Z.eqb_eq.
  split; [intros [-> ->]; reflexivity | intros H; now inversion H].
Qed.

Section ActivityFacts.

Variables (u : Z) (d : date).

Lemma existsb_has_key (rows : list Activity) :
  existsb (has_key u d) rows = true <-> In (u, d) (map activity_key rows).
Proof.
  rewrite existsb_exists, in_map_iff. split.
  - intros (a & Ha & Hk). exists a. split; [now apply has_key_spec | exact Ha].
  - intros (a & Hk & Ha). exists a. split; [exact Ha | now apply has_key_spec].
Qed.

Lemma filter_absent_key (rows : list Activity) :
  ~ In (u, d) (map activity_key rows) -> filter (has_key u d) rows = [].
Proof.
  induction rows as [|a rows IH]; simpl; [reflexivity|].
  intros Hnot. destruct (has_key u d a) eqn:E.
  - exfalso. apply Hnot. left. now apply has_key_spec.
  - apply IH. tauto.
Qed.

(** Under the uniqueness constraint a key selects at most one row. *)
Lemma unique_filter (rows : list Activity) :
  NoDup (map activity_key rows) ->
  filter (has_key u d) rows = []
  \/ exists a, filter (has_key u d) rows = [a].
Proof.
  induction rows as [|a rows IH]; simpl; [left; reflexivity|].
  intros Hnd. inversion Hnd as [|k ks Hnotin Hnd']; subst.
  destruct (has_key u d a) eqn:E.
  - right. exists a. f_equal. apply filter_absent_key.
    apply has_key_spec in E. now rewrite <- E.
  - now apply IH.
Qed.

Lemma count_at_most_one (db : DB) :
  unique_activities db -> (count_activities u d db <= 1)%nat.
Proof.
  unfold unique_activities, count_activities. intros Hnd.
  destruct (unique_filter _ Hnd) as [-> | [a ->]]; simpl; lia.
Qed.

Section Rewrite.

(** A rewrite of the rows under a key that keeps the key columns. *)
Variable f : Activity -> Activity.
Hypothesis f_key : forall a, activity_key (f a) = activity_key a.

Let on_key (a : Activity) : Activity := if has_key u d a then f a else a.

Lemma rewrite_keys (rows : list Activity) :
  map activity_key (map on_key rows) = map activity_key rows.
Proof.
  rewrite map_map. apply map_ext. intros a. unfold on_key.
  destruct (has_key u d a); [apply f_key | reflexivity].
Qed.

Lemma rewrite_filter (rows : list Activity) :
  filter (has_key u d) (map on_key rows)
  = map f (filter (has_key u d) rows).
Proof.
  induction rows as [|a rows IH]; [reflexivity|].
  cbn [map filter]. destruct (has_key u d a) eqn:E.
  - assert (on_key a = f a) as -> by (unfold on_key; now rewrite E).
    assert (has_key u d (f a) = true) as ->.
    { apply has_key_spec. rewrite f_key. now apply has_key_spec. }
    cbn [map]. f_equal. exact IH.
  - assert (on_key a = a) as -> by (unfold on_key; now rewrite E).
    rewrite E. exact IH.
Qed.

Lemma rewrite_filter_other (u' : Z) (d' : date) (rows : list Activity) :
  (u', d') <> (u, d) ->
  filter (has_key u' d') (map on_key rows) = filter (has_key u' d') rows.
Proof.
  intros Hne. induction rows as [|a rows IH]; [reflexivity|].
  cbn [map filter]. destruct (has_key u d a) eqn:E.
  - assert (on_key a = f a) as -> by (unfold on_key; now rewrite E).
    assert (has_key u' d' a = false) as Ha.
    { destruct (has_key u' d' a) eqn:E'; [|reflexivity].
      apply has_key_spec in E. apply has_key_spec in E'. congruence. }
    assert (has_key u' d' (f a) = false) as ->.
    { destruct (has_key u' d' (f a)) eqn:E'; [|reflexivity].
      apply has_key_spec in E'. rewrite f_key in E'.
      apply has_key_spec in E. congruence. }
    now rewrite Ha.
  - assert (on_key a = a) as -> by (unfold on_key; now rewrite E).
    now rewrite IH.
Qed.

End Rewrite.

End ActivityFacts.

Section UpsertFacts.

Variables (u : Z) (d : date).
Variable on_conflict : Activity -> Activity.
Variable fresh : Activity.
Variable db : DB.

Hypothesis conflict_keeps_key :
  forall a, activity_key (on_conflict a) = activity_key a.
Hypothesis fresh_key : activity_key fresh = (u, d).

Let db' := upsert_row u d on_conflict fresh db.

Lemma filter_present_key (rows : list Activity) :
  NoDup (map activity_key rows) ->
  existsb (has_key u d) rows = true ->
  exists a, filter (has_key u d) rows = [a] /\ activity_key a = (u, d).
Proof.
  intros Hnd Hex. destruct (unique_filter u d rows Hnd) as [Hnil | [a Ha]].
  - apply existsb_exists in Hex as (a & Hin & Hk).
    assert (In a (filter (has_key u d) rows)) as Hf
      by (apply filter_In; now split).
    rewrite Hnil in Hf. destruct Hf.
  - exists a. split; [exact Ha|].
    assert (In a (filter (has_key u d) rows)) as Hf
      by (rewrite Ha; now left).
    apply filter_In in Hf as [_ Hk]. now apply has_key_spec.
Qed.

Lemma upsert_unique : unique_activities db -> unique_activities db'.
Proof.
  unfold unique_activities, db', upsert_row. cbn [daily_activities].
  intros Hnd. destruct (existsb (has_key u d) (daily_activities db)) eqn:Hex.
  - rewrite (rewrite_keys u d); [exact Hnd | exact conflict_keeps_key].
  - rewrite map_app. cbn [map]. rewrite fresh_key.
    apply NoDup_app; [exact Hnd | repeat constructor; intros [] |].
    intros k Hin [Hk | []]. subst k.
    apply existsb_has_key in Hin. congruence.
Qed.

(** After the upsert the key owns exactly one record: the rewritten one,
    or the fresh one. *)
Lemma upsert_selects :
  unique_activities db ->
  filter (has_key u d) (daily_activities db')
  = match filter (has_key u d) (daily_activities db) with
    | a :: _ => [on_conflict a]
    | [] => [fresh]
    end.
Proof.
  unfold unique_activities, db', upsert_row. cbn [daily_activities].
  intros Hnd. destruct (existsb (has_key u d) (daily_activities db)) eqn:Hex.
  - rewrite (rewrite_filter u d); [|exact conflict_keeps_key].
    destruct (filter_present_key _ Hnd Hex) as (a & -> & Hk). reflexivity.
  - assert (Habs : ~ In (u, d) (map activity_key (daily_activities db))).
    { intros Hin. apply existsb_has_key in Hin. congruence. }
    rewrite filter_app, (filter_absent_key u d _ Habs).
    cbn [filter app].
    assert (has_key u d fresh = true) as -> by now apply has_key_spec.
    reflexivity.
Qed.

(** Records under other keys are left alone. *)
Lemma upsert_others (u' : Z) (d' : date) :
  (u', d') <> (u, d) ->
  filter (has_key u' d') (daily_activities db')
  = filter (has_key u' d') (daily_activities db).
Proof.
  unfold db', upsert_row. cbn [daily_activities]. intros Hne.
  destruct (existsb (has_key u d) (daily_activities db)).
  - apply rewrite_filter_other; [exact conflict_keeps_key | exact Hne].
  - rewrite filter_app. cbn [filter].
    destruct (has_key u' d' fresh) eqn:E.
    + apply has_key_spec in E. congruence.
    + apply app_nil_r.
Qed.

(** An upsert over an existing record adds no row. *)
Lemma upsert_replaces :
  existsb (has_key u d) (daily_activities db) = true ->
  List.length (daily_activities db') = List.length (daily_activities db).
Proof.
  unfold db', upsert_row. cbn [daily_activities]. intros ->.
  apply length_map.
Qed.

End UpsertFacts.

Section UpsertActivityFacts.

Variables (u : Z) (d : date) (c : jsstring).
Variable ts : option (list (Task json_id)).
Variable db : DB.

Hypothesis unique : unique_activities db.

Lemma upsert_activity_unique :
  unique_activities (upsert_activity u d c ts db).
Proof. now apply upsert_unique. Qed.

(** After the checklist revision's upsert the key owns exactly the
    written record. *)
Lemma upsert_activity_selects :
  filter (has_key u d) (daily_activities (upsert_activity u d c ts db))
  = [mkActivity u d c ts].
Proof.
  unfold upsert_activity. rewrite upsert_selects; try reflexivity; [|exact unique].
  destruct (filter (has_key u d) (daily_activities db)) as [|a l] eqn:E;
    [reflexivity|].
  assert (In a (filter (has_key u d) (daily_activities db))) as Hin
    by (rewrite E; now left).
  apply filter_In in Hin as [_ Hk]. apply has_key_spec in Hk.
  unfold activity_key in Hk. now inversion Hk.
Qed.

(** After the plain revision's upsert the key owns exactly one record,
    with the written content. *)
Lemma upsert_content_selects :
  exists old_tasks,
    filter (has_key u d) (daily_activities (upsert_content u d c db))
    = [mkActivity u d c old_tasks].
Proof.
  unfold upsert_content. rewrite upsert_selects; try reflexivity; [|exact unique].
  destruct (filter (has_key u d) (daily_activities db)) as [|a l] eqn:E;
    [now exists None|].
  assert (In a (filter (has_key u d) (daily_activities db))) as Hin
    by (rewrite E; now left).
  apply filter_In in Hin as [_ Hk]. apply has_key_spec in Hk.
  unfold activity_key in Hk. exists (tasks a). now inversion Hk.
Qed.

(** The task array of that record is the one the key held before, or none
    for a fresh record. *)
Lemma upsert_content_keeps_tasks :
  filter (has_key u d) (daily_activities (upsert_content u d c db))
  = [mkActivity u d c
       (match select_tasks u d db with
        | kept :: _ => kept
        | [] => None
        end)].
Proof.
  unfold upsert_content, select_tasks.
  rewrite upsert_selects; try reflexivity; [|exact unique].
  destruct (filter (has_key u d) (daily_activities db)) as [|a l] eqn:E;
    [reflexivity|].
  assert (In a (filter (has_key u d) (daily_activities db))) as Hin
    by (rewrite E; now left).
  apply filter_In in Hin as [_ Hk]. apply has_key_spec in Hk.
  unfold activity_key in Hk. cbn [map]. now inversion Hk.
Qed.

End UpsertActivityFacts.

(** ** Running the orchestrator *)

Ltac unfold_run :=
  unfold Checklist.generateAndSendDailyPlan, BotJs.generateAndSendDailyPlan,
    try_catch, bind, pool_select, pool_exec, fire, await, ret;
  cbn [emitted final outcome].

Ltac case_fault :=
  match goal with
  | |- context [fails ?e ?ev] =>
      let F := fresh "Hfault" in
      destruct (fails e ev) eqn:F; cbn [emitted final outcome]
  end.

Section PlanRun.

Variable e : Env.
Variables chatId userId : Z.
Variable db : DB.

Let rows := select_tasks userId (Checklist.yesterdayStr e) db.
Let unfinishedTasks := Checklist.unfinished_of rows.
Let goals := order_by by_priority_then_id (goals_of userId db).
Let prompt := Checklist.build_prompt goals unfinishedTasks.
Let text := response e prompt.
Let tasksJson := JSON_stringify (Checklist.parseTasks text).
Let today := CURRENT_DATE e.
Let r := Checklist.generateAndSendDailyPlan e chatId userId db.

Let select_yesterday := Query (SelectTasks userId (Checklist.yesterdayStr e)).
Let select_goals := Query (SelectGoalsByPriority userId).
Let generate := GenerateContent prompt.
Let upsert := Query (UpsertActivity userId today text tasksJson).
Let send_plan :=
  SendMessage chatId
    (match unfinishedTasks with
     | [] => Checklist.msg_plan_header
     | _ :: _ => Checklist.msg_carried_header
     end ++ [nl; nl] ++ text)
    (PlanButtons (Checklist.rows_of_five (map (@id _) (Checklist.parseTasks text)))).

Let caught : list Event :=
  [ConsoleError; SendMessage chatId Checklist.msg_snag NoKeyboard].

Let idle : bool :=
  match goals, unfinishedTasks with
  | [], [] => true
  | _, _ => false
  end.

(** The function's promise always resolves. *)
Lemma plan_never_throws : outcome r = Ok tt.
Proof.
  subst r. unfold_run.
  case_fault; [reflexivity|]. case_fault; [reflexivity|].
  destruct (order_by _ _), (Checklist.unfinished_of _);
    cbn [emitted final outcome]; try reflexivity;
    (case_fault; [reflexivity|]); (case_fault; [reflexivity|]);
    case_fault; reflexivity.
Qed.

(** The events of one invocation, case by case. *)
Lemma plan_events :
  emitted r
  = SendMessage chatId Checklist.msg_checking NoKeyboard :: select_yesterday ::
    if fails e select_yesterday then caught
    else select_goals ::
      if fails e select_goals then caught
      else if idle
        then [SendMessage chatId Checklist.msg_no_goals NoKeyboard]
        else generate ::
          if fails e generate then caught
          else ConsoleLog :: ConsoleLog :: upsert ::
            if fails e upsert then caught
            else send_plan :: if fails e send_plan then caught else [].
Proof.
  subst r idle caught send_plan upsert generate select_goals select_yesterday
    today tasksJson text prompt goals unfinishedTasks rows.
  unfold_run.
  case_fault; [reflexivity|]. case_fault; [reflexivity|].
  destruct (order_by _ _), (Checklist.unfinished_of _);
    cbn [emitted final outcome app]; try reflexivity;
    (case_fault; [reflexivity|]); (case_fault; [reflexivity|]);
    case_fault; reflexivity.
Qed.

(** The store after one invocation: the upsert happened, or nothing. *)
Lemma plan_final :
  final r
  = if negb (fails e select_yesterday) && negb (fails e select_goals)
       && negb idle && negb (fails e generate) && negb (fails e upsert)
    then upsert_activity userId today text (Some tasksJson) db
    else db.
Proof.
  subst r idle caught send_plan upsert generate select_goals select_yesterday
    today tasksJson text prompt goals unfinishedTasks rows.
  unfold_run.
  case_fault; [reflexivity|]. case_fault; [reflexivity|].
  destruct (order_by _ _), (Checklist.unfinished_of _);
    cbn [emitted final outcome app negb andb]; try reflexivity;
    (case_fault; [reflexivity|]); (case_fault; [reflexivity|]);
    case_fault; reflexivity.
Qed.

End PlanRun.

Section PlanStore.

Variable e : Env.
Variables chatId userId : Z.
Variable db : DB.

Let r := Checklist.generateAndSendDailyPlan e chatId userId db.

(** Every invocation keeps the uniqueness constraint. *)
Lemma plan_keeps_unique : unique_activities db -> unique_activities (final r).
Proof.
  intros Hu. subst r. pose proof (plan_final e chatId userId db) as Hf.
  cbv zeta in Hf. rewrite Hf.
  match goal with |- context [if ?b then _ else _] => destruct b end;
    [now apply upsert_activity_unique | exact Hu].
Qed.

(** An upsert statement seen among the events, and not failed, is the one
    that stores the provider's answer and its parse. *)
Lemma plan_upsert_event (d : date) (text : jsstring)
  (ts : list (Task json_id)) :
  In (Query (UpsertActivity userId d text ts)) (emitted r) ->
  fails e (Query (UpsertActivity userId d text ts)) = false ->
  d = CURRENT_DATE e
  /\ ts = JSON_stringify (Checklist.parseTasks text)
  /\ In (GenerateContent
           (Checklist.build_prompt
              (order_by by_priority_then_id (goals_of userId db))
              (Checklist.unfinished_of
                 (select_tasks userId (Checklist.yesterdayStr e) db))))
        (emitted r)
  /\ text = response e
              (Checklist.build_prompt
                 (order_by by_priority_then_id (goals_of userId db))
                 (Checklist.unfinished_of
                    (select_tasks userId (Checklist.yesterdayStr e) db)))
  /\ final r = upsert_activity userId d text (Some ts) db.
Proof.
  subst r. intros Hin Hok.
  pose proof (plan_events e chatId userId db) as Hev.
  pose proof (plan_final e chatId userId db) as Hf.
  cbv zeta in Hev, Hf. rewrite Hf. rewrite Hev in Hin |- *. clear Hev Hf.
  repeat match type of Hin with
         | context [if ?b then _ else _] => destruct b eqn:?
         end;
    cbn [In negb andb] in Hin |- *;
    repeat match type of Hin with
           | _ \/ _ => destruct Hin as [Hin | Hin]
           end;
    try discriminate; try contradiction;
    injection Hin as H1 H2 H3; subst d text ts; try congruence;
    repeat split; auto 10.
Qed.

End PlanStore.

(** ** Upsert idempotence *)

(** C1.  The store starts with at most one daily-activity record per
    (user, date).  The orchestrator runs twice for the same user with the
    same current date, and the second run issues its upsert, which the
    store accepts.  Then every (user, date) still owns at most one record;
    the key (user, today) owns exactly one, whose content is the text of
    the second run and whose task list is the parse of that text; and if
    the key already owned a record after the first run -- as it does when
    the first run stored its plan -- the second run added no row. *)
Theorem upsert_idempotence (e1 e2 : Env) (chatId userId : Z) (db : DB)
  (text : jsstring) (ts : list (Task json_id)) :
  unique_activities db ->
  CURRENT_DATE e1 = CURRENT_DATE e2 ->
  let today := CURRENT_DATE e2 in
  let r1 := Checklist.generateAndSendDailyPlan e1 chatId userId db in
  let r2 := Checklist.generateAndSendDailyPlan e2 chatId userId (final r1) in
  In (Query (UpsertActivity userId today text ts)) (emitted r2) ->
  fails e2 (Query (UpsertActivity userId today text ts)) = false ->
  (forall u d, (count_activities u d (final r2) <= 1)%nat)
  /\ filter (has_key userId today) (daily_activities (final r2))
     = [mkActivity userId today text (Some ts)]
  /\ ts = JSON_stringify (Checklist.parseTasks text)
  /\ In (text, ts)
       (map (fun p => (response e2 p,
                       JSON_stringify (Checklist.parseTasks (response e2 p))))
          (prompts (emitted r2)))
  /\ (existsb (has_key userId today) (daily_activities (final r1)) = true ->
      List.length (daily_activities (final r2))
      = List.length (daily_activities (final r1)))
  /\ (forall text1 ts1,
        In (Query (UpsertActivity userId today text1 ts1)) (emitted r1) ->
        fails e1 (Query (UpsertActivity userId today text1 ts1)) = false ->
        List.length (daily_activities (final r2))
        = List.length (daily_activities (final r1))).
Proof.
  intros Huniq Hday today r1 r2 Hin Hok.
  assert (Hu1 : unique_activities (final r1)) by now apply plan_keeps_unique.
  destruct (plan_upsert_event e2 chatId userId (final r1) _ _ _ Hin Hok)
    as (_ & Hts & Hgen & Htext & Hfinal).
  fold r1 r2 in Hfinal, Hgen. rewrite Hfinal.
  split; [|split; [|split; [|split; [|split]]]].
  - intros u d. apply count_at_most_one. now apply upsert_activity_unique.
  - now apply upsert_activity_selects.
  - exact Hts.
  - apply in_map_iff. eexists. split.
    + rewrite <- Htext, <- Hts. reflexivity.
    + unfold prompts. apply in_flat_map. eexists. split; [exact Hgen|].
      now left.
  - intros Hex. unfold upsert_activity. now apply upsert_replaces.
  - intros text1 ts1 Hin1 Hok1.
    destruct (plan_upsert_event e1 chatId userId db _ _ _ Hin1 Hok1)
      as (_ & _ & _ & _ & Hfinal1).
    fold r1 in Hfinal1. unfold upsert_activity at 1. apply upsert_replaces.
    apply existsb_exists.
    pose proof (upsert_activity_selects userId today text1 (Some ts1) db Huniq)
      as Hsel.
    rewrite <- Hfinal1 in Hsel.
    exists (mkActivity userId today text1 (Some ts1)).
    apply filter_In. rewrite Hsel. now left.
Qed.

Lemma upsert_idempotence_witness :
  daily_activities
    (final (Checklist.generateAndSendDailyPlan Scenario.morning 100 1
              Scenario.runner))
  = [mkActivity 1 0%Z Scenario.morning_answer
       (Some [mkTask (Some 1%Z) (lit "Jog 5 km") false])]
  /\ daily_activities
       (final
          (Checklist.generateAndSendDailyPlan Scenario.evening 100 1
             (final (Checklist.generateAndSendDailyPlan Scenario.morning 100 1
                       Scenario.runner))))
     = [mkActivity 1 0%Z Scenario.evening_answer
          (Some [mkTask (Some 1%Z) (lit "Stretch") false;
                 mkTask (Some 2%Z) (lit "Plan the route") false])].
Proof.
  split; [vm_compute; reflexivity|].
  pose proof
    (upsert_idempotence Scenario.morning Scenario.evening
       100 1 Scenario.runner Scenario.evening_answer
       [mkTask (Some 1%Z) (lit "Stretch") false;
        mkTask (Some 2%Z) (lit "Plan the route") false]) as H.
  cbv zeta in H.
  destruct H as (_ & Hrow & _).
  - unfold unique_activities. simpl. constructor.
  - reflexivity.
  - vm_compute. do 6 right. left. reflexivity.
  - reflexivity.
  - vm_compute in Hrow. vm_compute. exact Hrow.
Defined.

(** ** The zero-goal short circuit in both revisions *)

(** C2, as amended.  For a user with no stored goal and no unfinished task
    from yesterday, both reads being answered, an invocation of the
    orchestrator calls the generation provider not at all, writes nothing
    to the store and resolves normally.  The checklist revision sends the
    progress notice first and then the no-active-goals message, and no
    other message; the plain revision, which has no carry-over read, sends
    the no-active-goals message alone. *)
Theorem zero_goal_short_circuit (e : Env) (chatId userId : Z) (db : DB) :
  fails e (Query (SelectTasks userId (Checklist.yesterdayStr e))) = false ->
  fails e (Query (SelectGoalsByPriority userId)) = false ->
  goals_of userId db = [] ->
  Checklist.unfinished_of
    (select_tasks userId (Checklist.yesterdayStr e) db) = [] ->
  let r := Checklist.generateAndSendDailyPlan e chatId userId db in
  let r' := BotJs.generateAndSendDailyPlan e chatId userId db in
  (sent (emitted r)
   = [(chatId, Checklist.msg_checking); (chatId, Checklist.msg_no_goals)]
   /\ prompts (emitted r) = []
   /\ writes (emitted r) = []
   /\ final r = db
   /\ outcome r = Ok tt)
  /\ (sent (emitted r') = [(chatId, BotJs.msg_no_goals)]
      /\ prompts (emitted r') = []
      /\ writes (emitted r') = []
      /\ final r' = db
      /\ outcome r' = Ok tt).
Proof.
  intros Hy Hg Hnone Hunf r r'.
  destruct (short_circuit_checklist e chatId userId db Hg Hnone Hy Hunf)
    as (Hev & Hfin & Hout).
  destruct (short_circuit_botjs e chatId userId db Hg Hnone)
    as (Hev' & Hfin' & Hout').
  fold r in Hev, Hfin, Hout. fold r' in Hev', Hfin', Hout'.
  rewrite Hev, Hev'. repeat split; assumption.
Qed.

Lemma zero_goal_short_circuit_witness :
  emitted
    (Checklist.generateAndSendDailyPlan Scenario.morning 100 1
       Scenario.newcomer)
  = [ SendMessage 100 Checklist.msg_checking NoKeyboard;
      Query (SelectTasks 1 (-1)%Z);
      Query (SelectGoalsByPriority 1);
      SendMessage 100 Checklist.msg_no_goals NoKeyboard ]
  /\ sent (emitted
             (Checklist.generateAndSendDailyPlan Scenario.morning 100 1
                Scenario.newcomer))
     = [(100%Z, Checklist.msg_checking); (100%Z, Checklist.msg_no_goals)].
Proof.
  split; [vm_compute; reflexivity|].
  apply (zero_goal_short_circuit Scenario.morning 100 1 Scenario.newcomer);
    reflexivity.
Defined.

(** The specification asks for the no-active-goals message and no other.
    In the checklist revision a user with no goal and no unfinished task
    receives two messages. *)
Lemma progress_notice_is_sent_too :
  goals_of 1 Scenario.newcomer = []
  /\ Checklist.unfinished_of
       (select_tasks 1 (Checklist.yesterdayStr Scenario.morning)
          Scenario.newcomer) = []
  /\ sent (emitted
             (Checklist.generateAndSendDailyPlan Scenario.morning 100 1
                Scenario.newcomer))
     <> [(100%Z, Checklist.msg_no_goals)].
Proof.
  split; [reflexivity|]. split; [reflexivity|].
  vm_compute. discriminate.
Qed.

(** ** Carry-over *)

Lemma occurs_in_refl (s : jsstring) : occurs_in s s.
Proof. exists [], []. now rewrite app_nil_r. Qed.

Lemma occurs_in_app_l (t a b : jsstring) :
  occurs_in t a -> occurs_in t (a ++ b).
Proof.
  intros (pre & post & ->). exists pre, (post ++ b).
  now rewrite <- !app_assoc.
Qed.

Lemma occurs_in_app_r (t a b : jsstring) :
  occurs_in t b -> occurs_in t (a ++ b).
Proof.
  intros (pre & post & ->). exists (a ++ pre), post.
  now rewrite <- !app_assoc.
Qed.

Lemma occurs_in_join (sep t : jsstring) (l : list jsstring) :
  In t l -> occurs_in t (join sep l).
Proof.
  induction l as [|x l IH]; [intros []|].
  intros [-> | Hin].
  - destruct l; cbn [join]; [apply occurs_in_refl|].
    apply occurs_in_app_l, occurs_in_refl.
  - destruct l as [|y l]; [destruct Hin|].
    cbn [join]. do 2 apply occurs_in_app_r. now apply IH.
Qed.

Lemma carried_text_in_prompt (goals : list Goal) (unfinished : list jsstring)
  (t : jsstring) :
  In t unfinished -> occurs_in t (Checklist.build_prompt goals unfinished).
Proof.
  intros Hin. unfold Checklist.build_prompt.
  destruct unfinished as [|x l]; [destruct Hin|].
  apply occurs_in_app_r. unfold Checklist.carry_over_instruction.
  do 3 apply occurs_in_app_r. now apply occurs_in_join.
Qed.

Section PlanPrompt.

Variable e : Env.
Variables chatId userId : Z.
Variable db : DB.

Hypothesis yesterday_read :
  fails e (Query (SelectTasks userId (Checklist.yesterdayStr e))) = false.
Hypothesis goals_read :
  fails e (Query (SelectGoalsByPriority userId)) = false.

Let unfinishedTasks :=
  Checklist.unfinished_of (select_tasks userId (Checklist.yesterdayStr e) db).
Let goals := order_by by_priority_then_id (goals_of userId db).

(** With both reads answered, the provider is called at most once, with
    the prompt built from the goals and the unfinished texts; it is not
    called only when there is neither. *)
Lemma plan_prompts :
  prompts (emitted (Checklist.generateAndSendDailyPlan e chatId userId db))
  = match goals, unfinishedTasks with
    | [], [] => []
    | _, _ => [Checklist.build_prompt goals unfinishedTasks]
    end.
Proof.
  subst goals unfinishedTasks.
  pose proof (plan_events e chatId userId db) as Hev. cbv zeta in Hev.
  rewrite Hev, yesterday_read, goals_read. clear Hev.
  destruct (order_by _ _), (Checklist.unfinished_of _); try reflexivity;
    repeat match goal with
           | |- context [if ?b then _ else _] => destruct b
           end; reflexivity.
Qed.

End PlanPrompt.

(** C4.  Both reads being answered, let [ts] be the task list of
    yesterday's record.  The provider is handed no prompt other than the
    one built from the goals and the texts, in order, of the tasks of [ts]
    that are not done -- neither ordinals nor flags enter it, and a done
    task adds nothing; the text of every task that is not done occurs
    verbatim in a prompt that is handed over.  When yesterday has no
    record, a record without task list, or an empty task list, the prompt
    is the goals-only template with no carry-over instruction appended. *)
Theorem carry_over_inclusion (e : Env) (chatId userId : Z) (db : DB) :
  fails e (Query (SelectTasks userId (Checklist.yesterdayStr e))) = false ->
  fails e (Query (SelectGoalsByPriority userId)) = false ->
  let rows := select_tasks userId (Checklist.yesterdayStr e) db in
  let goals := order_by by_priority_then_id (goals_of userId db) in
  let handed :=
    prompts (emitted (Checklist.generateAndSendDailyPlan e chatId userId db)) in
  (forall ts others, rows = Some ts :: others ->
     (forall p, In p handed ->
        p = Checklist.build_prompt goals
              (map (@text _) (filter (fun t => negb (done t)) ts)))
     /\ (forall t, In t ts -> done t = false ->
           exists p, In p handed /\ occurs_in (text t) p))
  /\ (rows = [] \/ (exists others, rows = None :: others)
      \/ (exists others, rows = Some [] :: others) ->
      forall p, In p handed ->
        p = Checklist.prompt_template (Checklist.goalsText goals)).
Proof.
  intros Hy Hg rows goals handed.
  pose proof (plan_prompts e chatId userId db Hy Hg) as Hp.
  fold rows goals handed in Hp. split.
  - intros ts others Hrows. rewrite Hrows in Hp. cbn [Checklist.unfinished_of] in Hp.
    split.
    + intros p Hin. rewrite Hp in Hin.
      destruct goals, (map _ _); cbn [In] in Hin;
        intuition (subst; reflexivity).
    + intros t Hin Hdone.
      assert (Hcarried : In (text t) (map (@text _) (filter (fun t => negb (done t)) ts))).
      { apply in_map. apply filter_In. split; [exact Hin | now rewrite Hdone]. }
      exists (Checklist.build_prompt goals
                (map (@text _) (filter (fun t => negb (done t)) ts))).
      split; [|now apply carried_text_in_prompt].
      rewrite Hp.
      destruct (map _ _) as [|x l]; [destruct Hcarried|].
      destruct goals; now left.
  - intros Hnone p Hin. rewrite Hp in Hin.
    assert (Checklist.unfinished_of rows = []) as Hunf.
    { destruct Hnone as [-> | [[others ->] | [others ->]]]; reflexivity. }
    rewrite Hunf in Hin.
    destruct goals; cbn [In] in Hin; [destruct Hin|].
    destruct Hin as [<- | []].
    unfold Checklist.build_prompt. now rewrite app_nil_r.
Qed.

Lemma carry_over_inclusion_witness :
  exists p,
    In p (prompts (emitted (Checklist.generateAndSendDailyPlan
                              Scenario.morning 100 1 Scenario.day_after)))
    /\ occurs_in (lit "Jog 5 km") p.
Proof.
  destruct (carry_over_inclusion Scenario.morning 100 1 Scenario.day_after
              eq_refl eq_refl) as [Hsome _].
  destruct (Hsome [mkTask (Some 1%Z) (lit "Jog 5 km") false;
                   mkTask (Some 2%Z) (lit "Stretch") true] [] eq_refl)
    as [_ Hocc].
  exact (Hocc (mkTask (Some 1%Z) (lit "Jog 5 km") false)
           (or_introl eq_refl) eq_refl).
Defined.

(** ** The toggle *)

Section ToggleFacts.

Import Checklist.

Variable taskNum : number.

Lemma toggle_tasks_from (tasks out : list (Task json_id)) (found : bool) :
  fold_left
    (fun '(out, taskFound) t =>
       if id_is taskNum t
       then (out ++ [flipped t], true)
       else (out ++ [t], taskFound))
    tasks (out, found)
  = (out ++ map (toggled taskNum) tasks, found || existsb (id_is taskNum) tasks).
Proof.
  revert out found. induction tasks as [|t tasks IH]; intros out found.
  - cbn. now rewrite app_nil_r, orb_false_r.
  - cbn [fold_left map existsb]. unfold Checklist.toggled at 1.
    destruct (id_is taskNum t); rewrite IH, <- app_assoc; cbn [app].
    + now rewrite orb_true_r.
    + reflexivity.
Qed.

(** One pass flips exactly the elements carrying the ordinal, and reports
    whether there was one. *)
Lemma toggle_tasks_spec (tasks : list (Task json_id)) :
  toggle_tasks taskNum tasks
  = (map (toggled taskNum) tasks, existsb (id_is taskNum) tasks).
Proof. unfold toggle_tasks. now rewrite toggle_tasks_from. Qed.

Lemma toggled_id (t : Task json_id) : id (toggled taskNum t) = id t.
Proof. unfold Checklist.toggled. now destruct (id_is taskNum t). Qed.

Lemma toggled_text (t : Task json_id) : text (toggled taskNum t) = text t.
Proof. unfold Checklist.toggled. now destruct (id_is taskNum t). Qed.

Lemma toggled_done (t : Task json_id) :
  done (toggled taskNum t) = if id_is taskNum t then negb (done t) else done t.
Proof. unfold Checklist.toggled. now destruct (id_is taskNum t). Qed.

Lemma toggled_twice (t : Task json_id) : toggled taskNum (toggled taskNum t) = t.
Proof.
  unfold Checklist.toggled. destruct (id_is taskNum t) eqn:E.
  - unfold id_is, flipped in *. cbn [id text done]. rewrite E.
    destruct t as [i s b]. cbn. now rewrite negb_involutive.
  - now rewrite E.
Qed.

Lemma toggled_found (tasks : list (Task json_id)) :
  existsb (id_is taskNum) (map (toggled taskNum) tasks) = existsb (id_is taskNum) tasks.
Proof.
  induction tasks as [|t tasks IH]; [reflexivity|].
  cbn [map existsb]. rewrite IH. f_equal.
  unfold id_is. now rewrite toggled_id.
Qed.

Lemma toggled_absent (tasks : list (Task json_id)) :
  existsb (id_is taskNum) tasks = false -> map (toggled taskNum) tasks = tasks.
Proof.
  induction tasks as [|t tasks IH]; [reflexivity|].
  cbn [map existsb]. intros H. apply orb_false_iff in H as [Ht Hrest].
  unfold Checklist.toggled at 1. now rewrite Ht, IH.
Qed.

End ToggleFacts.

Lemma check_is_not_delete (data : jsstring) :
  startsWith (lit "check_task_") data = true ->
  startsWith (lit "delete_goal_") data = false.
Proof.
  assert (lit "check_task_" = 99%N :: lit "heck_task_") as -> by reflexivity.
  assert (lit "delete_goal_" = 100%N :: lit "elete_goal_") as ->
    by reflexivity.
  destruct data as [|c data]; [discriminate|].
  cbn [startsWith]. intros H. apply andb_prop in H as [E _].
  apply N.eqb_eq in E. subst c. reflexivity.
Qed.

(** ** Running the callback-query handler on a check-box click *)

Ltac unfold_callback :=
  unfold Checklist.on_callback_query, try_catch, bind, pool_select,
    pool_exec, fire, await, ret;
  cbn [emitted final outcome].

Section CallbackRun.

Import Checklist.

Variable e : Env.
Variable query : CallbackQuery.
Variable db : DB.

Hypothesis is_click : startsWith (lit "check_task_") (data query) = true.

Let chatId := message_chat query.
Let taskNum := taskNum_of (data query).
Let today := CURRENT_DATE e.
Let lookup := Query (SelectUserByChat chatId).
Let r := on_callback_query e query db.

Lemma click_lookup_failed :
  fails e lookup = true ->
  r = mkRun [lookup] db (Throw StoreError).
Proof.
  intros H. subst r lookup chatId. unfold_callback. now rewrite H.
Qed.

Lemma click_unknown_user :
  fails e lookup = false ->
  select_user_by_chat chatId db = [] ->
  r = mkRun [lookup] db (Ok tt).
Proof.
  intros H Hnone. subst r lookup chatId. unfold_callback.
  now rewrite H, Hnone.
Qed.

Section KnownUser.

Variable user : User.
Variable others : list User.

Hypothesis lookup_answered : fails e lookup = false.
Hypothesis known : select_user_by_chat chatId db = user :: others.

Let userId := user_id user.
Let select_today := Query (SelectTasks userId today).

(** [dbRes.rows[0].tasks || []], or nothing to work on without a row. *)
Let stored : list (Task json_id) :=
  match select_tasks userId today db with
  | Some ts :: _ => ts
  | _ => []
  end.

Let tasks' := map (toggled taskNum) stored.
Let taskFound := existsb (id_is taskNum) stored.
Let update := Query (UpdateTasks userId today tasks').
Let edit :=
  EditMessageText chatId (message_id query) tasks'
    (closing_quote (message_text query))
    (ChecklistButtons (rows_of_five (map (fun t => (id t, done t)) tasks'))).

Lemma click_events :
  emitted r
  = lookup :: select_today ::
    (if fails e select_today then [ConsoleError]
     else if taskFound
       then update ::
            if fails e update then [ConsoleError]
            else edit :: if fails e edit then [ConsoleError] else []
       else [])
    ++ [AnswerCallbackQuery (query_id query)].
Proof.
  subst r edit update taskFound tasks' stored select_today userId lookup
    today taskNum chatId.
  unfold_callback. rewrite lookup_answered, known.
  rewrite (check_is_not_delete _ is_click), is_click.
  cbn [emitted final outcome].
  case_fault; [reflexivity|].
  destruct (select_tasks _ _ _) as [|[ts|] rows];
    cbn [emitted final outcome]; try reflexivity;
    rewrite toggle_tasks_spec;
    destruct (existsb _ _); cbn [emitted final outcome]; try reflexivity.
  case_fault; [reflexivity|]. case_fault; reflexivity.
Qed.

Lemma click_final :
  final r
  = if negb (fails e select_today) && taskFound && negb (fails e update)
    then update_tasks userId today tasks' db
    else db.
Proof.
  subst r edit update taskFound tasks' stored select_today userId lookup
    today taskNum chatId.
  unfold_callback. rewrite lookup_answered, known.
  rewrite (check_is_not_delete _ is_click), is_click.
  cbn [emitted final outcome].
  case_fault; [reflexivity|].
  destruct (select_tasks _ _ _) as [|[ts|] rows];
    cbn [emitted final outcome]; try reflexivity;
    rewrite toggle_tasks_spec;
    destruct (existsb _ _); cbn [emitted final outcome negb andb];
    try reflexivity.
  case_fault; [reflexivity|]. case_fault; reflexivity.
Qed.

Lemma click_outcome : outcome r = Ok tt.
Proof.
  subst r edit update taskFound tasks' stored select_today userId lookup
    today taskNum chatId.
  unfold_callback. rewrite lookup_answered, known.
  rewrite (check_is_not_delete _ is_click), is_click.
  cbn [emitted final outcome].
  case_fault; [reflexivity|].
  destruct (select_tasks _ _ _) as [|[ts|] rows];
    cbn [emitted final outcome]; try reflexivity;
    rewrite toggle_tasks_spec;
    destruct (existsb _ _); cbn [emitted final outcome negb andb];
    try reflexivity.
  case_fault; [reflexivity|]. case_fault; reflexivity.
Qed.

End KnownUser.

End CallbackRun.

Section UpdateFacts.

Variables (u : Z) (d : date).
Variable ts : list (Task json_id).
Variable db : DB.

Lemma update_selects :
  select_tasks u d (update_tasks u d ts db)
  = map (fun _ => Some ts) (select_tasks u d db).
Proof.
  unfold select_tasks, update_tasks. cbn [daily_activities].
  rewrite (rewrite_filter u d); [|reflexivity].
  now rewrite !map_map.
Qed.

Lemma update_keeps_unique :
  unique_activities db -> unique_activities (update_tasks u d ts db).
Proof.
  unfold unique_activities, update_tasks. cbn [daily_activities].
  now rewrite (rewrite_keys u d).
Qed.

(** Writing back the list every selected row already has changes
    nothing. *)
Lemma update_same :
  Forall (fun row => row = Some ts) (select_tasks u d db) ->
  update_tasks u d ts db = db.
Proof.
  unfold select_tasks, update_tasks. intros Hall.
  destruct db as [us gs rows]. cbn [users goals daily_activities] in *.
  f_equal. induction rows as [|a rows IH]; [reflexivity|].
  cbn [map filter] in *. destruct (has_key u d a) eqn:E.
  - cbn [map] in Hall. inversion Hall as [|x l Ha Hrest]; subst.
    rewrite (IH Hrest). f_equal.
    destruct a as [au ad ac at']. cbn in *. now rewrite Ha.
  - now rewrite (IH Hall).
Qed.

Lemma update_update (ts0 : list (Task json_id)) :
  update_tasks u d ts (update_tasks u d ts0 db) = update_tasks u d ts db.
Proof.
  unfold update_tasks. cbn [users goals daily_activities]. f_equal.
  rewrite map_map. apply map_ext. intros a.
  destruct (has_key u d a) eqn:E; [|now rewrite E].
  assert (has_key u d
            (mkActivity (act_user a) (activity_date a) (content a) (Some ts0))
          = true) as -> by exact E.
  reflexivity.
Qed.

End UpdateFacts.

Lemma toggled_toggles (taskNum : number) (ts : list (Task json_id)) :
  Forall2 (Checklist.toggles taskNum) ts (map (Checklist.toggled taskNum) ts).
Proof.
  induction ts as [|t ts IH]; constructor; [|exact IH].
  unfold Checklist.toggles.
  now rewrite toggled_id, toggled_text, toggled_done.
Qed.

(** ** Stale toggles *)

(** C6.  A check-box click arrives whose ordinal is carried by no task of
    today's stored task list of the clicking user -- the list counts as
    empty when the chat belongs to no user, when the user has no record
    today, and when the record has no task array -- and the user lookup is
    answered.  Then the handler leaves the store exactly as it was, issues
    no writing statement, sends, edits and deletes no message, and
    resolves normally, also when the read of today's record fails. *)
Theorem stale_toggle_safety (e : Env) (query : Checklist.CallbackQuery)
  (db : DB) :
  startsWith (lit "check_task_") (Checklist.data query) = true ->
  fails e (Query (SelectUserByChat (Checklist.message_chat query))) = false ->
  existsb (Checklist.id_is (Checklist.taskNum_of (Checklist.data query)))
    (Checklist.todays_tasks e (Checklist.message_chat query) db) = false ->
  let r := Checklist.on_callback_query e query db in
  final r = db
  /\ writes (emitted r) = []
  /\ shown (emitted r) = []
  /\ outcome r = Ok tt.
Proof.
  intros Hclick Hlookup Habsent r. unfold Checklist.todays_tasks in Habsent.
  destruct (select_user_by_chat (Checklist.message_chat query) db)
    as [|user others] eqn:Husers.
  - subst r. rewrite (click_unknown_user e query db Hlookup Husers).
    repeat split.
  - pose proof (click_events e query db Hclick user others Hlookup Husers)
      as Hev.
    pose proof (click_final e query db Hclick user others Hlookup Husers)
      as Hfin.
    pose proof (click_outcome e query db Hclick user others Hlookup Husers)
      as Hout.
    cbv zeta in Hev, Hfin. fold r in Hev, Hfin, Hout.
    rewrite Habsent in Hev, Hfin.
    rewrite andb_false_r in Hfin. cbn [andb] in Hfin.
    rewrite Hev, Hfin.
    repeat split; try assumption;
      destruct (fails e (Query (SelectTasks _ _))); reflexivity.
Qed.

Lemma stale_toggle_safety_witness :
  final (Checklist.on_callback_query Scenario.evening
           (Scenario.click (lit "check_task_3")) Scenario.at_noon)
  = Scenario.at_noon
  /\ final (Checklist.on_callback_query Scenario.evening
              (Scenario.click (lit "check_task_1")) Scenario.day_after)
     = Scenario.day_after.
Proof.
  split.
  - apply (stale_toggle_safety Scenario.evening
             (Scenario.click (lit "check_task_3")) Scenario.at_noon);
      reflexivity.
  - apply (stale_toggle_safety Scenario.evening
             (Scenario.click (lit "check_task_1")) Scenario.day_after);
      reflexivity.
Defined.

(** The user lookup is the one awaited call of the handler outside every
    [try]: when the store fails it, the handler's promise is rejected,
    still without any change to the store. *)
Lemma click_rejected_when_lookup_fails (e : Env)
  (query : Checklist.CallbackQuery) (db : DB) :
  startsWith (lit "check_task_") (Checklist.data query) = true ->
  fails e (Query (SelectUserByChat (Checklist.message_chat query))) = true ->
  let r := Checklist.on_callback_query e query db in
  final r = db /\ outcome r = Throw StoreError.
Proof.
  intros Hclick Hfail r. subst r.
  now rewrite (click_lookup_failed e query db Hfail).
Qed.

Lemma click_rejected_when_lookup_fails_witness :
  outcome (Checklist.on_callback_query Scenario.store_down
             (Scenario.click (lit "check_task_1")) Scenario.at_noon)
  = Throw StoreError.
Proof.
  apply (click_rejected_when_lookup_fails Scenario.store_down
           (Scenario.click (lit "check_task_1")) Scenario.at_noon);
    reflexivity.
Defined.

(** ** Toggling *)

Section Toggle.

Import Checklist.

Variable e : Env.
Variable query : CallbackQuery.
Variable db : DB.
Variable user : User.
Variable others : list User.
Variable ts : list (Task json_id).
Variable rows : list (option (list (Task json_id))).

Hypothesis is_click : startsWith (lit "check_task_") (data query) = true.
Hypothesis store_answers : forall q, fails e (Query q) = false.
Hypothesis known :
  select_user_by_chat (message_chat query) db = user :: others.
Hypothesis record :
  select_tasks (user_id user) (CURRENT_DATE e) db = Some ts :: rows.
Hypothesis present : existsb (id_is (taskNum_of (data query))) ts = true.

Let ts' := map (toggled (taskNum_of (data query))) ts.
Let r := on_callback_query e query db.

(** A click on an ordinal that is present: one [UPDATE] with the toggled
    list, and that list is what the store then holds. *)
Lemma click_toggles :
  writes (emitted r) = [UpdateTasks (user_id user) (CURRENT_DATE e) ts']
  /\ final r = update_tasks (user_id user) (CURRENT_DATE e) ts' db
  /\ outcome r = Ok tt.
Proof.
  pose proof (click_events e query db is_click user others
                (store_answers _) known) as Hev.
  pose proof (click_final e query db is_click user others
                (store_answers _) known) as Hfin.
  pose proof (click_outcome e query db is_click user others
                (store_answers _) known) as Hout.
  cbv zeta in Hev, Hfin. fold r in Hev, Hfin, Hout.
  rewrite record, present in Hev, Hfin. fold ts' in Hev, Hfin.
  rewrite !store_answers in Hev, Hfin. cbn [negb andb] in Hfin.
  rewrite Hev. repeat split; try assumption.
  destruct (fails e (EditMessageText _ _ _ _ _)); reflexivity.
Qed.

End Toggle.

(** C10.  Today's record of the clicking user holds the task list [ts],
    in which the clicked ordinal occurs, possibly several times; the store
    answers.  Then the handler issues exactly one writing statement, an
    overwrite of the task list, and the list it writes and the store then
    holds differs from [ts] in that every task whose ordinal is the
    clicked one has its flag inverted, and in nothing else.  The parser
    does produce such lists: two lines numbered 2 give two tasks with
    ordinal 2. *)
Theorem toggle_flips_every_match (e : Env) (query : Checklist.CallbackQuery)
  (db : DB) (user : User) (others : list User)
  (ts : list (Task json_id)) (rows : list (option (list (Task json_id)))) :
  startsWith (lit "check_task_") (Checklist.data query) = true ->
  (forall q, fails e (Query q) = false) ->
  select_user_by_chat (Checklist.message_chat query) db = user :: others ->
  select_tasks (user_id user) (CURRENT_DATE e) db = Some ts :: rows ->
  existsb (Checklist.id_is (Checklist.taskNum_of (Checklist.data query))) ts
  = true ->
  let r := Checklist.on_callback_query e query db in
  (exists ts',
     Forall2 (Checklist.toggles (Checklist.taskNum_of (Checklist.data query)))
       ts ts'
     /\ writes (emitted r)
        = [UpdateTasks (user_id user) (CURRENT_DATE e) ts']
     /\ select_tasks (user_id user) (CURRENT_DATE e) (final r)
        = map (fun _ => Some ts') (Some ts :: rows))
  /\ map (@id _)
       (JSON_stringify
          (Checklist.parseTasks (lit "2. Eat" ++ [nl] ++ lit "2. Nap")))
     = [Some 2%Z; Some 2%Z].
Proof.
  intros Hclick Hstore Hknown Hrecord Hpresent r.
  destruct (click_toggles e query db user others ts rows
              Hclick Hstore Hknown Hrecord Hpresent) as (Hw & Hfin & _).
  fold r in Hw, Hfin. split; [|vm_compute; reflexivity].
  eexists. split; [apply toggled_toggles|]. split; [exact Hw|].
  now rewrite Hfin, update_selects, Hrecord.
Qed.

Lemma toggle_flips_every_match_witness :
  exists ts',
    Forall2 (Checklist.toggles (Fin 2))
      [mkTask (Some 1%Z) (lit "Jog") false;
       mkTask (Some 2%Z) (lit "Eat") true;
       mkTask (Some 2%Z) (lit "Nap") false] ts'
    /\ select_tasks 1 0%Z
         (final (Checklist.on_callback_query Scenario.evening
                   (Scenario.click (lit "check_task_2")) Scenario.at_noon))
       = [Some ts'].
Proof.
  destruct (toggle_flips_every_match Scenario.evening
              (Scenario.click (lit "check_task_2")) Scenario.at_noon
              (mkUser 1 100) []
              [mkTask (Some 1%Z) (lit "Jog") false;
               mkTask (Some 2%Z) (lit "Eat") true;
               mkTask (Some 2%Z) (lit "Nap") false] []
              eq_refl (fun _ => eq_refl) eq_refl eq_refl eq_refl)
    as [(ts' & Hrel & _ & Hsel) _].
  exists ts'. split; [exact Hrel | exact Hsel].
Defined.

Lemma toggles_inverts (k : Z) (before after : Task json_id) :
  Checklist.toggles (Fin k) before after ->
  id after = id before
  /\ text after = text before
  /\ (id before = Some k -> done after = negb (done before))
  /\ (id before <> Some k -> done after = done before).
Proof.
  intros (Hid & Htext & Hdone). unfold Checklist.id_is in Hdone.
  split; [exact Hid|]. split; [exact Htext|]. split.
  - intros E. rewrite E, Z.eqb_refl in Hdone. exact Hdone.
  - intros Hne. destruct (id before) as [z|]; [|exact Hdone].
    destruct (Z.eqb_spec z k) as [->|_]; [now contradiction Hne | exact Hdone].
Qed.

(** C5.  The store respects the uniqueness constraint and answers; today's
    record of the clicking user holds the task list [ts]; the click's
    ordinal [k] occurs in it.  One run of the handler replaces [ts] by a
    list with the same ordinals and texts in which every task whose
    ordinal is [k] has its flag inverted and every task with another
    ordinal, or none, has its flag unchanged; a second run on the same day
    for the same click puts the whole store back as it was before the
    first, so each flag of ordinal [k] is back to its original value and
    the others never moved. *)
Theorem toggle_twice (e1 e2 : Env) (query : Checklist.CallbackQuery)
  (db : DB) (user : User) (others : list User)
  (ts : list (Task json_id)) (rows : list (option (list (Task json_id))))
  (k : Z) :
  unique_activities db ->
  startsWith (lit "check_task_") (Checklist.data query) = true ->
  Checklist.taskNum_of (Checklist.data query) = Fin k ->
  (forall q, fails e1 (Query q) = false) ->
  (forall q, fails e2 (Query q) = false) ->
  CURRENT_DATE e1 = CURRENT_DATE e2 ->
  select_user_by_chat (Checklist.message_chat query) db = user :: others ->
  select_tasks (user_id user) (CURRENT_DATE e1) db = Some ts :: rows ->
  (exists t, In t ts /\ id t = Some k) ->
  let r1 := Checklist.on_callback_query e1 query db in
  let r2 := Checklist.on_callback_query e2 query (final r1) in
  (exists ts',
     select_tasks (user_id user) (CURRENT_DATE e1) (final r1) = [Some ts']
     /\ Forall2
          (fun before after =>
             id after = id before
             /\ text after = text before
             /\ (id before = Some k -> done after = negb (done before))
             /\ (id before <> Some k -> done after = done before))
          ts ts')
  /\ final r2 = db.
Proof.
  intros Huniq Hclick Hnum Hs1 Hs2 Hday Hknown Hrecord Hpresent r1 r2.
  assert (Hfound : existsb (Checklist.id_is (Checklist.taskNum_of
                                               (Checklist.data query))) ts
                   = true).
  { destruct Hpresent as (t & Hin & Hid). apply existsb_exists.
    exists t. split; [exact Hin|]. unfold Checklist.id_is.
    rewrite Hid, Hnum. apply Z.eqb_refl. }
  assert (Hrows : rows = []).
  { unfold select_tasks in Hrecord.
    destruct (unique_filter (user_id user) (CURRENT_DATE e1)
                (daily_activities db) Huniq) as [Hnil | [a Ha]].
    - rewrite Hnil in Hrecord. discriminate.
    - rewrite Ha in Hrecord. now injection Hrecord. }
  subst rows.
  destruct (click_toggles e1 query db user others ts []
              Hclick Hs1 Hknown Hrecord Hfound) as (_ & Hfin1 & _).
  fold r1 in Hfin1.
  assert (Hsel1 : select_tasks (user_id user) (CURRENT_DATE e1) (final r1)
                  = [Some (map (Checklist.toggled
                                  (Checklist.taskNum_of (Checklist.data query)))
                             ts)]).
  { now rewrite Hfin1, update_selects, Hrecord. }
  split.
  - eexists. split; [exact Hsel1|]. rewrite Hnum.
    eapply Forall2_impl; [|apply toggled_toggles].
    intros before after. apply toggles_inverts.
  - assert (Hknown1 : select_user_by_chat (Checklist.message_chat query)
                        (final r1) = user :: others).
    { rewrite Hfin1. exact Hknown. }
    rewrite Hday in Hsel1.
    assert (Hfound1 : existsb (Checklist.id_is (Checklist.taskNum_of
                                                  (Checklist.data query)))
                        (map (Checklist.toggled
                                (Checklist.taskNum_of (Checklist.data query)))
                           ts) = true)
      by now rewrite toggled_found.
    destruct (click_toggles e2 query (final r1) user others _ []
                Hclick Hs2 Hknown1 Hsel1 Hfound1) as (_ & Hfin2 & _).
    fold r2 in Hfin2. rewrite Hfin2, Hfin1, <- Hday, update_update.
    rewrite map_map.
    rewrite (map_ext _ (fun t => t)) by (intros t; apply toggled_twice).
    rewrite map_id. apply update_same. rewrite Hrecord.
    now constructor.
Qed.

Lemma toggle_twice_witness :
  let once :=
    final (Checklist.on_callback_query Scenario.evening
             (Scenario.click (lit "check_task_2")) Scenario.at_noon) in
  select_tasks 1 0%Z Scenario.at_noon
  = [Some [mkTask (Some 1%Z) (lit "Jog") false;
           mkTask (Some 2%Z) (lit "Eat") true;
           mkTask (Some 2%Z) (lit "Nap") false]]
  /\ select_tasks 1 0%Z once
     = [Some [mkTask (Some 1%Z) (lit "Jog") false;
              mkTask (Some 2%Z) (lit "Eat") false;
              mkTask (Some 2%Z) (lit "Nap") true]]
  /\ final (Checklist.on_callback_query Scenario.evening
              (Scenario.click (lit "check_task_2")) once)
     = Scenario.at_noon.
Proof.
  destruct (toggle_twice Scenario.evening Scenario.evening
              (Scenario.click (lit "check_task_2")) Scenario.at_noon
              (mkUser 1 100) []
              [mkTask (Some 1%Z) (lit "Jog") false;
               mkTask (Some 2%Z) (lit "Eat") true;
               mkTask (Some 2%Z) (lit "Nap") false] [] 2%Z)
    as [(ts' & Hsel & Hrel) Hback].
  - unfold unique_activities. simpl. repeat constructor. intros [].
  - reflexivity.
  - reflexivity.
  - reflexivity.
  - reflexivity.
  - reflexivity.
  - reflexivity.
  - reflexivity.
  - exists (mkTask (Some 2%Z) (lit "Eat") true).
    split; [right; now left | reflexivity].
  - cbv zeta. split; [reflexivity|]. split; [|exact Hback].
    refine (eq_trans Hsel _). f_equal. f_equal.
    inversion Hrel as [|b1 a1 l1 l1' (I1 & T1 & _ & K1) Hrel1]; subst.
    inversion Hrel1 as [|b2 a2 l2 l2' (I2 & T2 & F2 & _) Hrel2]; subst.
    inversion Hrel2 as [|b3 a3 l3 l3' (I3 & T3 & F3 & _) Hrel3]; subst.
    inversion Hrel3; subst.
    cbn [id text done] in *.
    specialize (K1 ltac:(discriminate)).
    specialize (F2 eq_refl). specialize (F3 eq_refl).
    destruct a1 as [i1 t1 d1], a2 as [i2 t2 d2], a3 as [i3 t3 d3].
    cbn [id text done negb] in *. subst. reflexivity.
Defined.

(** ** Failure containment *)

Section Loops.

Context {X : Type} (f : X -> M unit).

(** A loop body that throws ends the loop there. *)
Lemma for_each_aborts (x : X) (xs : list X) (db : DB) (err : Error) :
  outcome (f x db) = Throw err ->
  for_each (x :: xs) f db = mkRun (emitted (f x db)) (final (f x db)) (Throw err).
Proof.
  intros H. cbn [for_each]. unfold bind.
  destruct (f x db) as [evs db1 o]. cbn in *. now subst o.
Qed.

Hypothesis f_resolves : forall x db, outcome (f x db) = Ok tt.


End Loops.



Lemma botjs_plan_never_throws (e : Env) (chatId userId : Z) (db : DB) :
  outcome (BotJs.generateAndSendDailyPlan e chatId userId db) = Ok tt.
Proof.
  unfold_run. case_fault; [reflexivity|].
  destruct (order_by _ _); cbn [emitted final outcome]; [reflexivity|].
  case_fault; [reflexivity|]. case_fault; reflexivity.
Qed.


Section Schedulers.

Variable e : Env.
Variable env_for : User -> Env.
Variable db : DB.

Hypothesis users_read : fails e (Query SelectAllUsers) = false.



End Schedulers.



(** With the provider down the runner gets the two notices and no plan is
    stored. *)
Example provider_down_is_caught :
  let r := Checklist.generateAndSendDailyPlan Scenario.provider_down 100 1
             Scenario.runner in
  sent (emitted r)
  = [(100%Z, Checklist.msg_checking); (100%Z, Checklist.msg_snag)]
  /\ final r = Scenario.runner
  /\ outcome r = Ok tt.
Proof. vm_compute. repeat split. Qed.

(** ** Day keys *)

Lemma date_in_previous_day (tz t : Z) :
  date_in tz (t - seconds_per_day) = (date_in tz t - 1)%Z.
Proof.
  unfold date_in, seconds_per_day.
  replace (t - 86400 + tz)%Z with (t + tz + (-1) * 86400)%Z by lia.
  rewrite Z.div_add by lia. lia.
Qed.

Lemma yesterdayStr_on_utc_host (e : Env) :
  host_tz e = 0%Z ->
  Checklist.yesterdayStr e = (date_in lagos_tz (now e) - 1)%Z.
Proof.
  intros Hhost.
  unfold Checklist.yesterdayStr, Checklist.yesterdayDate, Checklist.todayDate,
    Checklist.lagosTime.
  rewrite Hhost, date_in_previous_day. unfold date_in. f_equal. f_equal. lia.
Qed.

Lemma click_reads_today (e : Env) (query : Checklist.CallbackQuery) (db : DB)
  (ev : Event) :
  startsWith (lit "check_task_") (Checklist.data query) = true ->
  In ev (emitted (Checklist.on_callback_query e query db)) ->
  match ev with
  | Query (SelectTasks _ d) | Query (UpdateTasks _ d _) => d = CURRENT_DATE e
  | _ => True
  end.
Proof.
  intros Hclick Hin.
  destruct (fails e (Query (SelectUserByChat (Checklist.message_chat query))))
    eqn:Hlookup.
  - rewrite (click_lookup_failed e query db Hlookup) in Hin.
    destruct Hin as [<- | []]. exact I.
  - destruct (select_user_by_chat (Checklist.message_chat query) db)
      as [|user others] eqn:Husers.
    + rewrite (click_unknown_user e query db Hlookup Husers) in Hin.
      destruct Hin as [<- | []]. exact I.
    + pose proof (click_events e query db Hclick user others Hlookup Husers)
        as Hev.
      cbv zeta in Hev. rewrite Hev in Hin. clear Hev.
      repeat match type of Hin with
             | context [if ?b then _ else _] => destruct b
             end;
        cbn [In app] in Hin;
        repeat match type of Hin with
               | _ \/ _ => destruct Hin as [Hin | Hin]
               end;
        try contradiction; subst ev; auto.
Qed.

Lemma plan_reads_yesterday_writes_today (e : Env) (chatId userId : Z)
  (db : DB) (ev : Event) :
  In ev (emitted (Checklist.generateAndSendDailyPlan e chatId userId db)) ->
  match ev with
  | Query (SelectTasks _ d) => d = Checklist.yesterdayStr e
  | Query (UpsertActivity _ d _ _) => d = CURRENT_DATE e
  | _ => True
  end.
Proof.
  intros Hin.
  pose proof (plan_events e chatId userId db) as Hev.
  cbv zeta in Hev. rewrite Hev in Hin. clear Hev.
  repeat match type of Hin with
         | context [if ?b then _ else _] => destruct b
         end;
    cbn [In] in Hin;
    repeat match type of Hin with
           | _ \/ _ => destruct Hin as [Hin | Hin]
           end;
    try contradiction; subst ev; auto.
Qed.

Lemma yesterdayStr_zone (e : Env) :
  Checklist.yesterdayStr e
  = (date_in (lagos_tz - host_tz e) (now e) - 1)%Z.
Proof.
  unfold Checklist.yesterdayStr, Checklist.yesterdayDate, Checklist.todayDate,
    Checklist.lagosTime.
  rewrite date_in_previous_day. unfold date_in. f_equal. f_equal. lia.
Qed.

(** C7, on the code.  The orchestrator asks for the Africa/Lagos wall
    clock and then loses the zone: the wall-clock text is read back in the
    host's zone and the date is taken from its UTC rendering, so the
    carry-over key is the day before the date of a clock [lagos - host]
    east of UTC; today's key is the store's [CURRENT_DATE].  Half past
    midnight in Lagos on day 1, a user with unfinished tasks on day -1
    (Jog) and on day 0 (Stretch) asks for a plan.  On a host on Lagos time
    the prompt carries over Jog, the task of the day before yesterday, and
    not Stretch.  With host and store on UTC the prompt carries over
    Stretch, and the plan is then stored under day 0: the record just read
    as yesterday's is overwritten as today's, and nothing is stored for
    day 1. *)
Theorem carry_over_misses_the_lagos_day :
  let lagos := Scenario.after_midnight_lagos in
  let utc := Scenario.after_midnight_utc in
  let goals := [mkGoal 1 1 (lit "Run a marathon") None 0] in
  let on_lagos :=
    Checklist.generateAndSendDailyPlan lagos 100 1 Cases.two_days in
  let on_utc := Checklist.generateAndSendDailyPlan utc 100 1 Cases.two_days in
  (forall e,
     Checklist.yesterdayStr e
     = (date_in (lagos_tz - host_tz e) (now e) - 1)%Z)
  /\ now utc = now lagos
  /\ date_in lagos_tz (now lagos) = 1%Z
  /\ Checklist.unfinished_of (select_tasks 1 0%Z Cases.two_days)
     = [lit "Stretch"]
  /\ prompts (emitted on_lagos) = [Checklist.build_prompt goals [lit "Jog"]]
  /\ prompts (emitted on_utc) = [Checklist.build_prompt goals [lit "Stretch"]]
  /\ map (fun a => (activity_date a, tasks a)) (daily_activities (final on_utc))
     = [((-1)%Z, Some [mkTask (Some 1%Z) (lit "Jog") false]);
        (0%Z, Some [])].
Proof.
  split; [exact yesterdayStr_zone|]. vm_compute. repeat split.
Qed.

(** Half past midnight in Lagos.  With host and store on UTC the store's
    current date is still the day before the Lagos date, and the
    carry-over read uses that very day as its key: it reads the record the
    upsert is about to overwrite.  With host and store both on Lagos time
    the carry-over key is two days before the store's current date. *)
Lemma day_keys_follow_the_zones :
  date_in lagos_tz (now Scenario.after_midnight_utc) = 1%Z
  /\ CURRENT_DATE Scenario.after_midnight_utc = 0%Z
  /\ Checklist.yesterdayStr Scenario.after_midnight_utc
     = CURRENT_DATE Scenario.after_midnight_utc
  /\ now Scenario.after_midnight_lagos = now Scenario.after_midnight_utc
  /\ CURRENT_DATE Scenario.after_midnight_lagos = 1%Z
  /\ Checklist.yesterdayStr Scenario.after_midnight_lagos = (-1)%Z.
Proof. vm_compute. repeat split. Qed.

(** No single time zone accounts for both keys in every environment. *)
Lemma no_fixed_zone_for_both_keys :
  ~ exists tz,
      forall e,
        CURRENT_DATE e = date_in tz (now e)
        /\ Checklist.yesterdayStr e = (date_in tz (now e) - 1)%Z.
Proof.
  intros [tz H].
  destruct (H Scenario.after_midnight_utc) as [H1 _].
  destruct (H Scenario.after_midnight_lagos) as [H2 _].
  assert (CURRENT_DATE Scenario.after_midnight_utc
          = CURRENT_DATE Scenario.after_midnight_lagos) as Heq
    by (rewrite H1, H2; reflexivity).
  vm_compute in Heq. discriminate.
Qed.

(** ** Delete by number *)

(** C8, on the code.  [/mygoals] lists the three goals of the scenario as
    1. Write, 2. Run, 3. Read (priority first).  [/delete 2] numbers them
    by id alone, removes Read, and the listing that remains is Write,
    Run: the goal listed second is still there and the one listed third
    is gone. *)
Theorem delete_by_number_ignores_priority :
  BotJs.listing 100 Scenario.prioritised
  = [Scenario.goal_write; Scenario.goal_run; Scenario.goal_read]
  /\ BotJs.listing 100
       (final (BotJs.on_delete Scenario.morning 100 (lit "2")
                 Scenario.prioritised))
     = [Scenario.goal_write; Scenario.goal_run]
  /\ sent (emitted (BotJs.on_delete Scenario.morning 100 (lit "2")
                      Scenario.prioritised))
     = [(100%Z, BotJs.msg_deleted Scenario.goal_read)].
Proof. vm_compute. repeat split. Qed.

(** ** The plain revision's upsert *)

Section BotJsPlan.

Variable e : Env.
Variables chatId userId : Z.
Variable db : DB.

Let goals := order_by by_priority_then_id (goals_of userId db).
Let text := response e (BotJs.build_prompt goals).
Let r := BotJs.generateAndSendDailyPlan e chatId userId db.

Lemma botjs_plan_final :
  final r = db
  \/ (final r = upsert_content userId (CURRENT_DATE e) text db
      /\ fails e (Query (UpsertContent userId (CURRENT_DATE e) text)) = false).
Proof.
  subst r text goals. unfold_run. case_fault; [now left|].
  destruct (order_by _ _); cbn [emitted final outcome]; [now left|].
  case_fault; [now left|]. case_fault; [now left | now right].
Qed.

Lemma botjs_plan_upsert_event (d : date) (c : jsstring) :
  In (Query (UpsertContent userId d c)) (emitted r) ->
  fails e (Query (UpsertContent userId d c)) = false ->
  d = CURRENT_DATE e /\ c = text /\ final r = upsert_content userId d c db.
Proof.
  subst r text goals. unfold_run. intros Hin Hok. revert Hin.
  case_fault; [intros [H | [H | [H | []]]]; discriminate|].
  destruct (order_by _ _); cbn [emitted final outcome];
    [intros [H | [H | []]]; discriminate|].
  case_fault.
  - intros [H | [H | [H | [H | [H | []]]]]]; discriminate.
  - case_fault; cbn [In app];
      intros [H | [H | [H | [H | H]]]]; try discriminate;
      try (injection H as <- <-; try congruence; now repeat split);
      repeat (destruct H as [H | H]; try discriminate); try contradiction.
Qed.

End BotJsPlan.

(** The plain revision, on the same question as C1: over a store that
    respects the uniqueness constraint, a run whose upsert the store
    accepts leaves every (user, date) with at most one record and (user,
    today) with exactly one, holding the text of that run and the task
    array the key held before the run (none, if it held no record). *)
Theorem botjs_upsert_keeps_one_record (e : Env) (chatId userId : Z) (db : DB)
  (c : jsstring) :
  unique_activities db ->
  let today := CURRENT_DATE e in
  let r := BotJs.generateAndSendDailyPlan e chatId userId db in
  In (Query (UpsertContent userId today c)) (emitted r) ->
  fails e (Query (UpsertContent userId today c)) = false ->
  (forall u d, (count_activities u d (final r) <= 1)%nat)
  /\ filter (has_key userId today) (daily_activities (final r))
     = [mkActivity userId today c
          (match select_tasks userId today db with
           | kept :: _ => kept
           | [] => None
           end)].
Proof.
  intros Huniq today r Hin Hok.
  destruct (botjs_plan_upsert_event e chatId userId db today c Hin Hok)
    as (_ & _ & Hfin).
  fold r in Hfin. rewrite Hfin. split.
  - intros u d. apply count_at_most_one. unfold upsert_content.
    now apply upsert_unique.
  - now apply upsert_content_keeps_tasks.
Qed.

Lemma botjs_upsert_keeps_one_record_witness :
  daily_activities
    (final (BotJs.generateAndSendDailyPlan Scenario.evening 100 1
              Scenario.at_noon))
  = [mkActivity 1 0%Z Scenario.evening_answer
       (Some [mkTask (Some 1%Z) (lit "Jog") false;
              mkTask (Some 2%Z) (lit "Eat") true;
              mkTask (Some 2%Z) (lit "Nap") false])].
Proof.
  destruct (botjs_upsert_keeps_one_record Scenario.evening 100 1
              Scenario.at_noon Scenario.evening_answer) as [_ H].
  - unfold unique_activities. simpl. repeat constructor. intros [].
  - vm_compute. do 3 right. left. reflexivity.
  - reflexivity.
  - vm_compute in H. vm_compute. exact H.
Defined.

(** ** Sorting *)

Section OrderByFacts.

Context {A : Type} (le : A -> A -> bool).

Lemma insert_sorted_perm (x : A) (l : list A) :
  Permutation (insert_sorted le x l) (x :: l).
Proof.
  induction l as [|y l IH]; cbn [insert_sorted]; [reflexivity|].
  destruct (le x y); [reflexivity|].
  rewrite IH. apply perm_swap.
Qed.

Lemma order_by_perm (l : list A) : Permutation (order_by le l) l.
Proof.
  induction l as [|x l IH]; cbn; [reflexivity|].
  now rewrite insert_sorted_perm, IH.
Qed.

Lemma order_by_In (l : list A) (x : A) : In x (order_by le l) <-> In x l.
Proof.
  split; apply Permutation_in;
    [apply order_by_perm | symmetry; apply order_by_perm].
Qed.

Hypothesis le_total : forall x y, le x y = false -> le y x = true.
Hypothesis le_trans :
  forall x y z, le x y = true -> le y z = true -> le x z = true.

Let sorted := StronglySorted (fun a b => le a b = true).

Lemma insert_sorted_sorted (x : A) (l : list A) :
  sorted l -> sorted (insert_sorted le x l).
Proof.
  induction 1 as [|y l Hs IH Hy]; cbn [insert_sorted].
  - repeat constructor.
  - destruct (le x y) eqn:E.
    + constructor; [now constructor|]. constructor; [exact E|].
      rewrite Forall_forall in Hy |- *. intros z Hz.
      now apply le_trans with y; [|apply Hy].
    + constructor; [exact IH|].
      rewrite Forall_forall in Hy |- *. intros z Hz.
      apply (Permutation_in _ (insert_sorted_perm x l)) in Hz.
      destruct Hz as [<- | Hz]; [now apply le_total | now apply Hy].
Qed.

Lemma order_by_sorted (l : list A) : sorted (order_by le l).
Proof.
  induction l as [|x l IH]; cbn; [constructor|].
  now apply insert_sorted_sorted.
Qed.

Variable keep : A -> bool.

Lemma insert_before_all (x : A) (l : list A) :
  Forall (fun z => le x z = true) l -> insert_sorted le x l = x :: l.
Proof.
  intros H. destruct l as [|y l]; [reflexivity|].
  cbn [insert_sorted]. inversion H as [|? ? Hy _]; subst. now rewrite Hy.
Qed.

Lemma filter_insert_sorted (x : A) (l : list A) :
  sorted l ->
  filter keep (insert_sorted le x l)
  = if keep x then insert_sorted le x (filter keep l) else filter keep l.
Proof.
  induction 1 as [|y l Hs IH Hy]; cbn [insert_sorted filter].
  - now destruct (keep x).
  - destruct (le x y) eqn:E; cbn [filter].
    + destruct (keep x); [|reflexivity].
      symmetry. apply insert_before_all.
      assert (Hall : Forall (fun z => le x z = true) (y :: l)).
      { constructor; [exact E|].
        rewrite Forall_forall in Hy |- *. intros z Hz.
        now apply le_trans with y; [|apply Hy]. }
      rewrite Forall_forall in Hall |- *. intros z Hz.
      apply Hall. change (In z (filter keep (y :: l))) in Hz.
      now apply (proj1 (filter_In _ _ _) Hz).
    + rewrite IH. destruct (keep y), (keep x); try reflexivity.
      cbn [insert_sorted]. now rewrite E.
Qed.

(** Sorting what a filter keeps is keeping what the filter keeps of the
    sorted list. *)
Lemma order_by_filter (l : list A) :
  order_by le (filter keep l) = filter keep (order_by le l).
Proof.
  induction l as [|x l IH]; [reflexivity|].
  cbn [filter order_by fold_right].
  rewrite filter_insert_sorted by apply order_by_sorted.
  destruct (keep x); [|exact IH].
  cbn [order_by fold_right]. f_equal. exact IH.
Qed.

End OrderByFacts.

Lemma order_by_ext {A : Type} (le1 le2 : A -> A -> bool) (l : list A) :
  (forall x y, In x l -> In y l -> le1 x y = le2 x y) ->
  order_by le1 l = order_by le2 l.
Proof.
  induction l as [|x l IH]; intros Hagree; [reflexivity|].
  cbn [order_by fold_right]. fold (order_by le1 l). fold (order_by le2 l).
  rewrite IH by (intros a b Ha Hb; apply Hagree; now right).
  assert (Hx : forall y, In y (order_by le2 l) -> le1 x y = le2 x y).
  { intros y Hy. apply Hagree; [now left | right].
    now apply (order_by_In le2). }
  revert Hx. generalize (order_by le2 l) as s.
  induction s as [|y s IHs]; intros Hx; [reflexivity|].
  cbn [insert_sorted]. rewrite (Hx y) by now left.
  destruct (le2 x y); [reflexivity|].
  f_equal. apply IHs. intros z Hz. apply Hx. now right.
Qed.

Lemma filter_andb {A : Type} (p q : A -> bool) (l : list A) :
  filter (fun x => p x && q x) l = filter p (filter q l).
Proof.
  induction l as [|x l IH]; [reflexivity|]. cbn [filter].
  destruct (q x); cbn [filter]; rewrite ?andb_true_r, ?andb_false_r;
    [destruct (p x); now rewrite IH | exact IH].
Qed.

Lemma filter_swap {A : Type} (p q : A -> bool) (l : list A) :
  filter p (filter q l) = filter q (filter p l).
Proof.
  rewrite <- !filter_andb. apply filter_ext. intros x. apply andb_comm.
Qed.

(** Unique goal ids stay unique in whatever a filter keeps. *)
Lemma ids_unique_after_filter (keep : Goal -> bool) (gs : list Goal) :
  NoDup (map goal_id gs) -> NoDup (map goal_id (filter keep gs)).
Proof.
  induction gs as [|g gs IH]; cbn [map filter]; [auto|].
  intros Hnd. inversion Hnd as [|? ? Hnot Hnd']; subst.
  destruct (keep g); [|now apply IH].
  cbn [map]. constructor; [|now apply IH].
  intros Hin. apply Hnot. apply in_map_iff in Hin as (y & Hy & Hin).
  apply in_map_iff. exists y. split; [exact Hy|].
  now apply (proj1 (filter_In _ _ _) Hin).
Qed.

Lemma filter_out_absent_id (l : list Goal) (gid : Z) :
  ~ In gid (map goal_id l) ->
  filter (fun x => negb (Z.eqb (goal_id x) gid)) l = l.
Proof.
  induction l as [|y l IH]; [reflexivity|]. cbn [map filter]. intros Hnot.
  destruct (Z.eqb_spec (goal_id y) gid) as [Heq | Hne].
  - exfalso. apply Hnot. now left.
  - cbn [negb]. f_equal. apply IH. intros Hin. apply Hnot. now right.
Qed.

(** In a list without repeated ids, dropping the id found at position [n]
    drops exactly the element at position [n]. *)
Lemma filter_out_nth (l : list Goal) (n : nat) (g : Goal) :
  NoDup (map goal_id l) ->
  nth_error l n = Some g ->
  filter (fun x => negb (Z.eqb (goal_id x) (goal_id g))) l
  = firstn n l ++ skipn (S n) l.
Proof.
  revert n. induction l as [|x l IH]; intros n Hnd Hn.
  - destruct n; discriminate.
  - cbn [map] in Hnd. inversion Hnd as [|? ? Hnot Hnd']; subst.
    destruct n as [|n]; cbn [nth_error] in Hn.
    + injection Hn as ->. cbn [filter firstn skipn app].
      rewrite Z.eqb_refl. cbn [negb]. now apply filter_out_absent_id.
    + cbn [filter firstn skipn app].
      destruct (Z.eqb_spec (goal_id x) (goal_id g)) as [Heq | Hne].
      * exfalso. apply Hnot. rewrite Heq. apply in_map.
        now apply nth_error_In with n.
      * cbn [negb]. f_equal. now apply IH.
Qed.

Lemma by_id_total (x y : Goal) : by_id x y = false -> by_id y x = true.
Proof. unfold by_id. rewrite Z.leb_gt, Z.leb_le. lia. Qed.

Lemma by_id_trans (x y z : Goal) :
  by_id x y = true -> by_id y z = true -> by_id x z = true.
Proof. unfold by_id. rewrite !Z.leb_le. lia. Qed.

Lemma by_priority_is_by_id (l : list Goal) :
  (forall g g', In g l -> In g' l -> priority g = priority g') ->
  order_by by_priority_then_id l = order_by by_id l.
Proof.
  intros Hsame. apply order_by_ext. intros x y Hx Hy.
  unfold by_priority_then_id, by_id. rewrite (Hsame x y Hx Hy).
  now rewrite Z.ltb_irrefl, Z.eqb_refl.
Qed.

Lemma goals_of_single_chat (chat : Z) (db : DB) (user : User) :
  select_user_by_chat chat db = [user] ->
  BotJs.goals_of_chat chat db = goals_of (user_id user) db.
Proof.
  unfold BotJs.goals_of_chat, goals_of, select_user_by_chat. intros Hone.
  induction (goals db) as [|g gs IH]; [reflexivity|].
  cbn [flat_map filter]. rewrite IH, filter_andb, Hone. cbn [filter].
  now destruct (Z.eqb (goal_user g) (user_id user)).
Qed.

(** Where the two orders cannot differ, [/delete N] does remove the goal
    that [/mygoals] lists as number N.  The chat belongs to one user, all
    of whose goals have the same priority; goal ids are unique; the store
    answers; N is between 1 and the number of goals.  Then the listing
    after the command is the listing before it without its N-th entry,
    the others in their order, and the user is told which goal went. *)
Theorem delete_by_number_with_equal_priorities (e : Env) (chatId : Z)
  (match1 : jsstring) (db : DB) (user : User) (n : nat) (goal : Goal) :
  (forall q, fails e (Query q) = false) ->
  select_user_by_chat chatId db = [user] ->
  (forall g g', In g (goals_of (user_id user) db) ->
                In g' (goals_of (user_id user) db) ->
                priority g = priority g') ->
  NoDup (map goal_id (goals db)) ->
  parseInt match1 = Fin (Z.of_nat n + 1) ->
  nth_error (BotJs.listing chatId db) n = Some goal ->
  let r := BotJs.on_delete e chatId match1 db in
  BotJs.listing chatId (final r)
  = firstn n (BotJs.listing chatId db) ++ skipn (S n) (BotJs.listing chatId db)
  /\ sent (emitted r) = [(chatId, BotJs.msg_deleted goal)]
  /\ outcome r = Ok tt.
Proof.
  intros Hstore Hone Hsame Hnd Hnum Hnth r.
  set (G := goals_of (user_id user) db) in *.
  assert (HL : BotJs.listing chatId db = order_by by_id G).
  { unfold BotJs.listing. rewrite (goals_of_single_chat _ _ _ Hone).
    now apply by_priority_is_by_id. }
  rewrite HL in Hnth |- *.
  assert (Hlen : (n < List.length (order_by by_id G))%nat).
  { apply nth_error_Some. now rewrite Hnth. }
  assert (Hrun : r = mkRun
            [Query (SelectUserByChat chatId);
             Query (SelectGoalsById (user_id user));
             Query (DeleteGoalById (goal_id goal));
             SendMessage chatId (BotJs.msg_deleted goal) NoKeyboard]
            (delete_goal (goal_id goal) db) (Ok tt)).
  { subst r. unfold BotJs.on_delete, try_catch, bind, pool_select, pool_exec,
      fire, await, ret.
    rewrite !Hstore. cbn [emitted final outcome].
    rewrite Hone, Hstore. cbn [emitted final outcome].
    rewrite Hnum. fold G.
    assert (BotJs.out_of_range (Fin (Z.of_nat n + 1))
              (List.length (order_by by_id G)) = false) as ->.
    { unfold BotJs.out_of_range. apply orb_false_iff.
      rewrite !Z.ltb_ge. lia. }
    assert (BotJs.goal_at (order_by by_id G) (Fin (Z.of_nat n + 1))
            = Some goal) as ->.
    { unfold BotJs.goal_at.
      replace (Z.of_nat n + 1 - 1)%Z with (Z.of_nat n) by lia.
      rewrite Nat2Z.id.
      destruct (Z.leb_spec 1 (Z.of_nat n + 1)); [exact Hnth | lia]. }
    cbn [emitted final outcome]. rewrite Hstore. reflexivity. }
  rewrite Hrun. cbn [final emitted outcome]. split; [|now split].
  unfold BotJs.listing.
  assert (Hone' : select_user_by_chat chatId (delete_goal (goal_id goal) db)
                  = [user]) by exact Hone.
  rewrite (goals_of_single_chat _ _ _ Hone').
  assert (HG' : goals_of (user_id user) (delete_goal (goal_id goal) db)
                = filter (fun x => negb (Z.eqb (goal_id x) (goal_id goal))) G).
  { unfold G, goals_of, delete_goal. cbn [goals]. apply filter_swap. }
  rewrite HG'.
  rewrite by_priority_is_by_id.
  - rewrite (order_by_filter by_id by_id_total by_id_trans).
    apply filter_out_nth; [|exact Hnth].
    apply (Permutation_NoDup
             (Permutation_map goal_id
                (Permutation_sym (order_by_perm by_id G)))).
    unfold G, goals_of. now apply ids_unique_after_filter.
  - intros g g' Hg Hg'. apply Hsame.
    + now apply (proj1 (filter_In _ _ _) Hg).
    + now apply (proj1 (filter_In _ _ _) Hg').
Qed.

Lemma delete_by_number_with_equal_priorities_witness :
  BotJs.listing 100
    (final (BotJs.on_delete Scenario.morning 100 (lit "1") Scenario.runner))
  = [].
Proof.
  apply (delete_by_number_with_equal_priorities Scenario.morning 100 (lit "1")
           Scenario.runner (mkUser 1 100) 0
           (mkGoal 1 1 (lit "Run a marathon") None 0)).
  - reflexivity.
  - reflexivity.
  - intros g g' [<- | []] [<- | []]. reflexivity.
  - simpl. repeat constructor. intros [].
  - reflexivity.
  - reflexivity.
Defined.

(** * Further properties of the code *)

(** ** The button grid *)

Section ButtonGrid.

Context {B : Type}.

Lemma rows_of_five_from_layout (l row : list B) :
  (List.length row < 5)%nat ->
  let rows := Checklist.rows_of_five_from row l in
  concat rows = row ++ l
  /\ Forall (fun r => (1 <= List.length r <= 5)%nat) rows
  /\ Forall (fun r => List.length r = 5%nat) (removelast rows)
  /\ List.length rows = ((List.length row + List.length l + 4) / 5)%nat.
Proof.
  revert row. induction l as [|b l IH]; intros row Hrow.
  - cbn [Checklist.rows_of_five_from]. destruct row as [|x row].
    + cbn. split; [reflexivity|]. split; [constructor|].
      split; [constructor | reflexivity].
    + cbn [concat removelast app]. rewrite !app_nil_r.
      split; [reflexivity|]. split; [|split].
      * constructor; [|constructor]. cbn [List.length] in *. lia.
      * constructor.
      * cbn [List.length] in *. rewrite Nat.add_0_r.
        apply Nat.div_unique with (List.length row)%nat; lia.
  - cbn [Checklist.rows_of_five_from].
    assert (Hlen : List.length (row ++ [b]) = S (List.length row))
      by (rewrite length_app; cbn; lia).
    destruct (Nat.eqb_spec (List.length (row ++ [b])) 5) as [Hfull | Hnot].
    + destruct (IH [] ltac:(cbn; lia)) as (Hcat & Hall & Hinit & Hcount).
      cbn [concat]. rewrite Hcat. cbn [app List.length] in *.
      split; [now rewrite <- app_assoc|]. split; [|split].
      * constructor; [lia | exact Hall].
      * destruct (Checklist.rows_of_five_from [] l) eqn:E;
          [constructor | constructor; [exact Hfull | exact Hinit]].
      * rewrite Hcount.
        replace (List.length row + S (List.length l) + 4)%nat
          with (List.length l + 4 + 1 * 5)%nat by lia.
        rewrite Nat.div_add by lia. cbn [Nat.add]. lia.
    + destruct (IH (row ++ [b]) ltac:(lia)) as (Hcat & Hall & Hinit & Hcount).
      split; [now rewrite Hcat, <- app_assoc|].
      split; [exact Hall|]. split; [exact Hinit|].
      rewrite Hcount, Hlen. cbn [List.length]. f_equal. lia.
Qed.

End ButtonGrid.

(** The grid of buttons.  The buttons are laid out in their order, in rows
    that are never empty and never longer than five; every row but the
    last has exactly five; [n] buttons take [ceil(n / 5)] rows. *)
Theorem rows_of_five_layout {B : Type} (buttons : list B) :
  let rows := Checklist.rows_of_five buttons in
  concat rows = buttons
  /\ Forall (fun r => (1 <= List.length r <= 5)%nat) rows
  /\ Forall (fun r => List.length r = 5%nat) (removelast rows)
  /\ List.length rows = ((List.length buttons + 4) / 5)%nat.
Proof.
  exact (rows_of_five_from_layout buttons [] ltac:(cbn; lia)).
Qed.

(** ** Callback data *)

Section DecimalDigits.

Let step (acc : Z) (c : N) : Z :=
  (10 * acc + match radix_digit 10 c with Some v => v | None => 0 end)%Z.

Let codes (d : Decimal.uint) : jsstring :=
  lit (NilEmpty.string_of_uint d).

Lemma codes_are_digits (d : Decimal.uint) : forallb is_digit (codes d) = true.
Proof.
  unfold codes. induction d; cbn [NilEmpty.string_of_uint]; try reflexivity;
    unfold lit in *; cbn [list_ascii_of_string map forallb];
    rewrite IHd; reflexivity.
Qed.

Lemma fold_digits_acc (d : Decimal.uint) (acc : positive) :
  fold_left step (codes d) (Z.pos acc) = Z.pos (Pos.of_uint_acc d acc).
Proof.
  unfold codes. revert acc.
  induction d; intros acc; cbn [NilEmpty.string_of_uint Pos.of_uint_acc];
    try reflexivity;
    unfold lit in *; cbn [list_ascii_of_string map fold_left];
    rewrite <- IHd; f_equal; unfold step;
    match goal with
    | |- context [radix_digit 10 ?c] =>
        let v := eval vm_compute in (radix_digit 10 c) in
        change (radix_digit 10 c) with v
    end; cbv beta iota; lia.
Qed.

Lemma fold_digits (d : Decimal.uint) :
  fold_left step (codes d) 0%Z = Z.of_N (Pos.of_uint d).
Proof.
  unfold codes.
  induction d; cbn [NilEmpty.string_of_uint Pos.of_uint]; try reflexivity;
    unfold lit in *; cbn [list_ascii_of_string map fold_left];
    try exact IHd;
    cbn [Z.of_N]; rewrite <- fold_digits_acc; reflexivity.
Qed.

(** The digits printed for [n] are digits, at least one, and read back as
    [n]. *)
Lemma digits_of_reads_back (n : N) :
  Labels.digits_of n <> []
  /\ forallb is_digit (Labels.digits_of n) = true
  /\ digits_value 10 (Labels.digits_of n) = Z.of_N n.
Proof.
  unfold Labels.digits_of.
  assert (Hne : N.to_uint n <> Decimal.Nil).
  { destruct n; [discriminate | apply DecimalPos.Unsigned.to_uint_nonnil]. }
  assert (Hstr : NilZero.string_of_uint (N.to_uint n)
                 = NilEmpty.string_of_uint (N.to_uint n)).
  { destruct (N.to_uint n); [contradiction | reflexivity..]. }
  rewrite Hstr. fold (codes (N.to_uint n)). split; [|split].
  - unfold codes. destruct (N.to_uint n); [contradiction | discriminate..].
  - apply codes_are_digits.
  - unfold digits_value. fold step. rewrite fold_digits.
    f_equal. apply DecimalN.Unsigned.of_to.
Qed.

End DecimalDigits.

Lemma split_digits (ds : jsstring) :
  forallb is_digit ds = true -> split_on 95 ds = [ds].
Proof.
  induction ds as [|c ds IH]; [reflexivity|].
  cbn [forallb split_on]. intros H. apply andb_prop in H as [Hc Hds].
  rewrite (IH Hds).
  destruct (N.eqb_spec c 95) as [->|_]; [discriminate Hc | reflexivity].
Qed.

Lemma startsWith_app (p s : jsstring) : startsWith p (p ++ s) = true.
Proof.
  unfold startsWith. induction p as [|c p IH]; [reflexivity|].
  cbn. rewrite N.eqb_refl. exact IH.
Qed.

Lemma check_is_not_delete_data (s : jsstring) :
  startsWith (lit "delete_goal_") (lit "check_task_" ++ s) = false.
Proof. reflexivity. Qed.

Lemma check_task_pieces (s : jsstring) :
  forallb is_digit s = true ->
  nth_error (split_on 95 (lit "check_task_" ++ s)) 2 = Some s.
Proof.
  intros H.
  change (lit "check_task_" ++ s)
    with (lit "check" ++ 95%N :: lit "task" ++ 95%N :: s).
  cbn -[N.eqb]. rewrite (split_digits s H). reflexivity.
Qed.

(** The callback data of a plan button names its task: for an ordinal
    [z] with [0 <= z < 2^53] the data [check_task_<z>] is taken by the
    checklist branch of the handler, not by the goal-deletion branch, and
    the ordinal the handler reads out of it is [z]. *)
Theorem check_task_data_round_trip (z : Z) :
  (0 <= z < 2 ^ 53)%Z ->
  exists data,
    Labels.check_task_data (Fin z) = Some data
    /\ startsWith (lit "check_task_") data = true
    /\ startsWith (lit "delete_goal_") data = false
    /\ Checklist.taskNum_of data = Fin z.
Proof.
  intros Hz.
  destruct (digits_of_reads_back (Z.abs_N z)) as (Hne & Hds & Hval).
  exists (lit "check_task_" ++ Labels.digits_of (Z.abs_N z)).
  split; [|split; [|split]].
  - unfold Labels.check_task_data, Labels.Number_toString.
    replace (Z.abs z <? 2 ^ 53)%Z with true by (symmetry; apply Z.ltb_lt; lia).
    replace (z <? 0)%Z with false by (symmetry; apply Z.ltb_ge; lia).
    reflexivity.
  - apply startsWith_app.
  - apply check_is_not_delete_data.
  - unfold Checklist.taskNum_of. rewrite (check_task_pieces _ Hds).
    rewrite (parseInt_digit_run _ Hne Hds), Hval.
    unfold to_double.
    replace (Z.of_N (Z.abs_N z) <? 2 ^ 53)%Z with true
      by (symmetry; apply Z.ltb_lt; lia).
    f_equal. lia.
Qed.

Lemma check_task_data_round_trip_witness :
  exists data,
    Labels.check_task_data (Fin 12) = Some data
    /\ startsWith (lit "check_task_") data = true
    /\ startsWith (lit "delete_goal_") data = false
    /\ Checklist.taskNum_of data = Fin 12.
Proof. apply (check_task_data_round_trip 12). lia. Defined.

(** ** The keyboard and the stored list *)

Lemma rows_of_five_concat {B : Type} (l : list B) :
  concat (Checklist.rows_of_five l) = l.
Proof.
  pose proof (rows_of_five_from_layout l [] ltac:(cbn; lia)) as H.
  cbv zeta in H. exact (proj1 H).
Qed.

Lemma parsed_tasks_not_done (text : jsstring) :
  Forall (fun t => done t = false) (Checklist.parseTasks text).
Proof.
  rewrite parseTasks_lines. apply Forall_forall. intros t Hin.
  apply in_flat_map in Hin as (line & _ & Hin).
  unfold Checklist.pushed in Hin.
  destruct (Checklist.parse_line line) as [t'|] eqn:Hline; [|contradiction].
  destruct Hin as [<-|[]].
  apply parse_line_shape in Hline as (ds & sep & ws & rest & _ & ->).
  reflexivity.
Qed.

(** The plan message and the store agree.  Whenever the orchestrator sends
    a message with buttons, the store holds exactly one record for the user
    and today; its task list has one task per button, in the order of the
    buttons, each with the button's ordinal as written by [JSON.stringify],
    and none of them is ticked. *)
Theorem plan_buttons_mirror_stored_tasks (e : Env) (chatId userId : Z)
  (db : DB) (body : jsstring) (kb : Keyboard) :
  let r := Checklist.generateAndSendDailyPlan e chatId userId db in
  unique_activities db ->
  In (SendMessage chatId body kb) (emitted r) ->
  kb <> NoKeyboard ->
  exists stored,
    select_tasks userId (CURRENT_DATE e) (final r) = [Some stored]
    /\ map (@id _) stored = map JSON_number (Labels.plan_button_ids kb)
    /\ Forall (fun t => done t = false) stored.
Proof.
  intros r Hu Hin Hkb. subst r.
  pose proof (plan_events e chatId userId db) as Hev.
  pose proof (plan_final e chatId userId db) as Hfin.
  cbv zeta in Hev, Hfin. rewrite Hev in Hin. rewrite Hfin. clear Hev Hfin.
  set (prompt := Checklist.build_prompt _ _) in *.
  set (text := response e prompt) in *.
  set (tasks := Checklist.parseTasks text) in *.
  assert (Hplain : forall c b, SendMessage c b NoKeyboard
                               <> SendMessage chatId body kb).
  { intros c b E. injection E as _ _ E. now symmetry in E. }
  repeat match type of Hin with
         | context [fails e ?ev] => destruct (fails e ev)
         | context [if ?b then _ else _] => destruct b
         end;
    cbn [In] in Hin;
    repeat match type of Hin with
           | _ \/ _ => destruct Hin as [Hin|Hin]
           end;
    try contradiction; try discriminate Hin;
    try (now apply Hplain in Hin);
    injection Hin as _ <-; cbn [negb andb];
    (exists (JSON_stringify tasks); split; [|split]);
    try (unfold select_tasks;
         rewrite (upsert_activity_selects _ _ _ _ _ Hu); reflexivity);
    try (cbn [Labels.plan_button_ids]; rewrite rows_of_five_concat;
         unfold JSON_stringify; rewrite !map_map; reflexivity);
    try (unfold JSON_stringify; apply Forall_map;
         exact (parsed_tasks_not_done text)).
Qed.

Lemma plan_buttons_mirror_stored_tasks_witness :
  exists stored,
    select_tasks 1 (CURRENT_DATE Scenario.morning)
      (final (Checklist.generateAndSendDailyPlan Scenario.morning 100 1
                Scenario.runner))
    = [Some stored]
    /\ map (@id _) stored
       = map JSON_number (Labels.plan_button_ids (PlanButtons [[Fin 1]]))
    /\ Forall (fun t => done t = false) stored.
Proof.
  apply (plan_buttons_mirror_stored_tasks Scenario.morning 100 1
           Scenario.runner
           (Checklist.msg_plan_header ++ [nl; nl] ++ Scenario.morning_answer)
           (PlanButtons [[Fin 1]])).
  - unfold unique_activities. simpl. constructor.
  - vm_compute. do 7 right. left. reflexivity.
  - discriminate.
Defined.

(** ** The callback-query handler on any callback data *)

Ltac callback_cases :=
  repeat (cbn [emitted final outcome];
          match goal with
          | |- context [fails ?e ?ev] => destruct (fails e ev) eqn:?
          | |- context [select_user_by_chat ?c ?db] =>
              destruct (select_user_by_chat c db) as [|? ?] eqn:?
          | |- context [startsWith ?p ?s] => destruct (startsWith p s) eqn:?
          | |- context [select_tasks ?u ?d ?db] =>
              destruct (select_tasks u d db) as [|[?|] ?] eqn:?
          | |- context [Checklist.toggle_tasks ?n ?ts] =>
              rewrite (toggle_tasks_spec n ts)
          | |- context [existsb ?f ?l] => destruct (existsb f l) eqn:?
          | |- context [pg_integer ?e ?s] => destruct (pg_integer e s) eqn:?
          end).

Lemma todays_tasks_after_update (e : Env) (chat : Z) (db : DB) (user : User)
  (others : list User) (row : option (list (Task json_id)))
  (rows : list (option (list (Task json_id)))) (ts : list (Task json_id)) :
  select_user_by_chat chat db = user :: others ->
  select_tasks (user_id user) (CURRENT_DATE e) db = row :: rows ->
  Checklist.todays_tasks e chat
    (update_tasks (user_id user) (CURRENT_DATE e) ts db) = ts.
Proof.
  intros Huser Hrows. unfold Checklist.todays_tasks.
  change (select_user_by_chat chat (update_tasks _ _ ts db))
    with (select_user_by_chat chat db).
  rewrite Huser, update_selects, Hrows. reflexivity.
Qed.

(** The edited message and the store agree.  Whenever the handler edits
    the plan message, whatever the callback data and whichever calls fail,
    the lines it writes are today's stored task list of the user as the
    handler leaves it, the buttons it attaches show the ordinal and the
    flag of each of these tasks in order, and the message edited is the one
    the button was on. *)
Theorem edited_checklist_mirrors_store (e : Env)
  (query : Checklist.CallbackQuery) (db : DB) (chat msg : Z)
  (lines : list (Task json_id)) (quote : option jsstring) (kb : Keyboard) :
  let r := Checklist.on_callback_query e query db in
  In (EditMessageText chat msg lines quote kb) (emitted r) ->
  Checklist.todays_tasks e (Checklist.message_chat query) (final r) = lines
  /\ Labels.checklist_buttons kb = map (fun t => (id t, done t)) lines
  /\ chat = Checklist.message_chat query
  /\ msg = Checklist.message_id query
  /\ startsWith (lit "check_task_") (Checklist.data query) = true.
Proof.
  intros r. subst r. unfold_callback. unfold Checklist.delete_goal_query.
  callback_cases; cbn [emitted final outcome app In]; intros Hin;
    repeat match type of Hin with
           | _ \/ _ => destruct Hin as [Hin|Hin]
           end;
    try contradiction; try discriminate Hin;
    try match goal with
        | Hc : startsWith (lit "check_task_") ?d = true,
          Hd : startsWith (lit "delete_goal_") ?d = true |- _ =>
            rewrite (check_is_not_delete _ Hc) in Hd; discriminate Hd
        end;
    injection Hin as <- <- <- <- <-;
    (split; [|split; [|split; [|split]]]); try reflexivity;
    try (eapply todays_tasks_after_update; eassumption);
    try (cbn [Labels.checklist_buttons]; apply rows_of_five_concat).
Qed.

Lemma edited_checklist_mirrors_store_witness :
  Checklist.todays_tasks Scenario.evening 100
    (final (Checklist.on_callback_query Scenario.evening
              (Scenario.click (lit "check_task_1")) Scenario.at_noon))
  = [mkTask (Some 1%Z) (lit "Jog") true;
     mkTask (Some 2%Z) (lit "Eat") true;
     mkTask (Some 2%Z) (lit "Nap") false].
Proof.
  apply (edited_checklist_mirrors_store Scenario.evening
           (Scenario.click (lit "check_task_1")) Scenario.at_noon 100 55
           [mkTask (Some 1%Z) (lit "Jog") true;
            mkTask (Some 2%Z) (lit "Eat") true;
            mkTask (Some 2%Z) (lit "Nap") false]
           None
           (ChecklistButtons
              [[(Some 1%Z, true); (Some 2%Z, true); (Some 2%Z, false)]])).
  vm_compute. do 3 right. left. reflexivity.
Defined.

(** A callback touches one table at most.  Whatever the callback data and
    whichever calls fail, the handler leaves the users as they are; it
    changes daily activities only on [check_task_] data and goals only on
    [delete_goal_] data, hence never both; it adds and removes no
    daily-activity record and rewrites no content; and its promise is
    rejected only when the user lookup fails. *)
Theorem callback_touches_one_table (e : Env) (query : Checklist.CallbackQuery)
  (db : DB) :
  let r := Checklist.on_callback_query e query db in
  users (final r) = users db
  /\ (daily_activities (final r) <> daily_activities db ->
      startsWith (lit "check_task_") (Checklist.data query) = true
      /\ goals (final r) = goals db)
  /\ (goals (final r) <> goals db ->
      startsWith (lit "delete_goal_") (Checklist.data query) = true
      /\ daily_activities (final r) = daily_activities db)
  /\ map (fun a => (activity_key a, content a)) (daily_activities (final r))
     = map (fun a => (activity_key a, content a)) (daily_activities db)
  /\ (outcome r <> Ok tt ->
      fails e (Query (SelectUserByChat (Checklist.message_chat query))) = true
      /\ final r = db).
Proof.
  intros r. subst r. unfold_callback. unfold Checklist.delete_goal_query.
  assert (Hkeep : forall u d ts,
    map (fun a => (activity_key a, content a))
      (daily_activities (update_tasks u d ts db))
    = map (fun a => (activity_key a, content a)) (daily_activities db)).
  { intros u d ts. unfold update_tasks. cbn [daily_activities].
    rewrite map_map. apply map_ext. intros a.
    destruct (has_key u d a); reflexivity. }
  callback_cases; cbn [emitted final outcome];
    try match goal with
        | Hc : startsWith (lit "check_task_") ?d = true,
          Hd : startsWith (lit "delete_goal_") ?d = true |- _ =>
            rewrite (check_is_not_delete _ Hc) in Hd; discriminate Hd
        end;
    (split; [|split; [|split; [|split]]]);
    try reflexivity; try apply Hkeep;
    try (intros H; split; reflexivity);
    try (intros H; now contradiction H);
    try (intros H; split; [assumption | reflexivity]).
Qed.

(** ** Deleting goals *)

Lemma same_id_same_goal (gs : list Goal) (a b : Goal) :
  NoDup (map goal_id gs) -> In a gs -> In b gs -> goal_id a = goal_id b ->
  a = b.
Proof.
  induction gs as [|g gs IH]; cbn [map In]; [contradiction|].
  intros Hnd Ha Hb Hid. inversion Hnd as [|? ? Hnot Hnd']; subst.
  destruct Ha as [->|Ha], Hb as [->|Hb]; auto.
  - exfalso. apply Hnot. rewrite Hid. now apply in_map.
  - exfalso. apply Hnot. rewrite <- Hid. now apply in_map.
Qed.

Lemma delete_goal_drops_one (gs : list Goal) (g : Z) :
  NoDup (map goal_id gs) ->
  (List.length gs
   <= List.length (filter (fun x => negb (Z.eqb (goal_id x) g)) gs) + 1)%nat.
Proof.
  induction gs as [|x gs IH]; cbn [map filter List.length]; [lia|].
  intros Hnd. inversion Hnd as [|? ? Hnot Hnd']; subst.
  destruct (Z.eqb_spec (goal_id x) g) as [E|E]; cbn [negb List.length].
  - rewrite (filter_out_absent_id gs g); [lia|]. now rewrite <- E.
  - specialize (IH Hnd'). lia.
Qed.

Lemma on_delete_final (e : Env) (chatId : Z) (match1 : jsstring) (db : DB) :
  let r := BotJs.on_delete e chatId match1 db in
  final r = db
  \/ exists user others g,
       select_user_by_chat chatId db = user :: others
       /\ In g (goals_of (user_id user) db)
       /\ final r = delete_goal (goal_id g) db.
Proof.
  intros r. subst r.
  unfold BotJs.on_delete, try_catch, bind, pool_select, pool_exec, fire,
    await, ret, throw.
  cbn [emitted final outcome].
  destruct (fails e (Query (SelectUserByChat chatId)));
    cbn [emitted final outcome]; [now left|].
  destruct (select_user_by_chat chatId db) as [|user others] eqn:Huser;
    cbn [emitted final outcome].
  { now left. }
  destruct (fails e (Query (SelectGoalsById (user_id user))));
    cbn [emitted final outcome]; [now left|].
  destruct (BotJs.out_of_range _ _); cbn [emitted final outcome].
  { now left. }
  destruct (BotJs.goal_at _ _) as [g|] eqn:Hat; cbn [emitted final outcome];
    [|now left].
  destruct (fails e (Query (DeleteGoalById (goal_id g))));
    cbn [emitted final outcome]; [now left|].
  right. exists user, others, g. split; [reflexivity|]. split; [|reflexivity].
  unfold BotJs.goal_at in Hat.
  destruct (parseInt match1) as [n| |]; try discriminate Hat.
  destruct (Z.leb 1 n); [|discriminate Hat].
  apply nth_error_In in Hat. now apply order_by_In in Hat.
Qed.

(** [/delete N] of [src/bot.js] reaches the sender's goals only.  With
    unique goal ids, whatever the number and whichever calls fail, the
    command adds no goal, removes at most one, and a goal it removes belongs
    to the user the chat's lookup returned first; users and daily
    activities stay as they are. *)
Theorem delete_command_only_own_goals (e : Env) (chatId : Z)
  (match1 : jsstring) (db : DB) :
  NoDup (map goal_id (goals db)) ->
  let r := BotJs.on_delete e chatId match1 db in
  users (final r) = users db
  /\ daily_activities (final r) = daily_activities db
  /\ (forall g, In g (goals (final r)) -> In g (goals db))
  /\ (List.length (goals db) <= List.length (goals (final r)) + 1)%nat
  /\ (forall g, In g (goals db) -> ~ In g (goals (final r)) ->
      exists user others,
        select_user_by_chat chatId db = user :: others
        /\ goal_user g = user_id user).
Proof.
  intros Hnd r.
  destruct (on_delete_final e chatId match1 db) as [Hsame|Hdel];
    fold r in Hsame || fold r in Hdel.
  - rewrite Hsame. repeat split; auto; try lia.
    intros g Hin Hout. contradiction.
  - destruct Hdel as (user & others & g0 & Huser & Hg0 & Hfin).
    rewrite Hfin. unfold delete_goal. cbn [users goals daily_activities].
    split; [reflexivity|]. split; [reflexivity|]. split; [|split].
    + intros g Hin. now apply filter_In in Hin.
    + now apply delete_goal_drops_one.
    + intros g Hin Hout. exists user, others. split; [assumption|].
      unfold goals_of in Hg0. apply filter_In in Hg0 as [Hg0 Hown].
      destruct (Z.eqb_spec (goal_id g) (goal_id g0)) as [E|E].
      * rewrite (same_id_same_goal (goals db) g g0 Hnd Hin Hg0 E).
        now apply Z.eqb_eq.
      * exfalso. apply Hout. apply filter_In. split; [assumption|].
        now apply negb_true_iff, Z.eqb_neq.
Qed.

Lemma delete_command_only_own_goals_witness :
  let r := BotJs.on_delete Scenario.morning 100 (lit "1") Cases.neighbours in
  users (final r) = users Cases.neighbours
  /\ daily_activities (final r) = daily_activities Cases.neighbours
  /\ (forall g, In g (goals (final r)) -> In g (goals Cases.neighbours))
  /\ (List.length (goals Cases.neighbours)
      <= List.length (goals (final r)) + 1)%nat
  /\ (forall g, In g (goals Cases.neighbours) -> ~ In g (goals (final r)) ->
      exists user others,
        select_user_by_chat 100 Cases.neighbours = user :: others
        /\ goal_user g = user_id user).
Proof.
  apply (delete_command_only_own_goals Scenario.morning 100 (lit "1")
           Cases.neighbours).
  simpl. repeat constructor; simpl; intuition discriminate.
Defined.

Lemma delete_is_not_check (data : jsstring) :
  startsWith (lit "delete_goal_") data = true ->
  startsWith (lit "check_task_") data = false.
Proof.
  intros H. destruct (startsWith (lit "check_task_") data) eqn:E;
    [|reflexivity].
  now rewrite (check_is_not_delete _ E) in H.
Qed.

Lemma press_delete_run (e : Env) (query : Checklist.CallbackQuery) (db : DB)
  (user : User) (others : list User) (g : Z) :
  let chatId := Checklist.message_chat query in
  let goalId := Checklist.goalId_of (Checklist.data query) in
  startsWith (lit "delete_goal_") (Checklist.data query) = true ->
  fails e (Query (SelectUserByChat chatId)) = false ->
  select_user_by_chat chatId db = user :: others ->
  fails e (Query (DeleteGoal goalId)) = false ->
  pg_integer e goalId = Some g ->
  let r := Checklist.on_callback_query e query db in
  final r = delete_goal g db
  /\ outcome r = Ok tt
  /\ sent (emitted r)
     = if fails e (DeleteMessage chatId (Checklist.message_id query))
       then []
       else [(chatId, Checklist.msg_goal_deleted)].
Proof.
  intros chatId goalId Hdel Hlookup Huser Hstmt Hint r.
  subst r chatId goalId. unfold_callback. unfold Checklist.delete_goal_query.
  rewrite Hlookup, Huser, (delete_is_not_check _ Hdel), Hdel, Hstmt, Hint.
  cbn [emitted final outcome].
  destruct (fails e (DeleteMessage _ _)); cbn [emitted final outcome];
    [now repeat split|].
  destruct (fails e (SendMessage _ _ _)); cbn [emitted final outcome];
    now repeat split.
Qed.

(** The Delete button asks for no owner.  On [delete_goal_] data, with the
    chat known and the statement accepted, the handler removes every goal
    with the id the store reads out of the data, whoever owns it, and
    nothing else; the confirmation is sent only if the card could be
    deleted from the chat, the goal being gone either way. *)
Theorem delete_button_asks_for_no_owner (e : Env)
  (query : Checklist.CallbackQuery) (db : DB) (user : User)
  (others : list User) (g : Z) :
  let chatId := Checklist.message_chat query in
  let goalId := Checklist.goalId_of (Checklist.data query) in
  startsWith (lit "delete_goal_") (Checklist.data query) = true ->
  fails e (Query (SelectUserByChat chatId)) = false ->
  select_user_by_chat chatId db = user :: others ->
  fails e (Query (DeleteGoal goalId)) = false ->
  pg_integer e goalId = Some g ->
  let r := Checklist.on_callback_query e query db in
  final r = delete_goal g db
  /\ (forall x, In x (goals (final r)) <-> In x (goals db) /\ goal_id x <> g)
  /\ outcome r = Ok tt
  /\ sent (emitted r)
     = if fails e (DeleteMessage chatId (Checklist.message_id query))
       then []
       else [(chatId, Checklist.msg_goal_deleted)].
Proof.
  intros chatId goalId Hdel Hlookup Huser Hstmt Hint r.
  destruct (press_delete_run e query db user others g Hdel Hlookup Huser
              Hstmt Hint) as (Hfinal & Hok & Hsent).
  fold r in Hfinal, Hok, Hsent. fold chatId in Hsent.
  split; [exact Hfinal|]. split; [|split; [exact Hok | exact Hsent]].
  intros x. rewrite Hfinal. unfold delete_goal. cbn [goals].
  rewrite filter_In, negb_true_iff, Z.eqb_neq. reflexivity.
Qed.

Lemma delete_button_asks_for_no_owner_witness :
  final (Checklist.on_callback_query Scenario.morning
           (Cases.press 100 (lit "delete_goal_9")) Cases.neighbours)
  = delete_goal 9 Cases.neighbours.
Proof.
  apply (delete_button_asks_for_no_owner Scenario.morning
           (Cases.press 100 (lit "delete_goal_9")) Cases.neighbours
           (mkUser 1 100) [] 9%Z);
    reflexivity.
Defined.

(** ** The [/generate] command *)

(** [/generate] in both revisions.  The handler's promise never rejects.
    For a chat that is not registered, or when the lookup fails, nothing
    is written and the provider is not called; after a failed lookup the
    checklist revision tells the user nothing, the plain revision sends its
    error message.  For a registered chat the command is the lookup
    followed by one run of the orchestrator for the first user returned. *)
Theorem generate_command (e : Env) (chatId : Z) (db : DB) :
  let lookup := Query (SelectUserByChat chatId) in
  let r1 := ChecklistCommands.on_generate e chatId db in
  let r2 := BotJsCommands.on_generate e chatId db in
  outcome r1 = Ok tt /\ outcome r2 = Ok tt
  /\ (fails e lookup = true ->
      final r1 = db /\ final r2 = db
      /\ emitted r1 = [lookup; ConsoleError]
      /\ emitted r2
         = [lookup; ConsoleError;
            SendMessage chatId BotJsCommands.msg_error_generating NoKeyboard])
  /\ (fails e lookup = false -> select_user_by_chat chatId db = [] ->
      final r1 = db /\ final r2 = db
      /\ emitted r1
         = [lookup;
            SendMessage chatId ChecklistCommands.msg_start_first NoKeyboard]
      /\ emitted r2
         = [lookup; SendMessage chatId BotJs.msg_start_first NoKeyboard])
  /\ (forall user others,
      fails e lookup = false ->
      select_user_by_chat chatId db = user :: others ->
      let p1 := Checklist.generateAndSendDailyPlan e chatId (user_id user) db in
      let p2 := BotJs.generateAndSendDailyPlan e chatId (user_id user) db in
      emitted r1 = lookup :: emitted p1 /\ final r1 = final p1
      /\ emitted r2 = lookup :: emitted p2 /\ final r2 = final p2).
Proof.
  intros lookup r1 r2. subst lookup r1 r2.
  unfold ChecklistCommands.on_generate, BotJsCommands.on_generate.
  unfold try_catch, bind, pool_select, fire.
  destruct (fails e (Query (SelectUserByChat chatId))) eqn:Hlookup;
    cbn [emitted final outcome fire bind app].
  { repeat split; try reflexivity; intros; discriminate. }
  destruct (select_user_by_chat chatId db) as [|user others] eqn:Huser;
    cbn [emitted final outcome fire app].
  { repeat split; try reflexivity; intros; discriminate. }
  pose proof (plan_never_throws e chatId (user_id user) db) as H1.
  pose proof (botjs_plan_never_throws e chatId (user_id user) db) as H2.
  cbv zeta in H1, H2.
  destruct (Checklist.generateAndSendDailyPlan e chatId (user_id user) db)
    as [evs1 db1 o1] eqn:E1.
  destruct (BotJs.generateAndSendDailyPlan e chatId (user_id user) db)
    as [evs2 db2 o2] eqn:E2.
  cbn [outcome] in H1, H2. subst o1 o2. cbn [emitted final outcome app].
  split; [reflexivity|]. split; [reflexivity|].
  split; [intros; discriminate|]. split; [intros; discriminate|].
  intros user' others' _ E. injection E as <- <-.
  rewrite E1, E2. cbn [emitted final]. repeat split.
Qed.

(** ** Reminders *)

Ltac unfold_dialogue :=
  unfold Dialogue.attempt, Dialogue.and_then, Dialogue.select,
    Dialogue.execute, Dialogue.execute_count, Dialogue.emit,
    Dialogue.awaited, Dialogue.finish, Dialogue.raise, Dialogue.lift,
    Dialogue.userStates_get, Dialogue.userStates_set,
    Dialogue.userStates_delete;
  cbn [Dialogue.calls Dialogue.after Dialogue.verdict].

Section ReminderLoop.

Import Dialogue.

Variable setting_for : Z -> Setting.
Variable msgText : jsstring.

Let remind (chat : Z) : H unit :=
  and_then (emit (Core (Sleep 200)))
    (fun _ => awaited (setting_for chat)
                (Core (SendMessage chat msgText NoKeyboard))).

Let steps (chats : list Z) : list Call :=
  flat_map (fun chat => [Core (Sleep 200);
                         Core (SendMessage chat msgText NoKeyboard)]) chats.

Lemma remind_all (chats : list Z) (w : World) :
  (forall x, In x chats ->
     troubled (setting_for x) (Core (SendMessage x msgText NoKeyboard))
     = false) ->
  Dialogue.for_each chats remind w = mkTrace (steps chats) w (Done tt).
Proof.
  induction chats as [|c chats IH]; intros Hok; [reflexivity|].
  cbn [Dialogue.for_each]. unfold and_then at 1. unfold remind at 1.
  unfold_dialogue.
  rewrite (Hok c (or_introl eq_refl)).
  rewrite IH by (intros x Hx; apply Hok; now right). reflexivity.
Qed.

Lemma remind_until_failure (pre : list Z) (c : Z) (post : list Z) (w : World) :
  (forall x, In x pre ->
     troubled (setting_for x) (Core (SendMessage x msgText NoKeyboard))
     = false) ->
  troubled (setting_for c) (Core (SendMessage c msgText NoKeyboard)) = true ->
  Dialogue.for_each (pre ++ c :: post) remind w
  = mkTrace (steps (pre ++ [c])) w (Raised (Failed TransportError)).
Proof.
  induction pre as [|p pre IH]; intros Hok Hbad.
  - cbn [app Dialogue.for_each]. unfold and_then at 1. unfold remind at 1.
    unfold_dialogue. rewrite Hbad. reflexivity.
  - cbn [app Dialogue.for_each]. unfold and_then at 1. unfold remind at 1.
    unfold_dialogue. rewrite (Hok p (or_introl eq_refl)).
    rewrite IH by (auto; intros x Hx; apply Hok; now right). reflexivity.
Qed.

Lemma told_steps (chats : list Z) :
  told (steps chats) = map (fun chat => (chat, msgText)) chats.
Proof.
  unfold steps, told.
  induction chats as [|c chats IH]; [reflexivity|].
  cbn [flat_map app map]. now rewrite IH.
Qed.

End ReminderLoop.

Lemma chats_with_goals_once (s : Dialogue.Setting) (db : DB) :
  NoDup (Dialogue.chats_with_goals s db).
Proof.
  unfold Dialogue.chats_with_goals.
  eapply Permutation_NoDup; [symmetry; apply order_by_perm|].
  apply NoDup_nodup.
Qed.

Lemma chats_with_goals_spec (s : Dialogue.Setting) (db : DB) (chat : Z) :
  In chat (Dialogue.chats_with_goals s db) <->
  exists u g, In u (users db) /\ In g (goals db)
              /\ chat_id u = chat /\ goal_user g = user_id u.
Proof.
  unfold Dialogue.chats_with_goals, Dialogue.distinct_chats_with_goals.
  rewrite order_by_In, nodup_In, in_map_iff. split.
  - intros (u & Hchat & Hu). apply filter_In in Hu as [Hu Hg].
    apply existsb_exists in Hg as (g & Hg & E). apply Z.eqb_eq in E.
    exists u, g. auto.
  - intros (u & g & Hu & Hg & Hchat & E). exists u. split; [assumption|].
    apply filter_In. split; [assumption|]. apply existsb_exists.
    exists g. split; [assumption|]. now apply Z.eqb_eq.
Qed.

(** Who is reminded in the checklist revision.  When the query is answered
    and every send succeeds, the reminder of the hour goes to the chats of
    the users that own at least one goal, once to each chat and to nobody
    else; the store and the pending conversations are left alone. *)
Theorem checklist_reminders_recipients (s : Dialogue.Setting)
  (setting_for : Z -> Dialogue.Setting) (w : Dialogue.World) :
  let msgText :=
    Dialogue.reminder_text (ChecklistCommands.currentHour (Dialogue.env s)) in
  Dialogue.troubled s (Dialogue.Stmt Dialogue.SelectChatsWithGoals) = false ->
  (forall x,
     Dialogue.troubled (setting_for x)
       (Dialogue.Core (SendMessage x msgText NoKeyboard)) = false) ->
  let t := ChecklistCommands.reminders s setting_for w in
  map snd (Dialogue.told (Dialogue.calls t))
  = map (fun _ => msgText) (Dialogue.told (Dialogue.calls t))
  /\ NoDup (map fst (Dialogue.told (Dialogue.calls t)))
  /\ (forall chat,
        In chat (map fst (Dialogue.told (Dialogue.calls t))) <->
        exists u g, In u (users (Dialogue.store w))
                    /\ In g (goals (Dialogue.store w))
                    /\ chat_id u = chat /\ goal_user g = user_id u)
  /\ Dialogue.after t = w
  /\ Dialogue.verdict t = Dialogue.Done tt.
Proof.
  intros msgText Hquery Hsend t. subst t.
  pose proof (remind_all setting_for msgText
                (Dialogue.chats_with_goals s (Dialogue.store w)) w
                (fun x _ => Hsend x)) as Hloop.
  pose proof (told_steps msgText
                (Dialogue.chats_with_goals s (Dialogue.store w))) as Htold.
  pose proof (chats_with_goals_once s (Dialogue.store w)) as Honce.
  unfold ChecklistCommands.reminders. fold msgText.
  revert Hloop. unfold_dialogue. rewrite Hquery. cbv beta iota.
  destruct (Dialogue.chats_with_goals s (Dialogue.store w)) as [|c chats]
    eqn:Hchats; intros Hloop.
  - cbn. split; [reflexivity|]. split; [constructor|].
    split; [|split; reflexivity].
    intros chat. rewrite <- (chats_with_goals_spec s), Hchats. reflexivity.
  - rewrite Hloop.
    cbn [Dialogue.calls Dialogue.after Dialogue.verdict app].
    change (Dialogue.told (Dialogue.Core ConsoleLog
              :: Dialogue.Stmt Dialogue.SelectChatsWithGoals
              :: Dialogue.Core ConsoleLog :: ?l))
      with (Dialogue.told l).
    rewrite Htold, !map_map. cbn [fst snd].
    split; [reflexivity|]. rewrite map_id.
    split; [exact Honce|]. split; [|split; reflexivity].
    intros chat. rewrite <- Hchats. apply chats_with_goals_spec.
Qed.

Lemma checklist_reminders_recipients_witness :
  let t := ChecklistCommands.reminders (Cases.smooth Cases.quiet)
             (fun _ => Cases.smooth Cases.quiet)
             (Dialogue.mkWorld Cases.neighbours []) in
  NoDup (map fst (Dialogue.told (Dialogue.calls t)))
  /\ Dialogue.verdict t = Dialogue.Done tt.
Proof.
  pose proof (checklist_reminders_recipients (Cases.smooth Cases.quiet)
                (fun _ => Cases.smooth Cases.quiet)
                (Dialogue.mkWorld Cases.neighbours [])
                eq_refl (fun _ => eq_refl)) as (_ & Hnd & _ & _ & Hdone).
  split; assumption.
Defined.

Lemma later_chats_are_apart (pre : list Z) (c : Z) (post : list Z) (x : Z) :
  NoDup (pre ++ c :: post) -> In x post -> ~ In x (pre ++ [c]).
Proof.
  induction pre as [|a pre IH]; cbn [app]; intros Hnd Hx Hin.
  - inversion Hnd as [|? ? Hc _]; subst.
    destruct Hin as [E|[]]. subst. contradiction.
  - inversion Hnd as [|? ? Ha Hrest]; subst.
    destruct Hin as [E|Hin].
    + subst. apply Ha. apply in_or_app. right. right. assumption.
    + exact (IH Hrest Hx Hin).
Qed.

(** One failed send ends the round in the checklist revision.  The loop
    awaits each send inside the one [try] around the whole round, and visits
    the chats in the order in which the store returns the rows of the query:
    when the send to a chat fails, the chats before it have their reminder,
    the failed send is the last one issued, and no chat after it in the
    result of the query is addressed in this round; the failure is logged
    and the handler's promise still resolves. *)
Theorem checklist_reminders_stop_at_first_failure (s : Dialogue.Setting)
  (setting_for : Z -> Dialogue.Setting) (w : Dialogue.World)
  (pre : list Z) (c : Z) (post : list Z) :
  let msgText :=
    Dialogue.reminder_text (ChecklistCommands.currentHour (Dialogue.env s)) in
  Dialogue.troubled s (Dialogue.Stmt Dialogue.SelectChatsWithGoals) = false ->
  Dialogue.chats_with_goals s (Dialogue.store w) = pre ++ c :: post ->
  (forall x, In x pre ->
     Dialogue.troubled (setting_for x)
       (Dialogue.Core (SendMessage x msgText NoKeyboard)) = false) ->
  Dialogue.troubled (setting_for c)
    (Dialogue.Core (SendMessage c msgText NoKeyboard)) = true ->
  let t := ChecklistCommands.reminders s setting_for w in
  Dialogue.told (Dialogue.calls t)
  = map (fun chat => (chat, msgText)) (pre ++ [c])
  /\ (forall x, In x post ->
        ~ In x (map fst (Dialogue.told (Dialogue.calls t))))
  /\ last (Dialogue.calls t) (Dialogue.Core ConsoleLog)
     = Dialogue.Core ConsoleError
  /\ Dialogue.after t = w
  /\ Dialogue.verdict t = Dialogue.Done tt.
Proof.
  intros msgText Hquery Hchats Hpre Hbad t. subst t.
  pose proof (remind_until_failure setting_for msgText pre c post w
                Hpre Hbad) as Hloop.
  pose proof (told_steps msgText (pre ++ [c])) as Htold.
  pose proof (chats_with_goals_once s (Dialogue.store w)) as Honce.
  rewrite Hchats in Honce.
  unfold ChecklistCommands.reminders. fold msgText.
  revert Hloop. unfold_dialogue. rewrite Hquery. cbv beta iota.
  rewrite Hchats. intros Hloop.
  destruct (pre ++ c :: post) as [|x xs] eqn:Hlist.
  { destruct pre; discriminate Hlist. }
  rewrite Hloop.
  cbn [Dialogue.calls Dialogue.after Dialogue.verdict app].
  change (Dialogue.told (Dialogue.Core ConsoleLog
            :: Dialogue.Stmt Dialogue.SelectChatsWithGoals
            :: Dialogue.Core ConsoleLog :: ?l ++ [?x]))
    with (Dialogue.told (l ++ [x])).
  unfold Dialogue.told at 1 2. rewrite flat_map_app.
  fold (Dialogue.told
          (flat_map (fun chat => [Dialogue.Core (Sleep 200);
                                  Dialogue.Core
                                    (SendMessage chat msgText NoKeyboard)])
             (pre ++ [c]))).
  rewrite Htold. cbn [flat_map]. rewrite app_nil_r.
  split; [reflexivity|].
  split.
  { intros y Hy. rewrite map_map. cbn [fst]. rewrite map_id.
    apply (later_chats_are_apart pre c post); [|exact Hy].
    rewrite <- Hlist in Honce. exact Honce. }
  split; [|split; reflexivity].
  rewrite !app_comm_cons. apply last_last.
Qed.

Lemma checklist_reminders_stop_at_first_failure_witness :
  let t := ChecklistCommands.reminders (Cases.hashed Cases.quiet)
             (Cases.unreachable 200)
             (Dialogue.mkWorld Cases.neighbours []) in
  Dialogue.chats_with_goals (Cases.hashed Cases.quiet) Cases.neighbours
  = [200%Z; 100%Z]
  /\ map fst (Dialogue.told (Dialogue.calls t)) = [200%Z]
  /\ Dialogue.verdict t = Dialogue.Done tt.
Proof.
  pose proof (checklist_reminders_stop_at_first_failure
                (Cases.hashed Cases.quiet) (Cases.unreachable 200)
                (Dialogue.mkWorld Cases.neighbours []) [] 200 [100%Z]
                eq_refl eq_refl (fun x (H : In x []) => match H with end)
                eq_refl) as (Htold & _ & _ & _ & Hdone).
  split; [reflexivity|].
  split; [|exact Hdone]. cbv zeta. rewrite Htold. reflexivity.
Defined.

Lemma botjs_remind_all (env_for : User -> Env) (msgText : jsstring)
  (us : list User) (db : DB) :
  exists evs,
    Effects.for_each us
      (fun user =>
         try_catch
           (await (env_for user)
              (SendMessage (chat_id user) msgText NoKeyboard))
           (fun err => fire ConsoleError)) db
    = mkRun evs db (Ok tt)
    /\ sent evs = map (fun u => (chat_id u, msgText)) us.
Proof.
  set (remind := fun user => try_catch _ _).
  induction us as [|u us IH]; [now exists []|].
  destruct IH as (evs & Hrun & Hsent).
  cbn [Effects.for_each]. unfold bind. unfold remind at 1.
  unfold try_catch, await, fire.
  destruct (fails (env_for u) _); cbn [emitted final outcome app];
    rewrite Hrun; eexists; (split; [reflexivity|]);
    cbn [sent flat_map app map]; fold (sent evs); now rewrite Hsent.
Qed.

(** Every user is reminded in the plain revision.  Each send has a [try]
    of its own: once the users are read, a reminder is sent to the chat of
    every user, in the order of the rows, however many of the sends fail;
    the store is left alone and the handler's promise resolves, also when
    the query fails. *)
Theorem botjs_reminders_reach_every_user (e : Env) (env_for : User -> Env)
  (db : DB) :
  let r := BotJsCommands.reminders e env_for db in
  let msgText := Dialogue.reminder_text (BotJsCommands.currentHour e) in
  final r = db
  /\ outcome r = Ok tt
  /\ sent (emitted r)
     = if fails e (Query SelectAllUsers) then []
       else map (fun u => (chat_id u, msgText)) (users db).
Proof.
  intros r msgText. subst r. unfold BotJsCommands.reminders. fold msgText.
  destruct (botjs_remind_all env_for msgText (users db) db)
    as (evs & Hrun & Hsent).
  revert Hrun. set (remind := fun user => try_catch _ _). intros Hrun.
  unfold bind, try_catch, pool_select, fire.
  destruct (fails e (Query SelectAllUsers)); cbn [emitted final outcome].
  { now repeat split. }
  rewrite Hrun. cbn [emitted final outcome app].
  split; [reflexivity|]. split; [reflexivity|].
  unfold sent in *. cbn [flat_map app]. rewrite flat_map_app, Hsent.
  cbn [flat_map]. apply app_nil_r.
Qed.

(** The hour of the checklist revision's reminder is the hour on the
    Lagos wall clock, whatever zone the host runs in: reading the Lagos
    wall-clock text back as host time and asking for the host-local hour
    cancel out.  (The key of yesterday's record takes the same detour but
    ends in a UTC date, which does depend on the host zone.) *)
Theorem reminder_hour_is_lagos_hour (e : Env) :
  ChecklistCommands.currentHour e = Dialogue.hour_in lagos_tz (now e)
  /\ (0 <= ChecklistCommands.currentHour e < 24)%Z.
Proof.
  unfold ChecklistCommands.currentHour, Dialogue.hour_in, Checklist.todayDate,
    Checklist.lagosTime, seconds_per_day.
  replace (now e + lagos_tz - host_tz e + host_tz e)%Z
    with (now e + lagos_tz)%Z by lia.
  split; [reflexivity|].
  pose proof (Z.mod_pos_bound (now e + lagos_tz) 86400 ltac:(lia)) as Hm.
  split.
  - apply Z.div_pos; lia.
  - apply Z.div_lt_upper_bound; lia.
Qed.

(** ** Registration *)

(** [registerUser] can be called any number of times.  It never throws;
    it leaves goals, daily activities and pending conversations alone and
    keeps every user row, adding at most one at the end; a chat that is
    registered stays as it is; when the statement is accepted the chat is
    registered afterwards; and chat ids stay unique if they were. *)
Theorem registerUser_is_repeatable (s : Dialogue.Setting) (chatId : Z)
  (w : Dialogue.World) :
  let t := Dialogue.registerUser s chatId w in
  let db := Dialogue.store w in
  let db' := Dialogue.store (Dialogue.after t) in
  Dialogue.verdict t = Dialogue.Done tt
  /\ Dialogue.userStates (Dialogue.after t) = Dialogue.userStates w
  /\ goals db' = goals db
  /\ daily_activities db' = daily_activities db
  /\ (exists extra, users db' = users db ++ extra
                    /\ (List.length extra <= 1)%nat
                    /\ Forall (fun u => chat_id u = chatId) extra)
  /\ (Dialogue.registered chatId db = true -> db' = db)
  /\ (Dialogue.troubled s (Dialogue.Stmt (Dialogue.InsertUser chatId)) = false
      -> Dialogue.registered chatId db' = true)
  /\ (NoDup (map chat_id (users db)) -> NoDup (map chat_id (users db'))).
Proof.
  intros t db db'. subst t db db'. destruct w as [db states].
  unfold Dialogue.registerUser. unfold_dialogue.
  cbn [Dialogue.store Dialogue.userStates].
  destruct (Dialogue.troubled s _);
    cbn [Dialogue.calls Dialogue.after Dialogue.verdict Dialogue.store
         Dialogue.userStates].
  { repeat split; auto; try discriminate.
    exists []. rewrite app_nil_r. repeat split; auto. }
  unfold Dialogue.insert_user.
  destruct (Dialogue.registered chatId db) eqn:Hreg.
  { repeat split; auto.
    exists []. rewrite app_nil_r. repeat split; auto. }
  cbn [users goals daily_activities].
  split; [reflexivity|]. split; [reflexivity|]. split; [reflexivity|].
  split; [reflexivity|]. split; [|split; [|split]].
  - eexists. split; [reflexivity|]. split; [cbn; lia|].
    constructor; [reflexivity | constructor].
  - discriminate.
  - intros _. unfold Dialogue.registered. cbn [users].
    rewrite existsb_app. cbn. rewrite Z.eqb_refl. apply orb_true_r.
  - intros Hnd. rewrite map_app. cbn [map chat_id].
    apply NoDup_app; [assumption | repeat constructor; auto |].
    intros x Hx [<-|[]]. unfold Dialogue.registered in Hreg.
    apply in_map_iff in Hx as (u & Hu & Hin).
    assert (existsb (fun u => Z.eqb (chat_id u) chatId) (users db) = true)
      as Hex.
    { apply existsb_exists. exists u. split; [assumption|].
      now apply Z.eqb_eq. }
    rewrite Hex in Hreg. discriminate.
Qed.

(** ** Clearing *)

Lemma deleted_goals_count (chat : Z) (db : DB) :
  Dialogue.deleted_goals_of_chat chat db
  = (List.length (goals db)
     - List.length (goals (Dialogue.delete_goals_of_chat chat db)))%nat.
Proof.
  unfold Dialogue.deleted_goals_of_chat, Dialogue.delete_goals_of_chat.
  cbn [goals]. generalize (Dialogue.of_chat chat db) as p. intros p.
  assert (H : (List.length (filter p (goals db))
               + List.length (filter (fun g => negb (p g)) (goals db))
               = List.length (goals db))%nat).
  { induction (goals db) as [|g gs IH]; [reflexivity|].
    cbn [filter]. destruct (p g); cbn [negb List.length]; lia. }
  lia.
Qed.

(** [/clear] in both revisions removes the goals of the users of the chat
    and nothing else.  Both leave the same world and never throw.  When
    the statement is accepted, the goals left are those whose owner is no
    user of the chat; the plain revision reports the number of goals
    removed.  When it fails, nothing changes; the plain revision sends an
    error message, the checklist revision tells the user nothing. *)
Theorem clear_removes_goals_of_the_chat_only (s : Dialogue.Setting)
  (chatId : Z) (w : Dialogue.World) :
  let t1 := ChecklistCommands.on_clear s chatId w in
  let t2 := BotJsCommands.on_clear s chatId w in
  let db := Dialogue.store w in
  let db' := Dialogue.store (Dialogue.after t1) in
  Dialogue.verdict t1 = Dialogue.Done tt
  /\ Dialogue.verdict t2 = Dialogue.Done tt
  /\ Dialogue.after t2 = Dialogue.after t1
  /\ users db' = users db
  /\ daily_activities db' = daily_activities db
  /\ Dialogue.userStates (Dialogue.after t1) = Dialogue.userStates w
  /\ (if Dialogue.troubled s (Dialogue.Stmt (Dialogue.DeleteGoalsOfChat chatId))
      then db' = db
           /\ Dialogue.told (Dialogue.calls t1) = []
           /\ Dialogue.told (Dialogue.calls t2)
              = [(chatId, BotJsCommands.msg_error_deleting_goals)]
      else (forall g, In g (goals db') <->
                      In g (goals db)
                      /\ forall u, In u (users db) ->
                                   user_id u = goal_user g ->
                                   chat_id u <> chatId)
           /\ Dialogue.told (Dialogue.calls t1)
              = [(chatId, ChecklistCommands.msg_all_deleted)]
           /\ Dialogue.told (Dialogue.calls t2)
              = [(chatId,
                  BotJsCommands.msg_cleared
                    (List.length (goals db) - List.length (goals db')))]).
Proof.
  intros t1 t2 db db'. subst t1 t2 db db'. destruct w as [db states].
  pose proof (deleted_goals_count chatId db) as Hcount.
  unfold ChecklistCommands.on_clear, BotJsCommands.on_clear,
    ChecklistCommands.say, BotJsCommands.say.
  unfold_dialogue. cbn [Dialogue.store Dialogue.userStates].
  destruct (Dialogue.troubled s _);
    cbn [Dialogue.calls Dialogue.after Dialogue.verdict Dialogue.store
         Dialogue.userStates app Dialogue.told flat_map].
  { repeat split. }
  rewrite Hcount.
  split; [reflexivity|]. split; [reflexivity|]. split; [reflexivity|].
  split; [reflexivity|]. split; [reflexivity|]. split; [reflexivity|].
  split; [|split; reflexivity].
  intros g. unfold Dialogue.delete_goals_of_chat. cbn [goals].
  rewrite filter_In, negb_true_iff. unfold Dialogue.of_chat.
  split; intros [Hin Hown]; (split; [assumption|]).
  - intros u Hu Hid Hchat.
    assert (existsb (fun u => Z.eqb (user_id u) (goal_user g)
                              && Z.eqb (chat_id u) chatId) (users db) = true)
      as Hex.
    { apply existsb_exists. exists u. split; [assumption|].
      apply andb_true_intro. split; now apply Z.eqb_eq. }
    rewrite Hex in Hown. discriminate.
  - destruct (existsb _ (users db)) eqn:Hex; [|reflexivity].
    apply existsb_exists in Hex as (u & Hu & Hboth).
    apply andb_prop in Hboth as [Hid Hchat].
    apply Z.eqb_eq in Hid, Hchat. now destruct (Hown u Hu Hid).
Qed.

(** ** Goal cards *)

Section CardLoop.

Import Dialogue.

Variable s : Setting.
Variable chatId : Z.

Let show (goal : Goal) : H unit := awaited s (ChecklistCommands.card chatId goal).

Lemma show_all (listed : list Goal) (w : World) :
  (forall g, In g listed ->
     troubled s (ChecklistCommands.card chatId g) = false) ->
  Dialogue.for_each listed show w
  = mkTrace (map (ChecklistCommands.card chatId) listed) w (Done tt).
Proof.
  induction listed as [|g listed IH]; intros Hok; [reflexivity|].
  cbn [Dialogue.for_each map]. unfold and_then. unfold show at 1.
  unfold awaited. rewrite (Hok g (or_introl eq_refl)).
  rewrite IH by (intros x Hx; apply Hok; now right). reflexivity.
Qed.

Lemma show_until_failure (pre : list Goal) (g : Goal) (post : list Goal)
  (w : World) :
  (forall x, In x pre ->
     troubled s (ChecklistCommands.card chatId x) = false) ->
  troubled s (ChecklistCommands.card chatId g) = true ->
  Dialogue.for_each (pre ++ g :: post) show w
  = mkTrace (map (ChecklistCommands.card chatId) (pre ++ [g])) w
      (Raised (Failed TransportError)).
Proof.
  induction pre as [|p pre IH]; intros Hok Hbad.
  - cbn [app Dialogue.for_each map]. unfold and_then. unfold show at 1.
    unfold awaited. rewrite Hbad. reflexivity.
  - cbn [app Dialogue.for_each map]. unfold and_then. unfold show at 1.
    unfold awaited. rewrite (Hok p (or_introl eq_refl)).
    rewrite IH by (auto; intros x Hx; apply Hok; now right). reflexivity.
Qed.

End CardLoop.

Lemma show_keeps_world (s : Dialogue.Setting) (chatId : Z)
  (listed : list Goal) (w : Dialogue.World) :
  Dialogue.after
    (Dialogue.for_each listed
       (fun goal => Dialogue.awaited s (ChecklistCommands.card chatId goal)) w)
  = w.
Proof.
  induction listed as [|g l IH]; [reflexivity|].
  cbn [Dialogue.for_each]. unfold Dialogue.and_then.
  unfold Dialogue.awaited at 1.
  destruct (Dialogue.troubled s _); [reflexivity|].
  destruct (Dialogue.for_each l _ w) as [cs1 w1 o1].
  cbn [Dialogue.after] in *. exact IH.
Qed.

Lemma mygoals_run (s : Dialogue.Setting) (chatId : Z) (w : Dialogue.World) :
  let listed := order_by by_id (BotJs.goals_of_chat chatId (Dialogue.store w)) in
  let query := Dialogue.Stmt (Dialogue.SelectGoalsOfChatById chatId) in
  let header :=
    Dialogue.Core (SendMessage chatId ChecklistCommands.msg_current NoKeyboard) in
  let failed :=
    [Dialogue.Core ConsoleError;
     Dialogue.Core (SendMessage chatId ChecklistCommands.msg_error_fetching
                      NoKeyboard)] in
  let none :=
    Dialogue.Core (SendMessage chatId ChecklistCommands.msg_no_goals_yet
                     NoKeyboard) in
  ChecklistCommands.on_mygoals s chatId w
  = if Dialogue.troubled s query
    then Dialogue.mkTrace (query :: failed) w (Dialogue.Done tt)
    else
      match listed with
      | [] =>
          Dialogue.mkTrace [query; none] w
            (if Dialogue.troubled s none
             then Dialogue.Raised (Dialogue.Failed TransportError)
             else Dialogue.Done tt)
      | _ :: _ =>
          match Dialogue.for_each listed
                  (fun goal =>
                     Dialogue.awaited s (ChecklistCommands.card chatId goal)) w
          with
          | Dialogue.mkTrace cs w' (Dialogue.Done _) =>
              Dialogue.mkTrace (query :: header :: cs) w' (Dialogue.Done tt)
          | Dialogue.mkTrace cs w' (Dialogue.Raised _) =>
              Dialogue.mkTrace (query :: header :: cs ++ failed) w'
                (Dialogue.Done tt)
          end
      end.
Proof.
  cbv zeta. unfold ChecklistCommands.on_mygoals, ChecklistCommands.say.
  set (show := fun goal => Dialogue.awaited s (ChecklistCommands.card chatId goal)).
  unfold_dialogue.
  destruct (Dialogue.troubled s (Dialogue.Stmt _)); [reflexivity|].
  destruct (order_by by_id _) as [|g0 rest]; [reflexivity|].
  destruct (Dialogue.for_each (g0 :: rest) show w) as [cs w' [a|f]];
    cbn [app]; rewrite !app_nil_r; reflexivity.
Qed.

(** [/mygoals] of the checklist revision.  The command changes nothing.
    With the query answered it shows one card per goal of the chat's
    users, in the order of the goal ids, each card carrying the id of its
    goal; a card that cannot be sent ends the listing, the goals after it
    are not shown and the user gets the error message.  The handler's
    promise is rejected in one case, and rejected whenever that case
    arises: the query is answered, there is no goal, and the reply saying
    so cannot be sent; the failed reply is then the last call and the
    rejection carries the transport's error. *)
Theorem mygoals_shows_a_card_per_goal (s : Dialogue.Setting) (chatId : Z)
  (w : Dialogue.World) :
  let listed := order_by by_id (BotJs.goals_of_chat chatId (Dialogue.store w)) in
  let query := Dialogue.Stmt (Dialogue.SelectGoalsOfChatById chatId) in
  let header :=
    Dialogue.Core (SendMessage chatId ChecklistCommands.msg_current NoKeyboard) in
  let t := ChecklistCommands.on_mygoals s chatId w in
  Dialogue.after t = w
  /\ (Dialogue.troubled s query = false ->
      listed <> [] ->
      (forall g, In g listed ->
         Dialogue.troubled s (ChecklistCommands.card chatId g) = false) ->
      Dialogue.calls t
      = query :: header :: map (ChecklistCommands.card chatId) listed
      /\ Dialogue.verdict t = Dialogue.Done tt)
  /\ (forall pre g post,
      Dialogue.troubled s query = false ->
      listed = pre ++ g :: post ->
      (forall x, In x pre ->
         Dialogue.troubled s (ChecklistCommands.card chatId x) = false) ->
      Dialogue.troubled s (ChecklistCommands.card chatId g) = true ->
      Dialogue.calls t
      = query :: header :: map (ChecklistCommands.card chatId) (pre ++ [g])
        ++ [Dialogue.Core ConsoleError;
            Dialogue.Core (SendMessage chatId
                             ChecklistCommands.msg_error_fetching NoKeyboard)]
      /\ Dialogue.verdict t = Dialogue.Done tt)
  /\ (Dialogue.verdict t <> Dialogue.Done tt ->
      Dialogue.troubled s query = false
      /\ listed = []
      /\ Dialogue.troubled s
           (Dialogue.Core (SendMessage chatId
                             ChecklistCommands.msg_no_goals_yet NoKeyboard))
         = true)
  /\ (Dialogue.troubled s query = false ->
      listed = [] ->
      Dialogue.troubled s
        (Dialogue.Core (SendMessage chatId
                          ChecklistCommands.msg_no_goals_yet NoKeyboard))
      = true ->
      Dialogue.calls t
      = [query;
         Dialogue.Core (SendMessage chatId
                          ChecklistCommands.msg_no_goals_yet NoKeyboard)]
      /\ Dialogue.verdict t = Dialogue.Raised (Dialogue.Failed TransportError)).
Proof.
  intros listed query header t. subst t.
  pose proof (mygoals_run s chatId w) as Hrun. cbv zeta in Hrun.
  fold listed query header in Hrun. rewrite Hrun. clear Hrun.
  pose proof (show_keeps_world s chatId listed w) as Hkeep.
  destruct (Dialogue.troubled s query) eqn:Hquery.
  { cbn. split; [reflexivity|]. split; [discriminate|].
    split; [discriminate|]. split; [|discriminate].
    intros H. now contradiction H. }
  destruct listed as [|g0 rest] eqn:Hlisted.
  { cbn [Dialogue.calls Dialogue.after Dialogue.verdict].
    split; [reflexivity|]. split; [intros _ H; now contradiction H|].
    split; [intros pre g post _ H; destruct pre; discriminate H|].
    destruct (Dialogue.troubled s (Dialogue.Core _)).
    - split; [intros _; repeat split|]. intros _ _ _. split; reflexivity.
    - split; [intros H; now contradiction H|]. intros _ _ H. discriminate H. }
  split; [|split; [|split; [|split]]].
  - destruct (Dialogue.for_each _ _ w) as [cs w' [a|f]];
      cbn [Dialogue.after] in *; exact Hkeep.
  - intros _ _ Hok. rewrite (show_all s chatId _ w Hok). split; reflexivity.
  - intros pre g post _ Hsplit Hok Hbad. rewrite Hsplit.
    rewrite (show_until_failure s chatId pre g post w Hok Hbad).
    split; reflexivity.
  - destruct (Dialogue.for_each _ _ w) as [cs w' [a|f]];
      cbn; intros H; now contradiction H.
  - intros _ H. discriminate H.
Qed.

Lemma shown_cards (s : Dialogue.Setting) (chatId : Z) (listed : list Goal)
  (w : Dialogue.World) (c : Dialogue.Call) :
  In c (Dialogue.calls
          (Dialogue.for_each listed
             (fun goal =>
                Dialogue.awaited s (ChecklistCommands.card chatId goal)) w)) ->
  exists g, In g listed /\ c = ChecklistCommands.card chatId g.
Proof.
  induction listed as [|g l IH]; [intros []|].
  cbn [Dialogue.for_each]. unfold Dialogue.and_then.
  unfold Dialogue.awaited at 1.
  destruct (Dialogue.troubled s _); cbn [Dialogue.calls].
  - intros [<-|[]]. exists g. split; [now left | reflexivity].
  - destruct (Dialogue.for_each l _ w) as [cs w1 o1].
    cbn [Dialogue.calls app] in *. intros [<-|Hin].
    + exists g. split; [now left | reflexivity].
    + destruct (IH Hin) as (g' & Hg' & E). exists g'. split; [now right | exact E].
Qed.

Lemma goals_of_chat_In (chat : Z) (db : DB) (g : Goal) :
  In g (BotJs.goals_of_chat chat db) <->
  In g (goals db)
  /\ exists u, In u (users db) /\ goal_user g = user_id u /\ chat_id u = chat.
Proof.
  unfold BotJs.goals_of_chat. rewrite in_flat_map. split.
  - intros (g' & Hg' & Hin). apply in_map_iff in Hin as (u & <- & Hu).
    apply filter_In in Hu as [Hu Hboth].
    apply andb_prop in Hboth as [Hid Hchat]. apply Z.eqb_eq in Hid, Hchat.
    split; [assumption|]. exists u. auto.
  - intros (Hg & u & Hu & Hid & Hchat). exists g. split; [assumption|].
    apply in_map_iff. exists u. split; [reflexivity|].
    apply filter_In. split; [assumption|].
    apply andb_true_intro. split; now apply Z.eqb_eq.
Qed.

Lemma delete_goal_pieces (digits : jsstring) :
  forallb is_digit digits = true ->
  Checklist.goalId_of (lit "delete_goal_" ++ digits) = digits.
Proof.
  intros H. unfold Checklist.goalId_of.
  change (lit "delete_goal_" ++ digits)
    with (lit "delete" ++ 95%N :: lit "goal" ++ 95%N :: digits).
  cbn -[N.eqb]. rewrite (split_digits digits H). reflexivity.
Qed.

(** From the card to the deletion.  A card that [/mygoals] shows belongs
    to a goal of a user of the chat and carries that goal's id; for an id
    below [2^53] the data of its button is taken by the goal-deletion
    branch of the callback handler, which hands the store the decimal
    digits of the id; when the store reads them as that id and accepts the
    statement, exactly the goals with this id are removed. *)
Theorem pressing_delete_removes_the_shown_goal (s : Dialogue.Setting)
  (chatId : Z) (w : Dialogue.World) (chat : Z) (body : jsstring) (gid : Z) :
  In (Dialogue.SendGoal chat body gid)
    (Dialogue.calls (ChecklistCommands.on_mygoals s chatId w)) ->
  (0 <= gid < 2 ^ 53)%Z ->
  (exists g u,
     In g (goals (Dialogue.store w)) /\ In u (users (Dialogue.store w))
     /\ goal_user g = user_id u /\ chat_id u = chatId
     /\ goal_id g = gid /\ body = ChecklistCommands.card_text g
     /\ chat = chatId)
  /\ exists data,
       ChecklistCommands.delete_goal_data gid = Some data
       /\ forall e query db user others,
            Checklist.data query = data ->
            fails e (Query (SelectUserByChat (Checklist.message_chat query)))
            = false ->
            select_user_by_chat (Checklist.message_chat query) db
            = user :: others ->
            fails e (Query (DeleteGoal (Labels.digits_of (Z.to_N gid)))) = false ->
            pg_integer e (Labels.digits_of (Z.to_N gid)) = Some gid ->
            final (Checklist.on_callback_query e query db) = delete_goal gid db.
Proof.
  intros Hin Hgid. split.
  - pose proof (mygoals_run s chatId w) as Hrun. cbv zeta in Hrun.
    rewrite Hrun in Hin. clear Hrun.
    assert (Hcard : forall cs,
      (forall c, In c cs -> exists g,
         In g (order_by by_id (BotJs.goals_of_chat chatId (Dialogue.store w)))
         /\ c = ChecklistCommands.card chatId g) ->
      In (Dialogue.SendGoal chat body gid) cs ->
      exists g u,
        In g (goals (Dialogue.store w)) /\ In u (users (Dialogue.store w))
        /\ goal_user g = user_id u /\ chat_id u = chatId
        /\ goal_id g = gid /\ body = ChecklistCommands.card_text g
        /\ chat = chatId).
    { intros cs Hcs Hc. destruct (Hcs _ Hc) as (g & Hg & E).
      apply order_by_In, goals_of_chat_In in Hg as (Hg & u & Hu & Hid & Hchat).
      unfold ChecklistCommands.card in E. injection E as -> -> ->.
      exists g, u. repeat split; assumption. }
    destruct (Dialogue.troubled s (Dialogue.Stmt _)).
    { cbn in Hin. intuition discriminate. }
    destruct (order_by by_id _) as [|g0 rest] eqn:Hlisted.
    { cbn in Hin. intuition discriminate. }
    pose proof (shown_cards s chatId (g0 :: rest) w) as Hshown.
    destruct (Dialogue.for_each (g0 :: rest) _ w) as [cs w' [a|f]];
      cbn [Dialogue.calls In] in Hin, Hshown;
      destruct Hin as [Hin|[Hin|Hin]]; try discriminate Hin.
    + now apply (Hcard cs).
    + apply in_app_or in Hin as [Hin|Hin]; [now apply (Hcard cs)|].
      cbn in Hin. intuition discriminate.
  - destruct (digits_of_reads_back (Z.to_N gid)) as (Hne & Hds & Hval).
    exists (lit "delete_goal_" ++ Labels.digits_of (Z.to_N gid)). split.
    + unfold ChecklistCommands.delete_goal_data, Labels.Number_toString.
      replace (Z.abs gid <? 2 ^ 53)%Z with true
        by (symmetry; apply Z.ltb_lt; lia).
      replace (gid <? 0)%Z with false by (symmetry; apply Z.ltb_ge; lia).
      replace (Z.abs_N gid) with (Z.to_N gid) by lia. reflexivity.
    + intros e query db user others Hdata Hlookup Huser Hstmt Hint.
      pose proof (press_delete_run e query db user others gid) as Hpress.
      cbv zeta in Hpress. rewrite Hdata in Hpress.
      rewrite (delete_goal_pieces _ Hds) in Hpress.
      apply Hpress; auto.
Qed.

Lemma pressing_delete_removes_the_shown_goal_witness :
  exists g u,
    In g (goals Cases.neighbours) /\ In u (users Cases.neighbours)
    /\ goal_user g = user_id u /\ chat_id u = 200%Z
    /\ goal_id g = 9%Z
    /\ ChecklistCommands.card_text (mkGoal 9 2 (lit "Sing") None 0)
       = ChecklistCommands.card_text g
    /\ 200%Z = 200%Z.
Proof.
  apply (pressing_delete_removes_the_shown_goal (Cases.smooth Cases.quiet)
           200 (Dialogue.mkWorld Cases.neighbours []) 200
           (ChecklistCommands.card_text (mkGoal 9 2 (lit "Sing") None 0)) 9).
  - vm_compute. do 2 right. left. reflexivity.
  - lia.
Defined.

(** ** The conversations that add goals *)

Lemma register_run (s : Dialogue.Setting) (chatId : Z) (db : DB)
  (states : Dialogue.States) :
  Dialogue.registerUser s chatId (Dialogue.mkWorld db states)
  = if Dialogue.troubled s (Dialogue.Stmt (Dialogue.InsertUser chatId))
    then Dialogue.mkTrace
           [Dialogue.Stmt (Dialogue.InsertUser chatId);
            Dialogue.Core ConsoleError]
           (Dialogue.mkWorld db states) (Dialogue.Done tt)
    else Dialogue.mkTrace [Dialogue.Stmt (Dialogue.InsertUser chatId)]
           (Dialogue.mkWorld (Dialogue.insert_user s chatId db) states)
           (Dialogue.Done tt).
Proof.
  unfold Dialogue.registerUser. unfold_dialogue.
  cbn [Dialogue.store Dialogue.userStates].
  now destruct (Dialogue.troubled s _).
Qed.

Lemma register_run' (s : Dialogue.Setting) (chatId : Z) (db : DB)
  (states : Dialogue.States) :
  Dialogue.registerUser s chatId (Dialogue.mkWorld db states)
  = Dialogue.mkTrace (Dialogue.register_calls s chatId)
      (Dialogue.mkWorld (Dialogue.once_registered s chatId db) states)
      (Dialogue.Done tt).
Proof.
  rewrite register_run. unfold Dialogue.register_calls, Dialogue.once_registered.
  now destruct (Dialogue.troubled s _).
Qed.

Section InsertLoop.

Import Dialogue.

Variable s : Setting.
Variable stmt_of : jsstring -> Statement.
Variable apply_of : jsstring -> DB -> DB.

Let insert (line : jsstring) : H unit :=
  execute s (stmt_of line) (apply_of line).

Lemma insert_all (lines : list jsstring) (db : DB) (states : States) :
  (forall x, In x lines -> troubled s (Stmt (stmt_of x)) = false) ->
  Dialogue.for_each lines insert (mkWorld db states)
  = mkTrace (map (fun x => Stmt (stmt_of x)) lines)
      (mkWorld (inserted apply_of lines db) states) (Done tt).
Proof.
  revert db. induction lines as [|l lines IH]; intros db Hok; [reflexivity|].
  cbn [Dialogue.for_each map]. unfold and_then. unfold insert at 1.
  unfold execute. rewrite (Hok l (or_introl eq_refl)).
  cbn [store userStates].
  rewrite IH by (intros x Hx; apply Hok; now right). reflexivity.
Qed.

Lemma insert_until_failure (pre : list jsstring) (bad : jsstring)
  (post : list jsstring) (db : DB) (states : States) :
  (forall x, In x pre -> troubled s (Stmt (stmt_of x)) = false) ->
  troubled s (Stmt (stmt_of bad)) = true ->
  Dialogue.for_each (pre ++ bad :: post) insert (mkWorld db states)
  = mkTrace (map (fun x => Stmt (stmt_of x)) (pre ++ [bad]))
      (mkWorld (inserted apply_of pre db) states) (Raised (Failed StoreError)).
Proof.
  revert db. induction pre as [|p pre IH]; intros db Hok Hbad.
  - cbn [app Dialogue.for_each map]. unfold and_then. unfold insert at 1.
    unfold execute. rewrite Hbad. reflexivity.
  - cbn [app Dialogue.for_each map]. unfold and_then. unfold insert at 1.
    unfold execute. rewrite (Hok p (or_introl eq_refl)).
    cbn [store userStates].
    rewrite IH by (auto; intros x Hx; apply Hok; now right). reflexivity.
Qed.

(** Any run of the loop ends in a store that holds the rows of some
    first lines. *)
Lemma insert_some (lines : list jsstring) (db : DB) (states : States) :
  exists n cs o,
    Dialogue.for_each lines insert (mkWorld db states)
    = mkTrace cs (mkWorld (inserted apply_of (firstn n lines) db) states) o.
Proof.
  revert db. induction lines as [|l lines IH]; intros db.
  - exists O. eexists. eexists. reflexivity.
  - cbn [Dialogue.for_each]. unfold and_then. unfold insert at 1.
    unfold execute. destruct (troubled s _).
    + exists O. eexists. eexists. reflexivity.
    + cbn [store userStates].
      destruct (IH (apply_of l db)) as (n & cs & o & Hrun). rewrite Hrun.
      exists (S n). destruct o; eexists; eexists; reflexivity.
Qed.

End InsertLoop.

Lemma Map_get_delete_same (chat : Z) (m : Dialogue.States) :
  Dialogue.Map_get chat (Dialogue.Map_delete chat m) = None.
Proof.
  induction m as [|[k v] m IH]; [reflexivity|].
  cbn [Dialogue.Map_delete filter fst].
  destruct (Z.eqb k chat) eqn:E; cbn [negb]; [exact IH|].
  cbn [Dialogue.Map_get]. rewrite E. exact IH.
Qed.

Lemma Map_get_delete_other (chat other : Z) (m : Dialogue.States) :
  other <> chat ->
  Dialogue.Map_get other (Dialogue.Map_delete chat m) = Dialogue.Map_get other m.
Proof.
  intros Hne. induction m as [|[k v] m IH]; [reflexivity|].
  cbn [Dialogue.Map_delete filter fst Dialogue.Map_get].
  destruct (Z.eqb_spec k chat) as [->|Hk]; cbn [negb].
  - fold (Dialogue.Map_delete chat m). rewrite IH.
    destruct (Z.eqb_spec chat other) as [E|_]; [now symmetry in E|reflexivity].
  - cbn [Dialogue.Map_get]. fold (Dialogue.Map_delete chat m). now rewrite IH.
Qed.

Lemma Map_get_set_same (chat : Z) (v : Dialogue.Pending) (m : Dialogue.States) :
  Dialogue.Map_get chat (Dialogue.Map_set chat v m) = Some v.
Proof.
  unfold Dialogue.Map_set, Dialogue.Map_has.
  induction m as [|[k x] m IH]; cbn [existsb fst app map Dialogue.Map_get].
  - now rewrite Z.eqb_refl.
  - destruct (Z.eqb_spec k chat) as [->|Hk]; cbn [orb Dialogue.Map_get fst].
    + now rewrite Z.eqb_refl.
    + destruct (existsb _ m); cbn [Dialogue.Map_get];
        destruct (Z.eqb_spec k chat); try contradiction; exact IH.
Qed.

Lemma Map_get_set_other (chat other : Z) (v : Dialogue.Pending)
  (m : Dialogue.States) :
  other <> chat ->
  Dialogue.Map_get other (Dialogue.Map_set chat v m) = Dialogue.Map_get other m.
Proof.
  intros Hne. unfold Dialogue.Map_set, Dialogue.Map_has.
  assert (Hmiss : Z.eqb chat other = false) by (apply Z.eqb_neq; congruence).
  induction m as [|[k x] m IH]; cbn [existsb fst app map Dialogue.Map_get].
  - now rewrite Hmiss.
  - destruct (Z.eqb_spec k chat) as [->|Hk]; cbn [orb Dialogue.Map_get fst].
    + rewrite Hmiss.
      clear IH. induction m as [|[k' x'] m IH']; [reflexivity|].
      cbn [map fst Dialogue.Map_get].
      destruct (Z.eqb_spec k' chat) as [->|Hk']; cbn [Dialogue.Map_get];
        [rewrite Hmiss | ]; now rewrite IH'.
    + destruct (existsb _ m); cbn [Dialogue.Map_get];
        destruct (Z.eqb k other); try reflexivity; exact IH.
Qed.

Lemma inserted_goals (s : Dialogue.Setting) (uid : Z)
  (apply_of : jsstring -> DB -> DB) (lines : list jsstring) (db : DB) :
  (forall line db, exists d dl,
     apply_of line db = Dialogue.insert_goal s uid d dl db) ->
  users (Dialogue.inserted apply_of lines db) = users db
  /\ daily_activities (Dialogue.inserted apply_of lines db)
     = daily_activities db
  /\ exists new,
       goals (Dialogue.inserted apply_of lines db) = goals db ++ new
       /\ List.length new = List.length lines
       /\ Forall (fun g => goal_user g = uid) new.
Proof.
  intros Happ. revert db. induction lines as [|l lines IH]; intros db.
  - cbn. repeat split. exists []. rewrite app_nil_r. repeat split. constructor.
  - cbn [Dialogue.inserted fold_left].
    fold (Dialogue.inserted apply_of lines (apply_of l db)).
    destruct (IH (apply_of l db)) as (Hu & Hd & new & Hg & Hlen & Hall).
    destruct (Happ l db) as (d & dl & Hins).
    rewrite Hu, Hd, Hg, Hins. unfold Dialogue.insert_goal.
    cbn [users goals daily_activities].
    split; [reflexivity|]. split; [reflexivity|].
    eexists. rewrite <- app_assoc. split; [reflexivity|].
    split; [cbn [app List.length]; now rewrite Hlen|].
    constructor; [reflexivity | exact Hall].
Qed.

Lemma only_adds_after_registration (s : Dialogue.Setting) (chat : Z) (db : DB) :
  Dialogue.only_adds_for chat db (Dialogue.once_registered s chat db).
Proof.
  unfold Dialogue.only_adds_for, Dialogue.once_registered,
    Dialogue.insert_user.
  destruct (Dialogue.troubled s _);
    [|destruct (Dialogue.registered chat db) eqn:Hreg];
    cbn [users goals daily_activities];
    (split; [reflexivity|]);
    (split; [|exists []; rewrite app_nil_r; split; auto]).
  - exists []. rewrite app_nil_r. cbn [List.length]. auto.
  - exists []. rewrite app_nil_r. cbn [List.length]. auto.
  - eexists. split; [reflexivity|]. cbn [List.length].
    split; [lia|]. split; [|discriminate].
    constructor; [reflexivity | constructor].
Qed.

Lemma only_adds_after_inserts (s : Dialogue.Setting) (chat : Z) (db db' : DB)
  (user : User) (others : list User) :
  select_user_by_chat chat (Dialogue.once_registered s chat db)
  = user :: others ->
  users db' = users (Dialogue.once_registered s chat db) ->
  daily_activities db' = daily_activities (Dialogue.once_registered s chat db) ->
  (exists new,
     goals db' = goals (Dialogue.once_registered s chat db) ++ new
     /\ Forall (fun g => goal_user g = user_id user) new) ->
  Dialogue.only_adds_for chat db db'.
Proof.
  intros Huser Hu Hd (new & Hg & Hall).
  destruct (only_adds_after_registration s chat db)
    as (Hd1 & (extra & Hu1 & Hextra) & (new1 & Hg1 & _)).
  assert (Hin : In user (users db') /\ chat_id user = chat).
  { assert (In user (select_user_by_chat chat
                       (Dialogue.once_registered s chat db))) as H
      by (rewrite Huser; now left).
    unfold select_user_by_chat in H. apply filter_In in H as [H E].
    rewrite Hu. split; [assumption | now apply Z.eqb_eq]. }
  assert (new1 = []) as ->.
  { unfold Dialogue.once_registered, Dialogue.insert_user in Hg1.
    assert (goals (Dialogue.once_registered s chat db) = goals db) as E.
    { unfold Dialogue.once_registered, Dialogue.insert_user.
      destruct (Dialogue.troubled s _); [reflexivity|].
      now destruct (Dialogue.registered chat db). }
    fold (Dialogue.insert_user s chat db) in Hg1.
    fold (Dialogue.once_registered s chat db) in Hg1.
    rewrite E in Hg1. apply (f_equal (@List.length _)) in Hg1.
    rewrite length_app in Hg1. destruct new1; [reflexivity|].
    cbn [List.length] in Hg1. lia. }
  rewrite app_nil_r in Hg1.
  split; [congruence|].
  split; [exists extra; split; [congruence | exact Hextra]|].
  exists new. split; [congruence|].
  apply Forall_forall. intros g Hgin.
  rewrite Forall_forall in Hall. exists user.
  split; [apply Hin|]. split; [apply Hin|]. now apply Hall.
Qed.

Lemma checklist_message_pending (s : Dialogue.Setting) (chat : Z)
  (text : option jsstring) (db : DB) (states : Dialogue.States)
  (st : Dialogue.Pending) :
  Dialogue.Map_get chat states = Some st ->
  Dialogue.is_command text = false ->
  exists cs db',
    ChecklistCommands.on_message s (ChecklistCommands.mkMessage chat text)
      (Dialogue.mkWorld db states)
    = Dialogue.mkTrace cs
        (Dialogue.mkWorld db' (Dialogue.Map_delete chat states))
        (Dialogue.Done tt)
    /\ Dialogue.only_adds_for chat db db'.
Proof.
  intros Hst Hcmd.
  unfold ChecklistCommands.on_message, ChecklistCommands.say.
  cbn [ChecklistCommands.msg_chat ChecklistCommands.msg_text].
  unfold_dialogue. unfold pool_select.
  cbn [Dialogue.store Dialogue.userStates].
  rewrite Hst, Hcmd, register_run'.
  cbn [Dialogue.store Dialogue.userStates emitted final outcome map].
  destruct (fails (Dialogue.env s) _).
  { eexists. eexists. split; [reflexivity|].
    apply only_adds_after_registration. }
  destruct (select_user_by_chat chat (Dialogue.once_registered s chat db))
    as [|user others] eqn:Huser.
  { eexists. eexists. split; [reflexivity|].
    apply only_adds_after_registration. }
  destruct st as [tempGoal|], text as [text|];
    try (eexists; eexists; split; [reflexivity|];
         apply only_adds_after_registration).
  - destruct (Dialogue.troubled s _);
      cbn [Dialogue.store Dialogue.userStates];
      (eexists; eexists; split; [reflexivity|]).
    + apply only_adds_after_registration.
    + apply (only_adds_after_inserts s chat db _ user others Huser);
        try reflexivity.
      eexists. split; [reflexivity|]. now constructor.
  - destruct (insert_some s
                (fun line => Dialogue.InsertGoal (user_id user)
                               (fst (ChecklistCommands.goal_of_line line))
                               (snd (ChecklistCommands.goal_of_line line)))
                (fun line => Dialogue.insert_goal s (user_id user)
                               (fst (ChecklistCommands.goal_of_line line))
                               (snd (ChecklistCommands.goal_of_line line)))
                (Dialogue.goal_lines text)
                (Dialogue.once_registered s chat db) states)
      as (n & cs0 & o0 & Hsome).
    destruct (inserted_goals s (user_id user)
                (fun line => Dialogue.insert_goal s (user_id user)
                               (fst (ChecklistCommands.goal_of_line line))
                               (snd (ChecklistCommands.goal_of_line line)))
                (firstn n (Dialogue.goal_lines text))
                (Dialogue.once_registered s chat db))
      as (Hu & Hd & new & Hg & _ & Hall).
    { intros line db0. eexists. eexists. reflexivity. }
    match goal with
    | |- context [Dialogue.for_each ?ls ?f ?w] =>
        assert (Hloop : Dialogue.for_each ls f w
                        = Dialogue.mkTrace cs0
                            (Dialogue.mkWorld
                               (Dialogue.inserted _
                                  (firstn n (Dialogue.goal_lines text))
                                  (Dialogue.once_registered s chat db))
                               states) o0)
          by exact Hsome;
        rewrite Hloop
    end.
    destruct o0; cbn [Dialogue.store Dialogue.userStates];
      (eexists; eexists; split; [reflexivity|]);
      apply (only_adds_after_inserts s chat db _ user others Huser);
      try assumption; exists new; split; assumption.
Qed.

Lemma for_each_ext {X : Type} (xs : list X) (f g : X -> Dialogue.H unit)
  (w : Dialogue.World) :
  (forall x w, f x w = g x w) ->
  Dialogue.for_each xs f w = Dialogue.for_each xs g w.
Proof.
  intros Hfg. revert w. induction xs as [|x xs IH]; intros w; [reflexivity|].
  cbn [Dialogue.for_each]. unfold Dialogue.and_then. rewrite Hfg.
  destruct (g x w) as [cs w1 [a|f0]]; [|reflexivity]. now rewrite IH.
Qed.

(** The statement and the change one line of an [/addmany] answer stands
    for in the plain revision. *)
Lemma insert_line_run (s : Dialogue.Setting) (userId : Z) (line : jsstring)
  (w : Dialogue.World) :
  BotJsCommands.insert_line s userId line w
  = Dialogue.execute s
      (if BotJsCommands.has_bar line
       then Dialogue.InsertGoal userId
              (trim (hd [] (split_on Dialogue.bar line)))
              (Some (trim (join [Dialogue.bar]
                             (tl (split_on Dialogue.bar line)))))
       else Dialogue.InsertGoalDescription userId line)
      (if BotJsCommands.has_bar line
       then Dialogue.insert_goal s userId
              (trim (hd [] (split_on Dialogue.bar line)))
              (Some (trim (join [Dialogue.bar]
                             (tl (split_on Dialogue.bar line)))))
       else Dialogue.insert_goal s userId line (Dialogue.default_deadline s))
      w.
Proof.
  unfold BotJsCommands.insert_line. now destruct (BotJsCommands.has_bar line).
Qed.

Lemma botjs_message_pending (s : Dialogue.Setting) (chat : Z)
  (text : option jsstring) (db : DB) (states : Dialogue.States)
  (st : Dialogue.Pending) :
  Dialogue.Map_get chat states = Some st ->
  Dialogue.is_command text = false ->
  exists cs db',
    BotJsCommands.on_message s (BotJsCommands.mkMessage chat text)
      (Dialogue.mkWorld db states)
    = Dialogue.mkTrace cs
        (Dialogue.mkWorld db' (Dialogue.Map_delete chat states))
        (Dialogue.Done tt)
    /\ Dialogue.only_adds_for chat db db'.
Proof.
  intros Hst Hcmd.
  unfold BotJsCommands.on_message, BotJsCommands.say.
  cbn [BotJsCommands.msg_chat BotJsCommands.msg_text].
  unfold_dialogue. unfold pool_select.
  cbn [Dialogue.store Dialogue.userStates].
  rewrite Hst, Hcmd. destruct st as [tempGoal|]; rewrite register_run';
    cbn [Dialogue.store Dialogue.userStates emitted final outcome map];
    (destruct (fails (Dialogue.env s) _);
     [eexists; eexists; split; [reflexivity|];
      apply only_adds_after_registration|]);
    (destruct (select_user_by_chat chat (Dialogue.once_registered s chat db))
       as [|user others] eqn:Huser;
     [eexists; eexists; split; [reflexivity|];
      apply only_adds_after_registration|]);
    (destruct text as [text|];
     [|eexists; eexists; split; [reflexivity|];
       apply only_adds_after_registration]).
  - destruct (Dialogue.troubled s _);
      cbn [Dialogue.store Dialogue.userStates].
    + eexists. eexists. split; [reflexivity|].
      apply only_adds_after_registration.
    + destruct (BotJs.truthy _);
        (eexists; eexists; split; [reflexivity|]);
        apply (only_adds_after_inserts s chat db _ user others Huser);
        try reflexivity;
        (eexists; split; [reflexivity|]; now constructor).
  - destruct (Dialogue.goal_lines text) as [|l0 ls] eqn:Hlines.
    { eexists. eexists. split; [reflexivity|].
      apply only_adds_after_registration. }
    rewrite <- Hlines. clear Hlines.
    set (stmt_of := fun line =>
      if BotJsCommands.has_bar line
      then Dialogue.InsertGoal (user_id user)
             (trim (hd [] (split_on Dialogue.bar line)))
             (Some (trim (join [Dialogue.bar]
                            (tl (split_on Dialogue.bar line)))))
      else Dialogue.InsertGoalDescription (user_id user) line).
    set (apply_of := fun line =>
      if BotJsCommands.has_bar line
      then Dialogue.insert_goal s (user_id user)
             (trim (hd [] (split_on Dialogue.bar line)))
             (Some (trim (join [Dialogue.bar]
                            (tl (split_on Dialogue.bar line)))))
      else Dialogue.insert_goal s (user_id user) line
             (Dialogue.default_deadline s)).
    rewrite (for_each_ext _ _
               (fun line => Dialogue.execute s (stmt_of line) (apply_of line))
               _ (insert_line_run s (user_id user))).
    destruct (insert_some s stmt_of apply_of (Dialogue.goal_lines text)
                (Dialogue.once_registered s chat db) states)
      as (n & cs0 & o0 & Hsome).
    destruct (inserted_goals s (user_id user) apply_of
                (firstn n (Dialogue.goal_lines text))
                (Dialogue.once_registered s chat db))
      as (Hu & Hd & new & Hg & _ & Hall).
    { intros line db0. unfold apply_of.
      destruct (BotJsCommands.has_bar line); eexists; eexists; reflexivity. }
    rewrite Hsome.
    destruct o0; cbn [Dialogue.store Dialogue.userStates];
      (eexists; eexists; split; [reflexivity|]);
      apply (only_adds_after_inserts s chat db _ user others Huser);
      try assumption; exists new; split; assumption.
Qed.

(** The message handlers always settle.  In both revisions, for every
    message, pending conversation and pattern of failing calls, the
    handler's promise resolves; no other chat's conversation is touched; a
    message of a chat without a pending conversation, and a command, cause
    no call and change nothing; any other message ends the chat's
    conversation, whether the goals could be stored or not; and the store
    only gains rows: at most one user row, which is the chat's and is added
    only when the chat had none, and goals owned by a user of the chat. *)
Theorem message_handlers_always_settle (s : Dialogue.Setting) (chat : Z)
  (text : option jsstring) (w : Dialogue.World) :
  Dialogue.settles chat text w
    (ChecklistCommands.on_message s (ChecklistCommands.mkMessage chat text) w)
  /\ Dialogue.settles chat text w
       (BotJsCommands.on_message s (BotJsCommands.mkMessage chat text) w).
Proof.
  destruct w as [db states].
  assert (Hidle : Dialogue.only_adds_for chat db db).
  { split; [reflexivity|].
    split; exists []; rewrite app_nil_r; cbn [List.length]; auto. }
  assert (Hquiet : forall t : Dialogue.Trace unit,
    t = Dialogue.mkTrace [] (Dialogue.mkWorld db states) (Dialogue.Done tt) ->
    (Dialogue.Map_get chat states = None \/ Dialogue.is_command text = true) ->
    Dialogue.settles chat text (Dialogue.mkWorld db states) t).
  { intros t -> Hguard. unfold Dialogue.settles.
    cbn [Dialogue.calls Dialogue.after Dialogue.verdict Dialogue.store
         Dialogue.userStates].
    split; [reflexivity|]. split; [reflexivity|]. split; [auto|].
    split; [|exact Hidle].
    intros Hsome Hcmd. destruct Hguard as [Hnone|Hcmd']; congruence. }
  assert (Hbusy : forall (t : Dialogue.Trace unit) st,
    Dialogue.Map_get chat states = Some st ->
    Dialogue.is_command text = false ->
    (exists cs db',
       t = Dialogue.mkTrace cs
             (Dialogue.mkWorld db' (Dialogue.Map_delete chat states))
             (Dialogue.Done tt)
       /\ Dialogue.only_adds_for chat db db') ->
    Dialogue.settles chat text (Dialogue.mkWorld db states) t).
  { intros t st Hst Hcmd (cs & db' & -> & Hadds). unfold Dialogue.settles.
    cbn [Dialogue.calls Dialogue.after Dialogue.verdict Dialogue.store
         Dialogue.userStates].
    split; [reflexivity|].
    split; [intros other Hne; now apply Map_get_delete_other|].
    split; [intros [Hnone|Hcmd']; congruence|].
    split; [intros _ _; apply Map_get_delete_same | exact Hadds]. }
  destruct (Dialogue.Map_get chat states) as [st|] eqn:Hst.
  - destruct (Dialogue.is_command text) eqn:Hcmd.
    + split; apply Hquiet; auto;
        unfold ChecklistCommands.on_message, BotJsCommands.on_message;
        cbn [ChecklistCommands.msg_chat ChecklistCommands.msg_text
             BotJsCommands.msg_chat BotJsCommands.msg_text];
        unfold_dialogue; cbn [Dialogue.userStates];
        rewrite Hst, Hcmd; reflexivity.
    + split; apply (Hbusy _ st eq_refl eq_refl).
      * now apply (checklist_message_pending s chat text db states st).
      * now apply (botjs_message_pending s chat text db states st).
  - split; apply Hquiet; auto;
      unfold ChecklistCommands.on_message, BotJsCommands.on_message;
      cbn [ChecklistCommands.msg_chat ChecklistCommands.msg_text
           BotJsCommands.msg_chat BotJsCommands.msg_text];
      unfold_dialogue; cbn [Dialogue.userStates];
      rewrite Hst; try reflexivity; now destruct (Dialogue.is_command text).
Qed.

Lemma once_registered_goals (s : Dialogue.Setting) (chat : Z) (db : DB) :
  goals (Dialogue.once_registered s chat db) = goals db.
Proof.
  unfold Dialogue.once_registered, Dialogue.insert_user.
  destruct (Dialogue.troubled s _); [reflexivity|].
  now destruct (Dialogue.registered chat db).
Qed.

Lemma registered_select (chat : Z) (db : DB) :
  Dialogue.registered chat db = true ->
  exists user others, select_user_by_chat chat db = user :: others.
Proof.
  unfold Dialogue.registered, select_user_by_chat. intros H.
  apply existsb_exists in H as (u & Hu & E).
  destruct (filter _ (users db)) as [|user others] eqn:Hf.
  - assert (In u (filter (fun u => Z.eqb (chat_id u) chat) (users db))) as Hin
      by (apply filter_In; auto).
    rewrite Hf in Hin. contradiction.
  - now exists user, others.
Qed.

Lemma registered_after_insert (s : Dialogue.Setting) (chat : Z) (db : DB) :
  Dialogue.registered chat (Dialogue.insert_user s chat db) = true.
Proof.
  unfold Dialogue.insert_user.
  destruct (Dialogue.registered chat db) eqn:Hreg; [exact Hreg|].
  unfold Dialogue.registered. cbn [users]. rewrite existsb_app. cbn.
  rewrite Z.eqb_refl. apply orb_true_r.
Qed.

Lemma addgoal_run (s : Dialogue.Setting) (chat : Z) (goalText : jsstring)
  (db : DB) (states : Dialogue.States) :
  let w1 :=
    Dialogue.mkWorld (Dialogue.once_registered s chat db)
      (Dialogue.Map_set chat (Dialogue.awaiting_deadline goalText) states) in
  Dialogue.after
    (ChecklistCommands.on_addgoal s chat goalText (Dialogue.mkWorld db states))
  = w1
  /\ Dialogue.after
       (BotJsCommands.on_addgoal s chat goalText (Dialogue.mkWorld db states))
     = w1.
Proof.
  unfold ChecklistCommands.on_addgoal, BotJsCommands.on_addgoal,
    ChecklistCommands.say, BotJsCommands.say.
  unfold_dialogue. rewrite register_run'. split; reflexivity.
Qed.

(** The conversation that adds one goal.  After [/addgoal G], whatever
    became of the registration then, a message [D] that is no command, met
    by a store that accepts the statements, adds exactly one goal: owned by
    the user the chat's lookup returns first, with description [G], without
    deadline if [D] trimmed is [skip] in any letter case and with [D]
    trimmed as deadline otherwise.  The conversation is over afterwards,
    and both revisions leave the same world. *)
Theorem add_goal_conversation (s1 s2 : Dialogue.Setting) (chat : Z)
  (goalText text : jsstring) (w : Dialogue.World) :
  Dialogue.is_command (Some text) = false ->
  Dialogue.troubled s2 (Dialogue.Stmt (Dialogue.InsertUser chat)) = false ->
  fails (Dialogue.env s2) (Query (SelectUserByChat chat)) = false ->
  (forall u,
     Dialogue.troubled s2
       (Dialogue.Stmt (Dialogue.InsertGoal u goalText
                         (Dialogue.deadline_of text))) = false) ->
  let w1 := Dialogue.after (ChecklistCommands.on_addgoal s1 chat goalText w) in
  let t := ChecklistCommands.on_message s2
             (ChecklistCommands.mkMessage chat (Some text)) w1 in
  let t' := BotJsCommands.on_message s2
              (BotJsCommands.mkMessage chat (Some text))
              (Dialogue.after (BotJsCommands.on_addgoal s1 chat goalText w)) in
  exists user gid,
    hd_error (select_user_by_chat chat (Dialogue.store (Dialogue.after t)))
    = Some user
    /\ goals (Dialogue.store (Dialogue.after t))
       = goals (Dialogue.store w)
         ++ [mkGoal gid (user_id user) goalText (Dialogue.deadline_of text)
               (Dialogue.default_priority s2)]
    /\ Dialogue.Map_get chat (Dialogue.userStates (Dialogue.after t)) = None
    /\ Dialogue.told (Dialogue.calls t)
       = [(chat, ChecklistCommands.msg_goal_added)]
    /\ Dialogue.verdict t = Dialogue.Done tt
    /\ Dialogue.after t' = Dialogue.after t
    /\ Dialogue.verdict t' = Dialogue.Done tt.
Proof.
  intros Hcmd Hreg Hlookup Hinsert w1 t t'. subst t t' w1.
  destruct w as [db states].
  destruct (addgoal_run s1 chat goalText db states) as [-> ->].
  set (db1 := Dialogue.once_registered s1 chat db).
  set (states1 := Dialogue.Map_set chat _ states).
  assert (Hst : Dialogue.Map_get chat states1
                = Some (Dialogue.awaiting_deadline goalText))
    by apply Map_get_set_same.
  destruct (registered_select chat (Dialogue.insert_user s2 chat db1)
              (registered_after_insert s2 chat db1))
    as (user & others & Huser).
  assert (Hdb2 : Dialogue.once_registered s2 chat db1
                 = Dialogue.insert_user s2 chat db1).
  { unfold Dialogue.once_registered. now rewrite Hreg. }
  assert (Hgoals : goals (Dialogue.insert_user s2 chat db1) = goals db).
  { rewrite <- Hdb2. subst db1. now rewrite !once_registered_goals. }
  exists user, (Dialogue.serial_goal s2 (Dialogue.insert_user s2 chat db1)).
  unfold ChecklistCommands.on_message, BotJsCommands.on_message,
    ChecklistCommands.say, BotJsCommands.say.
  cbn [ChecklistCommands.msg_chat ChecklistCommands.msg_text
       BotJsCommands.msg_chat BotJsCommands.msg_text].
  unfold_dialogue. unfold pool_select.
  cbn [Dialogue.store Dialogue.userStates].
  rewrite Hst, Hcmd, register_run', Hdb2.
  cbn [Dialogue.store Dialogue.userStates emitted final outcome map].
  rewrite Hlookup, Huser, Hinsert.
  cbn [Dialogue.store Dialogue.userStates Dialogue.calls Dialogue.after
       Dialogue.verdict].
  split; [|split; [|split; [|split; [|split; [|split]]]]].
  - change (select_user_by_chat chat (Dialogue.insert_goal s2 _ _ _ ?d))
      with (select_user_by_chat chat d).
    now rewrite Huser.
  - unfold Dialogue.insert_goal at 1. cbn [goals]. now rewrite Hgoals.
  - apply Map_get_delete_same.
  - unfold Dialogue.register_calls. rewrite Hreg. reflexivity.
  - reflexivity.
  - now destruct (BotJs.truthy _).
  - now destruct (BotJs.truthy _).
Qed.

Lemma add_goal_conversation_witness :
  let s := Cases.smooth Cases.quiet in
  let w1 := Dialogue.after
              (ChecklistCommands.on_addgoal s 100 (lit "Read more")
                 (Dialogue.mkWorld Scenario.runner [])) in
  let t := ChecklistCommands.on_message s
             (ChecklistCommands.mkMessage 100 (Some (lit " Skip "))) w1 in
  Dialogue.Map_get 100 (Dialogue.userStates (Dialogue.after t)) = None
  /\ Dialogue.verdict t = Dialogue.Done tt.
Proof.
  destruct (add_goal_conversation (Cases.smooth Cases.quiet)
              (Cases.smooth Cases.quiet) 100 (lit "Read more") (lit " Skip ")
              (Dialogue.mkWorld Scenario.runner [])
              eq_refl eq_refl eq_refl (fun _ => eq_refl))
    as (user & gid & _ & _ & Hover & _ & Hdone & _).
  split; assumption.
Defined.

Lemma inserted_rows (s : Dialogue.Setting) (uid : Z)
  (d : jsstring -> jsstring) (dl : jsstring -> option jsstring)
  (lines : list jsstring) (db : DB) :
  exists new,
    goals (Dialogue.inserted
             (fun line => Dialogue.insert_goal s uid (d line) (dl line))
             lines db)
    = goals db ++ new
    /\ map (fun g => (goal_user g, description g, deadline g, priority g)) new
       = map (fun line => (uid, d line, dl line, Dialogue.default_priority s))
           lines.
Proof.
  revert db. induction lines as [|l lines IH]; intros db.
  - exists []. cbn. now rewrite app_nil_r.
  - cbn [Dialogue.inserted fold_left].
    fold (Dialogue.inserted
            (fun line => Dialogue.insert_goal s uid (d line) (dl line))
            lines (Dialogue.insert_goal s uid (d l) (dl l) db)).
    destruct (IH (Dialogue.insert_goal s uid (d l) (dl l) db))
      as (new & Hg & Hrows).
    rewrite Hg. unfold Dialogue.insert_goal at 1. cbn [goals].
    eexists. rewrite <- app_assoc. split; [reflexivity|].
    cbn [app map goal_user description deadline priority].
    now rewrite Hrows.
Qed.

(** [/addmany] stores line by line, with no transaction around the
    lines.  In the checklist revision, with the chat's user found, every
    non-blank line of the answer becomes one [INSERT], in order: the part
    before the first bar as description, the part between the first and
    the second bar as deadline, both trimmed.  If all are accepted the
    user is told the number of lines.  If one is refused, the goals of the
    lines before it stay stored, the lines after it are dropped, and the
    user is told only that saving failed. *)
Theorem addmany_stores_line_by_line (s : Dialogue.Setting) (chat : Z)
  (text : jsstring) (db : DB) (states : Dialogue.States) (user : User)
  (others : list User) :
  Dialogue.Map_get chat states = Some Dialogue.awaiting_multiple_goals ->
  Dialogue.is_command (Some text) = false ->
  fails (Dialogue.env s) (Query (SelectUserByChat chat)) = false ->
  select_user_by_chat chat (Dialogue.once_registered s chat db)
  = user :: others ->
  let lines := Dialogue.goal_lines text in
  let statement := fun line =>
    Dialogue.Stmt
      (Dialogue.InsertGoal (user_id user)
         (fst (ChecklistCommands.goal_of_line line))
         (snd (ChecklistCommands.goal_of_line line))) in
  let row := fun line =>
    (user_id user, fst (ChecklistCommands.goal_of_line line),
     snd (ChecklistCommands.goal_of_line line), Dialogue.default_priority s) in
  let t := ChecklistCommands.on_message s
             (ChecklistCommands.mkMessage chat (Some text))
             (Dialogue.mkWorld db states) in
  let stored := fun (accepted : list jsstring) =>
    exists new,
      goals (Dialogue.store (Dialogue.after t)) = goals db ++ new
      /\ map (fun g => (goal_user g, description g, deadline g, priority g))
           new
         = map row accepted in
  ((forall x, In x lines -> Dialogue.troubled s (statement x) = false) ->
   stored lines
   /\ Dialogue.told (Dialogue.calls t)
      = [(chat, ChecklistCommands.msg_added (List.length lines))])
  /\ (forall pre bad post,
        lines = pre ++ bad :: post ->
        (forall x, In x pre -> Dialogue.troubled s (statement x) = false) ->
        Dialogue.troubled s (statement bad) = true ->
        stored pre
        /\ Dialogue.told (Dialogue.calls t)
           = [(chat, ChecklistCommands.msg_error_saving)]).
Proof.
  intros Hst Hcmd Hlookup Huser lines statement row t stored.
  subst stored t.
  set (apply_of := fun line =>
    Dialogue.insert_goal s (user_id user)
      (fst (ChecklistCommands.goal_of_line line))
      (snd (ChecklistCommands.goal_of_line line))).
  set (stmt_of := fun line =>
    Dialogue.InsertGoal (user_id user)
      (fst (ChecklistCommands.goal_of_line line))
      (snd (ChecklistCommands.goal_of_line line))).
  assert (Htold_reg : Dialogue.told (Dialogue.register_calls s chat) = []).
  { unfold Dialogue.register_calls. now destruct (Dialogue.troubled s _). }
  assert (Htold_stmts : forall ls,
    Dialogue.told (map (fun x => Dialogue.Stmt (stmt_of x)) ls) = []).
  { induction ls as [|l ls IH]; [reflexivity | exact IH]. }
  assert (Hrun : forall cs db' o,
    Dialogue.for_each lines
      (fun line => Dialogue.execute s (stmt_of line) (apply_of line))
      (Dialogue.mkWorld (Dialogue.once_registered s chat db) states)
    = Dialogue.mkTrace cs (Dialogue.mkWorld db' states) o ->
    let t := ChecklistCommands.on_message s
               (ChecklistCommands.mkMessage chat (Some text))
               (Dialogue.mkWorld db states) in
    Dialogue.store (Dialogue.after t) = db'
    /\ Dialogue.told (Dialogue.calls t)
       = Dialogue.told cs
         ++ match o with
            | Dialogue.Done _ =>
                [(chat, ChecklistCommands.msg_added (List.length lines))]
            | Dialogue.Raised _ => [(chat, ChecklistCommands.msg_error_saving)]
            end).
  { intros cs db' o Hloop.
    unfold ChecklistCommands.on_message, ChecklistCommands.say.
    cbn [ChecklistCommands.msg_chat ChecklistCommands.msg_text].
    unfold_dialogue. unfold pool_select.
    cbn [Dialogue.store Dialogue.userStates].
    rewrite Hst, Hcmd, register_run'.
    cbn [Dialogue.store Dialogue.userStates emitted final outcome map].
    rewrite Hlookup, Huser. fold lines.
    match goal with
    | |- context [Dialogue.for_each ?ls ?f ?w] =>
        assert (Hloop' : Dialogue.for_each ls f w
                         = Dialogue.mkTrace cs (Dialogue.mkWorld db' states) o)
          by exact Hloop;
        rewrite Hloop'
    end.
    destruct o;
      cbn [Dialogue.store Dialogue.userStates Dialogue.calls Dialogue.after
           Dialogue.verdict];
      (split; [reflexivity|]);
      unfold Dialogue.told; rewrite !flat_map_app;
      fold (Dialogue.told (Dialogue.register_calls s chat));
      fold (Dialogue.told cs); rewrite Htold_reg; cbn [flat_map app];
      rewrite ?app_nil_r; reflexivity. }
  split.
  - intros Hok.
    destruct (Hrun _ _ _ (insert_all s stmt_of apply_of lines _ states Hok))
      as (Hstore & Htold).
    rewrite Hstore, Htold, Htold_stmts. split; [|reflexivity].
    destruct (inserted_rows s (user_id user)
                (fun line => fst (ChecklistCommands.goal_of_line line))
                (fun line => snd (ChecklistCommands.goal_of_line line))
                lines (Dialogue.once_registered s chat db))
      as (new & Hg & Hrows).
    exists new. rewrite once_registered_goals in Hg. split; assumption.
  - intros pre bad post Hsplit Hok Hbad.
    pose proof (insert_until_failure s stmt_of apply_of pre bad post
                  (Dialogue.once_registered s chat db) states Hok Hbad)
      as Hloop.
    rewrite <- Hsplit in Hloop.
    destruct (Hrun _ _ _ Hloop) as (Hstore & Htold).
    rewrite Hstore, Htold, Htold_stmts. split; [|reflexivity].
    destruct (inserted_rows s (user_id user)
                (fun line => fst (ChecklistCommands.goal_of_line line))
                (fun line => snd (ChecklistCommands.goal_of_line line))
                pre (Dialogue.once_registered s chat db))
      as (new & Hg & Hrows).
    exists new. rewrite once_registered_goals in Hg. split; assumption.
Qed.

Lemma addmany_stores_line_by_line_witness :
  let t := ChecklistCommands.on_message (Cases.smooth Cases.quiet)
             (ChecklistCommands.mkMessage 100
                (Some (lit "Run | May" ++ [nl] ++ lit "Read")))
             (Dialogue.mkWorld Scenario.runner
                [(100%Z, Dialogue.awaiting_multiple_goals)]) in
  Dialogue.told (Dialogue.calls t) = [(100%Z, ChecklistCommands.msg_added 2)].
Proof.
  destruct (addmany_stores_line_by_line (Cases.smooth Cases.quiet) 100
              (lit "Run | May" ++ [nl] ++ lit "Read") Scenario.runner
              [(100%Z, Dialogue.awaiting_multiple_goals)] (mkUser 1 100) []
              eq_refl eq_refl eq_refl eq_refl) as [Hall _].
  destruct (Hall (fun _ _ => eq_refl)) as [_ Htold]. exact Htold.
Defined.

(** ** Trimming *)

Lemma drop_while_stops {A : Type} (p : A -> bool) (l : list A) :
  stops_at p l -> drop_while p l = l.
Proof.
  destruct l as [|x l]; [reflexivity|]. cbn [stops_at drop_while].
  now intros ->.
Qed.

Lemma drop_while_stopped {A : Type} (p : A -> bool) (l : list A) :
  stops_at p (drop_while p l).
Proof.
  destruct (drop_while p l) as [|x l'] eqn:E; [exact I|].
  cbn [stops_at]. exact (drop_while_head p l x l' E).
Qed.

Lemma trim_stops (s : jsstring) :
  stops_at is_space (trim s) /\ stops_at is_space (rev (trim s)).
Proof.
  unfold trim. set (u := drop_while is_space s).
  set (v := drop_while is_space (rev u)).
  rewrite rev_involutive. split; [|apply drop_while_stopped].
  pose proof (take_drop_while is_space (rev u)) as Hsplit. fold v in Hsplit.
  apply (f_equal (@rev N)) in Hsplit.
  rewrite rev_app_distr, rev_involutive in Hsplit.
  pose proof (drop_while_stopped is_space s) as Hu. fold u in Hu.
  destruct (rev v) as [|x r]; [exact I|].
  rewrite <- Hsplit in Hu. exact Hu.
Qed.

Lemma trim_trim (s : jsstring) : trim (trim s) = trim s.
Proof.
  destruct (trim_stops s) as [Hhead Hlast].
  unfold trim at 1. rewrite (drop_while_stops _ _ Hhead).
  rewrite (drop_while_stops _ _ Hlast). apply rev_involutive.
Qed.

(** ** More on the task parser *)

Lemma split_on_nonempty (sep : N) (s : jsstring) : split_on sep s <> [].
Proof.
  destruct s as [|c s]; cbn [split_on]; [discriminate|].
  destruct (N.eqb c sep); [discriminate|].
  destruct (split_on sep s); discriminate.
Qed.

Lemma split_on_app (sep : N) (a b : jsstring) :
  split_on sep (a ++ sep :: b) = split_on sep a ++ split_on sep b.
Proof.
  induction a as [|c a IH]; cbn [app split_on].
  - now rewrite N.eqb_refl.
  - rewrite IH. destruct (N.eqb c sep); [reflexivity|].
    pose proof (split_on_nonempty sep a) as Hne.
    destruct (split_on sep a) as [|l ls]; [contradiction | reflexivity].
Qed.

Lemma split_on_remove_stars (s : jsstring) :
  split_on nl (remove_stars s) = map remove_stars (split_on nl s).
Proof.
  unfold remove_stars.
  induction s as [|c s IH]; [reflexivity|]. cbn [filter split_on].
  destruct (N.eqb_spec c nl) as [->|Hc].
  - cbn [is_star negb split_on map]. cbn. now rewrite IH.
  - pose proof (split_on_nonempty nl s) as Hne.
    destruct (is_star c) eqn:Hstar; cbn [negb split_on].
    + rewrite IH. destruct (split_on nl s) as [|l ls]; [contradiction|].
      cbn [map filter]. now rewrite Hstar.
    + destruct (N.eqb_spec c nl) as [E|_]; [contradiction|].
      rewrite IH. destruct (split_on nl s) as [|l ls]; [contradiction|].
      cbn [map filter]. now rewrite Hstar.
Qed.

Lemma parse_line_remove_stars (line : jsstring) :
  Checklist.parse_line (remove_stars line) = Checklist.parse_line line.
Proof.
  unfold Checklist.parse_line.
  assert (remove_stars (remove_stars line) = remove_stars line) as ->;
    [|reflexivity].
  unfold remove_stars. induction line as [|c line IH]; [reflexivity|].
  cbn [filter]. destruct (negb (is_star c)) eqn:E; [|exact IH].
  cbn [filter]. now rewrite E, IH.
Qed.

(** The parser reads line by line and does not see asterisks.  The tasks
    of two texts joined by a line feed are the tasks of the first followed
    by those of the second; removing every asterisk from a text changes
    none of its tasks; and a text never yields more tasks than it has
    lines. *)
Theorem parser_reads_line_by_line (a b : jsstring) :
  Checklist.parseTasks (a ++ nl :: b)
  = Checklist.parseTasks a ++ Checklist.parseTasks b
  /\ Checklist.parseTasks (remove_stars a) = Checklist.parseTasks a
  /\ (List.length (Checklist.parseTasks a)
      <= List.length (split_on nl a))%nat.
Proof.
  rewrite !parseTasks_lines. split; [|split].
  - now rewrite split_on_app, flat_map_app.
  - rewrite split_on_remove_stars.
    induction (split_on nl a) as [|l ls IH]; [reflexivity|].
    cbn [map flat_map]. rewrite IH. unfold Checklist.pushed at 1 3.
    now rewrite parse_line_remove_stars.
  - induction (split_on nl a) as [|l ls IH]; [cbn; lia|].
    cbn [flat_map]. rewrite length_app. cbn [List.length].
    unfold Checklist.pushed at 1.
    destruct (Checklist.parse_line l); cbn [List.length]; lia.
Qed.

Lemma digits_value_nonneg (ds : jsstring) : (0 <= digits_value 10 ds)%Z.
Proof.
  unfold digits_value.
  assert (H : forall acc, (0 <= acc)%Z ->
    (0 <= fold_left
            (fun acc c => 10 * acc + match radix_digit 10 c with
                                     | Some v => v
                                     | None => 0
                                     end) ds acc)%Z).
  { induction ds as [|c ds IH]; intros acc Hacc; [exact Hacc|].
    cbn [fold_left]. apply IH. unfold radix_digit.
    destruct (is_digit c) eqn:Hd.
    - unfold is_digit in Hd. apply andb_prop in Hd as [Hlo _].
      apply N.leb_le in Hlo. lia.
    - change (10 =? 16)%Z with false. cbn [andb]. lia. }
  apply H. lia.
Qed.

Lemma to_double_nonneg (n : Z) :
  (0 <= n)%Z ->
  (exists z, (0 <= z)%Z /\ to_double n = Fin z) \/ to_double n = Inf false.
Proof.
  intros Hn. unfold to_double.
  destruct (n <? 2 ^ 53)%Z; [left; now exists n|].
  cbv zeta.
  match goal with
  | |- context [if (2 ^ 1024 <=? ?v)%Z then _ else _] =>
      destruct (2 ^ 1024 <=? v)%Z eqn:Hbig; [now right|];
      left; exists v; split; [|reflexivity]
  end.
  apply Z.mul_nonneg_nonneg; [|apply Z.pow_nonneg; lia].
  assert (0 <= Z.shiftr n (Z.log2 n - 52))%Z as Hq
    by (apply Z.shiftr_nonneg; exact Hn).
  destruct (_ || _); lia.
Qed.

Lemma In_drop_while {A : Type} (p : A -> bool) (l : list A) (x : A) :
  In x (drop_while p l) -> In x l.
Proof.
  induction l as [|y l IH]; [auto|]. cbn [drop_while].
  destruct (p y); [intros H; right; now apply IH | auto].
Qed.

Lemma In_trim (s : jsstring) (c : N) : In c (trim s) -> In c s.
Proof.
  unfold trim. intros H. apply in_rev in H.
  apply In_drop_while in H. apply in_rev in H.
  now apply In_drop_while in H.
Qed.

(** Every parsed task is well formed.  Its ordinal is a non-negative
    integer or [Infinity], never [NaN] and never negative, so that the
    stored ordinal is a non-negative integer or [null]; its text is
    trimmed and holds no line terminator; and it is not ticked. *)
Theorem parsed_tasks_are_wellformed (text : jsstring) (t : Task number) :
  In t (Checklist.parseTasks text) ->
  ((exists z, (0 <= z)%Z /\ id t = Fin z /\ JSON_number (id t) = Some z)
   \/ (id t = Inf false /\ JSON_number (id t) = None))
  /\ trim (Store.text t) = Store.text t
  /\ forallb (fun c => negb (is_line_terminator c)) (Store.text t) = true
  /\ done t = false.
Proof.
  rewrite parseTasks_lines. intros Hin.
  apply in_flat_map in Hin as (line & _ & Hin).
  unfold Checklist.pushed in Hin.
  destruct (Checklist.parse_line line) as [t'|] eqn:Hline; [|contradiction].
  destruct Hin as [<-|[]].
  apply parse_line_shape in Hline as (ds & sep & ws & rest & Hshape & ->).
  destruct Hshape as (_ & Hne & Hds & _).
  cbn [id Store.text done].
  rewrite (parseInt_digit_run ds Hne Hds).
  split; [|split; [|split]].
  - destruct (to_double_nonneg _ (digits_value_nonneg ds))
      as [(z & Hz & ->)| ->]; [left; now exists z | now right].
  - apply trim_trim.
  - apply forallb_forall. intros c Hc. apply In_trim in Hc.
    pose proof (take_while_all (fun c => negb (is_line_terminator c)) rest)
      as Hall.
    rewrite forallb_forall in Hall. now apply Hall.
  - reflexivity.
Qed.

Lemma parsed_tasks_are_wellformed_witness :
  let t := mkTask (Fin 2) (lit "Call client") false in
  In t (Checklist.parseTasks Checklist.sample_plan)
  /\ trim (Store.text t) = Store.text t
  /\ done t = false.
Proof.
  assert (Hin : In (mkTask (Fin 2) (lit "Call client") false)
                  (Checklist.parseTasks Checklist.sample_plan))
    by (vm_compute; right; left; reflexivity).
  destruct (parsed_tasks_are_wellformed Checklist.sample_plan _ Hin)
    as (_ & Htrim & _ & Hdone).
  cbv zeta. split; [exact Hin | split; assumption].
Defined.

(** ** The two revisions on an [/addmany] answer *)

Lemma split_without_sep (sep : N) (l : jsstring) :
  existsb (N.eqb sep) l = false -> split_on sep l = [l].
Proof.
  induction l as [|c l IH]; [reflexivity|]. cbn [existsb split_on].
  intros H. apply orb_false_elim in H as [Hc Hl]. rewrite (IH Hl).
  rewrite N.eqb_sym, Hc. reflexivity.
Qed.

Lemma split_with_sep (sep : N) (l : jsstring) :
  existsb (N.eqb sep) l = true -> (2 <= List.length (split_on sep l))%nat.
Proof.
  induction l as [|c l IH]; [discriminate|]. cbn [existsb split_on].
  pose proof (split_on_nonempty sep l) as Hne.
  rewrite (N.eqb_sym sep c). destruct (N.eqb c sep); cbn [orb].
  - intros _. destruct (split_on sep l); [contradiction | cbn; lia].
  - intros H. specialize (IH H).
    destruct (split_on sep l) as [|x xs]; [contradiction | exact IH].
Qed.

Lemma goal_lines_trimmed (text line : jsstring) :
  In line (Dialogue.goal_lines text) -> trim line = line.
Proof.
  unfold Dialogue.goal_lines. intros H. apply filter_In in H as [H _].
  apply in_map_iff in H as (x & <- & _). apply trim_trim.
Qed.

Lemma line_rows_agree (s : Dialogue.Setting) (u : Z) (line : jsstring) (db : DB) :
  trim line = line ->
  Dialogue.default_deadline s = None ->
  (List.length (split_on Dialogue.bar line) <= 2)%nat ->
  Dialogue.insert_goal s u (fst (ChecklistCommands.goal_of_line line))
    (snd (ChecklistCommands.goal_of_line line)) db
  = (if BotJsCommands.has_bar line
     then Dialogue.insert_goal s u
            (trim (hd [] (split_on Dialogue.bar line)))
            (Some (trim (join [Dialogue.bar]
                           (tl (split_on Dialogue.bar line)))))
     else Dialogue.insert_goal s u line (Dialogue.default_deadline s)) db.
Proof.
  intros Htrim Hdefault Hpieces. unfold ChecklistCommands.goal_of_line.
  cbv zeta. cbn [fst snd]. unfold BotJsCommands.has_bar.
  destruct (existsb (N.eqb Dialogue.bar) line) eqn:Hbar.
  - apply split_with_sep in Hbar.
    destruct (split_on Dialogue.bar line) as [|a [|b [|c rest]]];
      cbn [List.length] in *; try lia.
    reflexivity.
  - rewrite (split_without_sep _ _ Hbar), Hdefault. cbn [hd List.length].
    cbn [Nat.ltb Nat.leb]. now rewrite Htrim.
Qed.

Lemma inserted_ext (f g : jsstring -> DB -> DB) (lines : list jsstring)
  (db : DB) :
  (forall line db, In line lines -> f line db = g line db) ->
  Dialogue.inserted f lines db = Dialogue.inserted g lines db.
Proof.
  revert db. induction lines as [|l lines IH]; intros db Hfg; [reflexivity|].
  cbn [Dialogue.inserted fold_left].
  rewrite (Hfg l db (or_introl eq_refl)).
  apply IH. intros line db0 Hin. apply Hfg. now right.
Qed.

(** Where the two revisions agree on an [/addmany] answer.  With a store
    that answers every call and a deadline column that defaults to
    [NULL], an answer none of whose lines holds more than one bar leaves
    the same world in both revisions.  (With more bars the plain revision
    keeps everything after the first bar as deadline, the checklist
    revision only the part up to the second.) *)
Theorem addmany_revisions_agree (s : Dialogue.Setting) (chat : Z)
  (text : jsstring) (db : DB) (states : Dialogue.States) :
  Dialogue.Map_get chat states = Some Dialogue.awaiting_multiple_goals ->
  Dialogue.is_command (Some text) = false ->
  Dialogue.default_deadline s = None ->
  (forall c, Dialogue.troubled s c = false) ->
  (forall line, In line (Dialogue.goal_lines text) ->
     (List.length (split_on Dialogue.bar line) <= 2)%nat) ->
  Dialogue.after
    (BotJsCommands.on_message s (BotJsCommands.mkMessage chat (Some text))
       (Dialogue.mkWorld db states))
  = Dialogue.after
      (ChecklistCommands.on_message s
         (ChecklistCommands.mkMessage chat (Some text))
         (Dialogue.mkWorld db states)).
Proof.
  intros Hst Hcmd Hdefault Hcalm Hbars.
  destruct (registered_select chat (Dialogue.insert_user s chat db)
              (registered_after_insert s chat db))
    as (user & others & Huser).
  assert (Hdb1 : Dialogue.once_registered s chat db
                 = Dialogue.insert_user s chat db).
  { unfold Dialogue.once_registered. now rewrite Hcalm. }
  pose proof (Hcalm (Dialogue.Core (Query (SelectUserByChat chat))))
    as Hlookup.
  cbn [Dialogue.troubled] in Hlookup.
  set (stmt1 := fun line =>
    Dialogue.InsertGoal (user_id user)
      (fst (ChecklistCommands.goal_of_line line))
      (snd (ChecklistCommands.goal_of_line line))).
  set (apply1 := fun line =>
    Dialogue.insert_goal s (user_id user)
      (fst (ChecklistCommands.goal_of_line line))
      (snd (ChecklistCommands.goal_of_line line))).
  set (stmt2 := fun line =>
    if BotJsCommands.has_bar line
    then Dialogue.InsertGoal (user_id user)
           (trim (hd [] (split_on Dialogue.bar line)))
           (Some (trim (join [Dialogue.bar]
                          (tl (split_on Dialogue.bar line)))))
    else Dialogue.InsertGoalDescription (user_id user) line).
  set (apply2 := fun line =>
    if BotJsCommands.has_bar line
    then Dialogue.insert_goal s (user_id user)
           (trim (hd [] (split_on Dialogue.bar line)))
           (Some (trim (join [Dialogue.bar]
                          (tl (split_on Dialogue.bar line)))))
    else Dialogue.insert_goal s (user_id user) line
           (Dialogue.default_deadline s)).
  pose proof (insert_all s stmt1 apply1 (Dialogue.goal_lines text)
                (Dialogue.insert_user s chat db) states
                (fun x _ => Hcalm _)) as Hloop1.
  pose proof (insert_all s stmt2 apply2 (Dialogue.goal_lines text)
                (Dialogue.insert_user s chat db) states
                (fun x _ => Hcalm _)) as Hloop2.
  assert (Hsame : Dialogue.inserted apply2 (Dialogue.goal_lines text)
                    (Dialogue.insert_user s chat db)
                  = Dialogue.inserted apply1 (Dialogue.goal_lines text)
                      (Dialogue.insert_user s chat db)).
  { apply inserted_ext. intros line db0 Hin. symmetry.
    apply line_rows_agree; auto. now apply (goal_lines_trimmed text). }
  unfold ChecklistCommands.on_message, BotJsCommands.on_message,
    ChecklistCommands.say, BotJsCommands.say.
  cbn [ChecklistCommands.msg_chat ChecklistCommands.msg_text
       BotJsCommands.msg_chat BotJsCommands.msg_text].
  unfold_dialogue. unfold pool_select.
  cbn [Dialogue.store Dialogue.userStates].
  rewrite Hst, Hcmd, register_run', Hdb1.
  cbn [Dialogue.store Dialogue.userStates emitted final outcome map].
  rewrite Hlookup, Huser.
  destruct (Dialogue.goal_lines text) as [|l0 ls] eqn:Hlines; [reflexivity|].
  rewrite <- Hlines in Hloop1, Hloop2, Hsame |- *.
  rewrite (for_each_ext _ _
             (fun line => Dialogue.execute s (stmt2 line) (apply2 line))
             _ (insert_line_run s (user_id user))).
  rewrite Hloop2.
  match goal with
  | |- context [Dialogue.for_each ?ls ?f ?w] =>
      assert (Hloop1' : Dialogue.for_each ls f w = _) by exact Hloop1;
      rewrite Hloop1'
  end.
  cbn [Dialogue.store Dialogue.userStates Dialogue.calls Dialogue.after
       Dialogue.verdict].
  now rewrite Hsame.
Qed.

Lemma addmany_revisions_agree_witness :
  Dialogue.after
    (BotJsCommands.on_message (Cases.smooth Cases.quiet)
       (BotJsCommands.mkMessage 100
          (Some (lit "Run | May" ++ [nl] ++ lit "Read")))
       (Dialogue.mkWorld Scenario.runner
          [(100%Z, Dialogue.awaiting_multiple_goals)]))
  = Dialogue.after
      (ChecklistCommands.on_message (Cases.smooth Cases.quiet)
         (ChecklistCommands.mkMessage 100
            (Some (lit "Run | May" ++ [nl] ++ lit "Read")))
         (Dialogue.mkWorld Scenario.runner
            [(100%Z, Dialogue.awaiting_multiple_goals)])).
Proof.
  apply (addmany_revisions_agree (Cases.smooth Cases.quiet) 100
           (lit "Run | May" ++ [nl] ++ lit "Read") Scenario.runner
           [(100%Z, Dialogue.awaiting_multiple_goals)]);
    try reflexivity.
  - intros [ev| |]; reflexivity.
  - vm_compute. intros line [<-|[<-|[]]]; repeat constructor.
Defined.

(** ** Opening a conversation *)

(** [/start], [/addgoal] and [/addmany] in both revisions.  Their promises
    always resolve.  [/addgoal G] and [/addmany] leave the chat with the
    pending conversation they open, replacing any earlier one, and leave
    the conversations of other chats alone; [/start] opens none.  None of
    them touches goals or daily activities; [/addmany] does not touch the
    store at all. *)
Theorem conversation_openers (s : Dialogue.Setting) (chat : Z)
  (goalText : jsstring) (w : Dialogue.World) :
  let opens := fun (t : Dialogue.Trace unit) (p : option Dialogue.Pending) =>
    Dialogue.verdict t = Dialogue.Done tt
    /\ Dialogue.Map_get chat (Dialogue.userStates (Dialogue.after t))
       = match p with
         | Some v => Some v
         | None => Dialogue.Map_get chat (Dialogue.userStates w)
         end
    /\ (forall other, other <> chat ->
          Dialogue.Map_get other (Dialogue.userStates (Dialogue.after t))
          = Dialogue.Map_get other (Dialogue.userStates w))
    /\ goals (Dialogue.store (Dialogue.after t)) = goals (Dialogue.store w)
    /\ daily_activities (Dialogue.store (Dialogue.after t))
       = daily_activities (Dialogue.store w) in
  opens (ChecklistCommands.on_start s chat w) None
  /\ opens (BotJsCommands.on_start s chat w) None
  /\ opens (ChecklistCommands.on_addgoal s chat goalText w)
       (Some (Dialogue.awaiting_deadline goalText))
  /\ opens (BotJsCommands.on_addgoal s chat goalText w)
       (Some (Dialogue.awaiting_deadline goalText))
  /\ opens (ChecklistCommands.on_addmany chat w)
       (Some Dialogue.awaiting_multiple_goals)
  /\ opens (BotJsCommands.on_addmany chat w)
       (Some Dialogue.awaiting_multiple_goals)
  /\ Dialogue.store (Dialogue.after (ChecklistCommands.on_addmany chat w))
     = Dialogue.store w
  /\ Dialogue.store (Dialogue.after (BotJsCommands.on_addmany chat w))
     = Dialogue.store w.
Proof.
  intros opens. subst opens. destruct w as [db states].
  pose proof (once_registered_goals s chat db) as Hgoals.
  assert (Hdaily : daily_activities (Dialogue.once_registered s chat db)
                   = daily_activities db).
  { unfold Dialogue.once_registered, Dialogue.insert_user.
    destruct (Dialogue.troubled s _); [reflexivity|].
    now destruct (Dialogue.registered chat db). }
  unfold ChecklistCommands.on_start, BotJsCommands.on_start,
    ChecklistCommands.on_addgoal, BotJsCommands.on_addgoal,
    ChecklistCommands.on_addmany, BotJsCommands.on_addmany,
    ChecklistCommands.say, BotJsCommands.say.
  unfold_dialogue. rewrite register_run'.
  cbn [Dialogue.calls Dialogue.after Dialogue.verdict Dialogue.store
       Dialogue.userStates].
  repeat match goal with
         | |- _ /\ _ => split
         end;
    try reflexivity; try assumption;
    try apply Map_get_set_same;
    try (intros other Hne; now apply Map_get_set_other).
Qed.

(** ** The 6 AM job when the users cannot be read *)

(** In the checklist revision the query of the 6 AM job is awaited
    outside any [try]: when it fails, the job's promise is rejected with
    the store's error.  The plain revision catches and logs it.  Either
    way no plan is generated and nothing is sent or stored. *)
Theorem six_am_query_failure (e : Env) (env_for : User -> Env) (db : DB) :
  fails e (Query SelectAllUsers) = true ->
  let r1 := Checklist.daily_plans e env_for db in
  let r2 := BotJs.daily_plans e env_for db in
  outcome r1 = Throw StoreError
  /\ outcome r2 = Ok tt
  /\ emitted r1 = [ConsoleLog; Query SelectAllUsers]
  /\ emitted r2 = [ConsoleLog; Query SelectAllUsers; ConsoleError]
  /\ final r1 = db /\ final r2 = db.
Proof.
  intros Hfail r1 r2. subst r1 r2.
  unfold Checklist.daily_plans, BotJs.daily_plans.
  unfold bind, try_catch, pool_select, fire. rewrite Hfail.
  repeat split.
Qed.

Lemma six_am_query_failure_witness :
  outcome (Checklist.daily_plans Scenario.store_down
             (fun _ => Scenario.store_down) Scenario.runner)
  = Throw StoreError.
Proof.
  apply (six_am_query_failure Scenario.store_down
           (fun _ => Scenario.store_down) Scenario.runner).
  reflexivity.
Defined.

(** ** Concrete runs *)

(** The second card cannot be sent: the first two goals are addressed, the
    third is not, and the user gets the error message. *)
Example a_failed_card_ends_the_listing :
  let s := Dialogue.mkSetting Cases.quiet
             (fun c => match c with
                       | Dialogue.SendGoal _ _ 2 => true
                       | _ => false
                       end)
             (fun _ => 0%Z) (fun _ => 0%Z) 0 None (fun chat => chat) in
  let t := ChecklistCommands.on_mygoals s 100
             (Dialogue.mkWorld Scenario.prioritised []) in
  map (fun c => match c with
                | Dialogue.SendGoal _ _ g => Some g
                | _ => None
                end) (Dialogue.calls t)
  = [None; None; Some 1%Z; Some 2%Z; None; None]
  /\ Dialogue.told (Dialogue.calls t)
     = [(100%Z, ChecklistCommands.msg_current);
        (100%Z, ChecklistCommands.msg_error_fetching)]
  /\ Dialogue.verdict t = Dialogue.Done tt.
Proof. vm_compute. repeat split. Qed.

(** [/clear] from chat 100 leaves the neighbour's goal; with the store
    down the checklist revision says nothing. *)
Example clearing_spares_the_neighbour :
  goals (Dialogue.store
           (Dialogue.after
              (ChecklistCommands.on_clear (Cases.smooth Cases.quiet) 100
                 (Dialogue.mkWorld Cases.neighbours []))))
  = [mkGoal 9 2 (lit "Sing") None 0]
  /\ Dialogue.told
       (Dialogue.calls
          (ChecklistCommands.on_clear
             (Dialogue.mkSetting Cases.quiet (fun _ => true)
                (fun _ => 0%Z) (fun _ => 0%Z) 0 None (fun chat => chat)) 100
             (Dialogue.mkWorld Cases.neighbours [])))
     = [].
Proof. vm_compute. split; reflexivity. Qed.

(** A line with two bars: the plain revision keeps both parts as deadline,
    the checklist revision the first part only. *)
Example a_second_bar_tells_the_revisions_apart :
  let answer := Some (lit "Run | May | 2026") in
  let states := [(100%Z, Dialogue.awaiting_multiple_goals)] in
  map deadline
    (goals (Dialogue.store
              (Dialogue.after
                 (ChecklistCommands.on_message (Cases.smooth Cases.quiet)
                    (ChecklistCommands.mkMessage 100 answer)
                    (Dialogue.mkWorld Scenario.newcomer states)))))
  = [Some (lit "May")]
  /\ map deadline
       (goals (Dialogue.store
                 (Dialogue.after
                    (BotJsCommands.on_message (Cases.smooth Cases.quiet)
                       (BotJsCommands.mkMessage 100 answer)
                       (Dialogue.mkWorld Scenario.newcomer states)))))
     = [Some (lit "May | 2026")].
Proof. vm_compute. split; reflexivity. Qed.

(** A photo in the middle of a conversation: no text to trim, the
    conversation ends with the error message and no goal. *)
Example a_message_without_text_ends_the_conversation :
  let t := ChecklistCommands.on_message (Cases.smooth Cases.quiet)
             (ChecklistCommands.mkMessage 100 None)
             (Dialogue.mkWorld Scenario.newcomer
                [(100%Z, Dialogue.awaiting_deadline (lit "Run"))]) in
  Dialogue.told (Dialogue.calls t)
  = [(100%Z, ChecklistCommands.msg_error_saving)]
  /\ Dialogue.after t = Dialogue.mkWorld Scenario.newcomer []
  /\ Dialogue.verdict t = Dialogue.Done tt.
Proof. vm_compute. repeat split. Qed.
